(** * Story extraction of addon-svelte-csf: a shallow embedding

    The development follows the TypeScript sources:
    - [Fragment]      : src/utils/parser/walkers/fragment.ts
                        (full-extraction walker, identity resolver, raw source)
    - [RawSource]     : getStoryChildrenRawSource and its snippet locators
    - [CompiledNodes] : extractCompiledASTNodes (compiled-output locator)
    - [Indexer]       : src/indexer/parser.ts (parseForIndexer)

    JavaScript strings are sequences of UTF-16 code units; they are modelled
    as lists of integers.  Exceptions are modelled by a result type. *)

From Stdlib Require Import ZArith List String Ascii Lia.
From Stdlib Require Import HexadecimalString HexadecimalN.
From stdpp Require Import base option list gmap.

Open Scope Z_scope.

Set Warnings "-register-all".

(** ** JavaScript strings *)

Abbreviation jsstring := (list Z).

(** The code units of a literal written in the Basic Latin range. *)
Definition js (s : string) : jsstring :=
  List.map (fun a => Z.of_N (N_of_ascii a)) (list_ascii_of_string s).

(** [String.prototype.slice(start, end)] on integer arguments. *)
Definition slice (s : jsstring) (start end_ : Z) : jsstring :=
  let len := Z.of_nat (length s) in
  let from := if start <? 0 then Z.max (len + start) 0 else Z.min start len in
  let to := if end_ <? 0 then Z.max (len + end_) 0 else Z.min end_ len in
  firstn (Z.to_nat (to - from)) (skipn (Z.to_nat from) s).

(** ** Exceptions *)

Inductive result (E A : Type) : Type :=
| Ok (a : A)
| Throw (e : E).
Arguments Ok {E A} a.
Arguments Throw {E A} e.

Definition bind {E A B} (r : result E A) (k : A -> result E B) : result E B :=
  match r with
  | Ok a => k a
  | Throw e => Throw e
  end.

Notation "'do' x <~ r ; k" := (bind r (fun x => k))
  (at level 10, x name, r at level 100, k at level 200).

(** [try { a } catch { b }] *)
Definition try_catch {E A} (a b : result E A) : result E A :=
  match a with
  | Ok v => Ok v
  | Throw _ => b
  end.

(** ** 32-bit integer operators *)

Definition ToInt32 (x : Z) : Z := (x + 2 ^ 31) mod 2 ^ 32 - 2 ^ 31.

(** [x << n] *)
Definition shl (x n : Z) : Z := ToInt32 (Z.shiftl (ToInt32 x) (n mod 32)).

(** [x | y] *)
Definition bitor (x y : Z) : Z := ToInt32 (Z.lor (ToInt32 x) (ToInt32 y)).

(** [Number.prototype.toString(16)] on a non-negative integer: lower-case
    digits, most significant first, ["0"] for zero. *)
Definition toString16 (n : Z) : jsstring :=
  js (NilZero.string_of_uint (N.to_hex_uint (Z.to_N n))).

(** The text of a string of code units below 256, and the number that a
    hexadecimal numeral denotes. *)
Definition to_text (s : jsstring) : string :=
  string_of_list_ascii (List.map (fun c => ascii_of_N (Z.to_N c)) s).

Definition parse16 (s : jsstring) : option Z :=
  option_map (fun d => Z.of_N (N.of_hex_uint d))
    (NilZero.uint_of_string (to_text s)).

(** ** Character classes of the regular expression [/\W+(.|$)/g] *)

Definition is_word (c : Z) : bool :=
  ((48 <=? c) && (c <=? 57)) || ((65 <=? c) && (c <=? 90)) || (c =? 95)
  || ((97 <=? c) && (c <=? 122)).

Definition is_line_terminator (c : Z) : bool :=
  (c =? 10) || (c =? 13) || (c =? 8232) || (c =? 8233).

(** Upper-casing on the Basic Latin letters. *)
Definition upper_ascii (c : Z) : Z :=
  if (97 <=? c) && (c <=? 122) then c - 32 else c.

(** ** Syntax trees

    The part of the Svelte template tree and of ESTree that the walkers read. *)

Inductive LiteralValue :=
| LitString (s : jsstring)
| LitBoolean (b : bool)
| LitNumber (n : Z)
| LitNull.

Inductive Expression :=
| Literal (value : LiteralValue)
| Identifier (name : jsstring)
| ArrayExpression (elements : list Expression)
| CallExpression (callee : Expression) (arguments : list Expression)
| ObjectExpression (properties : list ObjectMember)
| OtherExpression
with ObjectMember :=
| Property (key : Expression) (value : Expression)
| SpreadElement (argument : Expression).

Inductive AttributeValuePart :=
| Text (data : jsstring)
| ExpressionTag (expression : Expression).

(** [Attribute['value']] is [true] or an array of text and expression tags. *)
Inductive AttributeValue :=
| ValueTrue
| ValueParts (parts : list AttributeValuePart).

Inductive AttributeNode :=
| Attribute (name : jsstring) (value : AttributeValue)
| SpreadAttribute (expression : Expression)
| Directive (name : jsstring).

Record CommentNode := {
  comment_data : jsstring;
  comment_start : Z;
  comment_end : Z;
}.

(** Template nodes.  [OtherNode] stands for every node kind that has no
    visitor of its own (elements, blocks, text, tags); its [children] are the
    template nodes below it in the order in which the walker reaches them. *)
Inductive TemplateNode :=
| Comment (c : CommentNode)
| Component (name : jsstring) (attributes : list AttributeNode)
    (nodes : list TemplateNode) (start end_ : Z)
| SnippetBlock (expression_name : jsstring) (body : list TemplateNode)
    (start end_ : Z)
| OtherNode (children : list TemplateNode) (start end_ : Z).

Definition node_start (n : TemplateNode) : Z :=
  match n with
  | Comment c => comment_start c
  | Component _ _ _ s _ | SnippetBlock _ _ s _ | OtherNode _ s _ => s
  end.

Definition node_end (n : TemplateNode) : Z :=
  match n with
  | Comment c => comment_end c
  | Component _ _ _ _ e | SnippetBlock _ _ _ e | OtherNode _ _ e => e
  end.

Record ComponentNode := {
  component_name : jsstring;
  component_attributes : list AttributeNode;
  component_nodes : list TemplateNode;
  component_start : Z;
  component_end : Z;
}.

Record SnippetBlockNode := {
  snippet_name : jsstring;
  snippet_body : list TemplateNode;
}.

(** Script-side nodes shared by the indexer and the compiled-output locator. *)

Inductive ImportSpecifierNode :=
| ImportSpecifier (imported local_ : jsstring)
| ImportDefaultSpecifier (local_ : jsstring)
| ImportNamespaceSpecifier (local_ : jsstring).

Definition is_import_specifier (specifier : ImportSpecifierNode) : bool :=
  match specifier with
  | ImportSpecifier _ _ => true
  | _ => false
  end.

Inductive Pattern :=
| IdentifierPattern (name : jsstring)
| ObjectPattern (properties : list PatternMember)
| OtherPattern
with PatternMember :=
| AssignmentProperty (key : Expression) (value : Pattern)
| RestElement.

Record VariableDeclarator := {
  declarator_id : Pattern;
  declarator_init : option Expression;
}.

(** A variable declaration has at least one declarator; the visitors read
    [declarations[0]]. *)
Record VariableDeclarationNode := {
  declarations_0 : VariableDeclarator;
  declarations_rest : list VariableDeclarator;
}.

(** [s.endsWith(suffix)] *)
Definition endsWith (s suffix : jsstring) : bool :=
  bool_decide (skipn (length s - length suffix) s = suffix).

(** [`${x}`] for an optional string *)
Definition template_string (x : option jsstring) : jsstring :=
  match x with
  | Some v => v
  | None => js "undefined"
  end.

(** The double quote character. *)
Definition dquote : jsstring := [34].

(** White space and line terminators removed by [String.prototype.trim]. *)
Definition is_trimmable (c : Z) : bool :=
  ((9 <=? c) && (c <=? 13)) || (c =? 32) || (c =? 160) || (c =? 5760)
  || ((8192 <=? c) && (c <=? 8202)) || (c =? 8232) || (c =? 8233)
  || (c =? 8239) || (c =? 8287) || (c =? 12288) || (c =? 65279).

Fixpoint trimStart (s : jsstring) : jsstring :=
  match s with
  | c :: r => if is_trimmable c then trimStart r else s
  | [] => []
  end.

Definition trim (s : jsstring) : jsstring :=
  rev (trimStart (rev (trimStart s))).

(** Visiting a list of nodes in order with a threaded state; the first
    exception aborts the traversal. *)
Definition visit_all {E A S} (visit : A -> S -> result E S)
  : list A -> S -> result E S :=
  fix go (l : list A) (s : S) : result E S :=
    match l with
    | [] => Ok s
    | x :: r => do s' <~ visit x s; go r s'
    end.

(** ** The replacement [name.replace(/\W+(.|$)/g, (_, chr) => chr.toUpperCase())] *)

(** One match attempt of [\W+(.|$)] at the head of [s]: the captured [chr]
    and the input left after the match.  The greedy [\W+] first tries to
    extend the run and backtracks to a shorter run when the rest fails;
    [(.|$)] tries a character that is no line terminator, then the end of
    the input. *)
Fixpoint match_nonword_run (s : jsstring) : option (jsstring * jsstring) :=
  match s with
  | [] => None
  | c :: r =>
    if is_word c then None
    else match match_nonword_run r with
         | Some m => Some m
         | None =>
           match r with
           | [] => Some ([], [])
           | d :: r' => if is_line_terminator d then None else Some ([d], r')
           end
         end
  end.

(** The global replacement: scan from the left, replace each match by the
    callback's result and resume after the match.  Every step consumes at
    least one character, so a [fuel] above the length of the input is never
    used up. *)
Fixpoint replace_nonword_runs (fuel : nat) (callback : jsstring -> jsstring)
  (s : jsstring) : jsstring :=
  match fuel with
  | O => s
  | S fuel =>
    match s with
    | [] => []
    | c :: r =>
      match match_nonword_run s with
      | Some (chr, rest) => callback chr ++ replace_nonword_runs fuel callback rest
      | None => c :: replace_nonword_runs fuel callback r
      end
    end
  end.

(** Where a run of non-word characters that is followed by [s] ends: the
    word character closing the run (none at the end of the input) and the
    input after it. *)
Fixpoint after_run (s : jsstring) : jsstring * jsstring :=
  match s with
  | [] => ([], [])
  | d :: r => if is_word d then ([d], r) else after_run r
  end.

(** The camel-case fold as the specification words it: every non-word
    character is dropped, and a word character that directly follows a
    dropped run is upper-cased. *)
Fixpoint camel_fold (follows_run : bool) (s : jsstring) : jsstring :=
  match s with
  | [] => []
  | c :: r =>
    if is_word c
    then (if follows_run then upper_ascii c else c) :: camel_fold false r
    else camel_fold true r
  end.

Module Fragment.

(** Functions of packages outside the repository. *)
Class Externals := {
  (** the tag of the [dedent] package applied to one interpolated string *)
  dedent : jsstring -> jsstring;
  (** [String.prototype.toUpperCase] *)
  toUpperCase : jsstring -> jsstring;
}.

Inductive Error :=
| MissingNameProp
    (* Missing prop 'name' in <Story> component. *)
| StoryNameConflict (name : jsstring)
    (* Story name - ${name} - conflicts with another story. *)
| AttributeNotString (name : jsstring)
    (* Attribute '${name}' is not a string *)
| AttributeNotStaticString (name : jsstring)
    (* Attribute "${name}" is not a static string *)
| AttributeNotStaticBoolean (name : jsstring)
    (* Attribute "${name}" is not a static boolean *)
| TypeError.
    (* reading a property of undefined *)

Inductive Warning :=
| StoryNameConflictWithExports (name : jsstring).
    (* Story name conflict with exports - Please add an explicit id for story ${name} *)

Definition is_name_conflict (e : Error) : bool :=
  match e with
  | StoryNameConflict _ => true
  | _ => false
  end.

Inductive SourceValue :=
| SourceBoolean (b : bool)
| SourceString (s : jsstring).

Record StoryMeta := {
  meta_id : jsstring;
  meta_name : jsstring;
  meta_description : option jsstring;
  meta_source : option SourceValue;
  meta_rawSource : option jsstring;
}.

(** The walk's [state.stories] together with the variables the visitors
    close over and the output of [logger.warn]. *)
Record WalkState := {
  stories : gmap jsstring StoryMeta;
  latestComment : option CommentNode;
  storiesIds : gset jsstring;
  storiesNames : gset jsstring;
  warnings : list Warning;
}.

(** *** hashCode *)

(** [(prev, curr) => ((prev << 5) - prev + curr.charCodeAt(0)) | 0] *)
Definition hashCode_step (prev curr : Z) : Z :=
  bitor (shl prev 5 - prev + curr) 0.

(** [str.split('').reduce(step, 0)] *)
Definition hashCode_int (str : jsstring) : Z :=
  fold_left hashCode_step str 0.

(** [Math.abs(h).toString(16)] *)
Definition hashCode (str : jsstring) : jsstring :=
  toString16 (Z.abs (hashCode_int str)).

(** The hash as the specification words it: fold [acc * 31 + charCode],
    wrapped to a signed 32-bit integer. *)
Definition fold31_step (acc c : Z) : Z := ToInt32 (acc * 31 + c).

Definition fold31 (s : jsstring) : Z := fold_left fold31_step s 0.

(** The same polynomial without intermediate wrapping. *)
Definition poly31 (s : jsstring) : Z :=
  fold_left (fun acc c => acc * 31 + c) s 0.

(** *** Attribute accessors *)

(** [attributes.find(...)]: the callback returns [node.value], which is
    [true] or an array and hence truthy, for the first [Attribute] node of
    that name. *)
Fixpoint lookupAttribute (name : jsstring) (attributes : list AttributeNode)
  : option AttributeValue :=
  match attributes with
  | [] => None
  | Attribute n value :: rest =>
    if bool_decide (n = name) then Some value else lookupAttribute name rest
  | _ :: rest => lookupAttribute name rest
  end.

Definition getBooleanFromAttribute (name : jsstring)
  (attributes : list AttributeNode) : result Error (option bool) :=
  match lookupAttribute name attributes with
  | None => Ok None
  | Some ValueTrue => Ok (Some true)
  | Some (ValueParts [ExpressionTag (Literal (LitBoolean b))]) => Ok (Some b)
  | Some (ValueParts _) => Throw (AttributeNotStaticBoolean name)
  end.

Definition getStringFromAttribute (name : jsstring)
  (attributes : list AttributeNode) : result Error (option jsstring) :=
  match lookupAttribute name attributes with
  | None => Ok None
  | Some ValueTrue => Throw (AttributeNotString name)
  | Some (ValueParts [Text data]) => Ok (Some data)
  | Some (ValueParts _) => Throw (AttributeNotStaticString name)
  end.

Definition getSourceAttribute (attributes : list AttributeNode)
  : result Error (option SourceValue) :=
  let name := js "source" in
  try_catch
    (do value <~ getBooleanFromAttribute name attributes;
     Ok (option_map SourceBoolean value))
    (do value <~ getStringFromAttribute name attributes;
     Ok (option_map SourceString value)).

(** A string is falsy when it is undefined or empty. *)
Definition truthy (s : option jsstring) : option jsstring :=
  match s with
  | Some (c :: r) => Some (c :: r)
  | _ => None
  end.

(** *** Identity *)

Definition getStoryName (attributes : list AttributeNode)
  (storiesNames : gset jsstring) : result Error jsstring :=
  do name <~ getStringFromAttribute (js "name") attributes;
  match truthy name with
  | None => Throw MissingNameProp
  | Some name =>
    if bool_decide (name ∈ storiesNames) then Throw (StoryNameConflict name)
    else Ok name
  end.

Definition generateId `{Externals} (name : jsstring) : jsstring :=
  replace_nonword_runs (S (length name)) toUpperCase name.

Definition getStoryId `{Externals} (attributes : list AttributeNode)
  (name : jsstring) (storiesIds : gset jsstring)
  : result Error (jsstring * list Warning) :=
  do id <~ getStringFromAttribute (js "id") attributes;
  match truthy id with
  | Some id => Ok (id, [])
  | None =>
    let generated := generateId name in
    if bool_decide (generated ∈ storiesIds)
    then Ok (generated ++ hashCode name, [StoryNameConflictWithExports name])
    else Ok (generated, [])
  end.

(** *** Raw source of the children *)

Definition is_children_snippet (c : TemplateNode) : bool :=
  match c with
  | SnippetBlock expression_name _ _ _ =>
    bool_decide (expression_name = js "children")
  | _ => false
  end.

(** [nodes] is [node.fragment.nodes].  Destructuring [nodes[0]] of an empty
    snippet body throws a TypeError. *)
Definition getChildrenRawSource `{Externals} (nodes : list TemplateNode)
  (rawSource : jsstring) : result Error (option jsstring) :=
  match nodes with
  | [] => Ok None
  | first :: _ =>
    match List.find is_children_snippet nodes with
    | Some (SnippetBlock _ body _ _) =>
      match body with
      | [] => Throw TypeError
      | b0 :: _ =>
        Ok (Some (dedent (slice rawSource (node_start b0)
                                (node_end (List.last body b0)))))
      end
    | _ =>
      Ok (Some (dedent (slice rawSource (node_start first)
                              (node_end (List.last nodes first)))))
    end
  end.

(** *** The visitors of [walkOnFragment] *)

Definition description_of `{Externals} (latest : option CommentNode)
  (node_start : Z) : option jsstring :=
  match latest with
  | Some c =>
    if comment_end c =? node_start - 1 then Some (dedent (comment_data c))
    else None
  | None => None
  end.

(** The [Component] visitor.  It does not call [next], so the walker does
    not descend into [nodes].  [stories] holds the entries that
    [state.stories[name] = meta] writes, by name; on the plain object of
    the source the one name [__proto__] is no key of its own, the write
    sets the prototype instead. *)
Definition visitComponent `{Externals} (source storyIdentifier : jsstring)
  (name : jsstring) (attributes : list AttributeNode)
  (nodes : list TemplateNode) (start : Z) (w : WalkState)
  : result Error WalkState :=
  do w' <~
    (if bool_decide (name = storyIdentifier) then
       do name <~ getStoryName attributes (storiesNames w);
       do sourceAttribute <~ getSourceAttribute attributes;
       do childrenRawSource <~ getChildrenRawSource nodes source;
       do idw <~ getStoryId attributes name (storiesIds w);
       let description := description_of (latestComment w) start in
       let meta := {| meta_id := fst idw; meta_name := name;
                      meta_description := description;
                      meta_source := sourceAttribute;
                      meta_rawSource := childrenRawSource |} in
       Ok {| stories := <[name := meta]> (stories w);
             latestComment := latestComment w;
             storiesIds := storiesIds w;
             storiesNames := storiesNames w;
             warnings := warnings w ++ snd idw |}
     else Ok w);
  Ok {| stories := stories w'; latestComment := None;
        storiesIds := storiesIds w'; storiesNames := storiesNames w';
        warnings := warnings w' |}.

(** The [Comment] visitor; [next()] finds no child node below a comment. *)
Definition visitComment (c : CommentNode) (w : WalkState) : WalkState :=
  {| stories := stories w; latestComment := Some c;
     storiesIds := storiesIds w; storiesNames := storiesNames w;
     warnings := warnings w |}.

(** Dispatch by node kind; nodes without a visitor pass through to their
    children. *)
Fixpoint visit `{Externals} (source storyIdentifier : jsstring)
  (node : TemplateNode) (w : WalkState) : result Error WalkState :=
  match node with
  | Comment c => Ok (visitComment c w)
  | Component name attributes nodes start _ =>
    visitComponent source storyIdentifier name attributes nodes start w
  | SnippetBlock _ body _ _ =>
    visit_all (visit source storyIdentifier) body w
  | OtherNode children _ _ =>
    visit_all (visit source storyIdentifier) children w
  end.

(** [storiesIds] is built from the keys of the still empty [state.stories];
    [storiesNames] starts empty. *)
Definition initial_state : WalkState :=
  {| stories := ∅; latestComment := None;
     storiesIds := dom (∅ : gmap jsstring StoryMeta); storiesNames := ∅;
     warnings := [] |}.

(** [walkOnFragment({ fragment, source, nodes })]: the catalog and the
    warnings logged on the way. *)
Definition walkOnFragment `{Externals} (fragment : list TemplateNode)
  (source storyIdentifier : jsstring)
  : result Error (gmap jsstring StoryMeta * list Warning) :=
  do w <~ visit_all (visit source storyIdentifier) fragment initial_state;
  Ok (stories w, warnings w).

(** [reach n m]: the walker started at [n] arrives at [m].  It passes
    through snippet blocks and nodes without a visitor, and never below a
    component. *)
Inductive reach : TemplateNode -> TemplateNode -> Prop :=
| reach_self n : reach n n
| reach_snippet expression_name body s e x m :
    In x body -> reach x m -> reach (SnippetBlock expression_name body s e) m
| reach_other children s e x m :
    In x children -> reach x m -> reach (OtherNode children s e) m.

Definition visible (fragment : list TemplateNode) (m : TemplateNode) : Prop :=
  exists n, In n fragment /\ reach n m.

End Fragment.

(** ** Raw source of a story's children: getStoryChildrenRawSource *)

Module RawSource.

(** The nodes gathered from the stories file beforehand.  The object passed
    to [defineMeta] is read only through [extractMetaPropertiesNodes]. *)
Record SvelteASTNodes := {
  snippetBlocks : list SnippetBlockNode;
  (** the arguments of the [setTemplate(...)] call, when there is one *)
  setTemplateCall : option (list Expression);
  defineMetaProperties : list ObjectMember;
}.

Inductive Error :=
| InvalidChildrenSchema (filename : option jsstring)
    (* Invalid schema. Expected '<Story />'s attribute 'children' to be an
       expression with identifier to snippet block. Stories file: ${filename} *)
| InvalidSchema
    (* Invalid schema *)
| ReferenceError
    (* [filename] is not in scope in findSetTemplateSnippetBlock *)
| TypeError.
    (* reading a property of undefined *)

(** Functions of the repository whose source is in other files: each is
    taken as given.  [extractStoryAttributesNodes] yields the value of the
    attribute node it finds under the requested name,
    [extractMetaPropertiesNodes] the value of the property it finds. *)
Class Deps := {
  extractStoryAttributesNodes :
    ComponentNode -> list jsstring -> jsstring -> option AttributeValue;
  extractStoryChildrenSnippetBlock : ComponentNode -> option SnippetBlockNode;
  extractMetaPropertiesNodes :
    SvelteASTNodes -> list jsstring -> jsstring -> option Expression;
}.

Definition findTemplateSnippetBlock (name : jsstring)
  (svelteASTNodes : SvelteASTNodes) : option SnippetBlockNode :=
  List.find (fun snippetBlock => bool_decide (name = snippet_name snippetBlock))
    (snippetBlocks svelteASTNodes).

Definition findSetTemplateSnippetBlock (svelteASTNodes : SvelteASTNodes)
  : result Error (option SnippetBlockNode) :=
  match setTemplateCall svelteASTNodes with
  | None => Ok None
  | Some [] => Throw TypeError
  | Some (Identifier name :: _) =>
    Ok (findTemplateSnippetBlock name svelteASTNodes)
  | Some (_ :: _) => Throw ReferenceError
  end.

Definition findChildrenPropSnippetBlock `{Deps} (component : ComponentNode)
  (svelteASTNodes : SvelteASTNodes) (filename : option jsstring)
  : result Error (option SnippetBlockNode) :=
  match extractStoryAttributesNodes component [js "children"] (js "children") with
  | None => Ok None
  | Some ValueTrue => Throw (InvalidChildrenSchema filename)
  | Some (ValueParts []) => Throw TypeError
  | Some (ValueParts (Text _ :: _)) => Throw (InvalidChildrenSchema filename)
  | Some (ValueParts (ExpressionTag (Identifier name) :: _)) =>
    Ok (findTemplateSnippetBlock name svelteASTNodes)
  | Some (ValueParts (ExpressionTag _ :: _)) =>
    Throw (InvalidChildrenSchema filename)
  end.

(** [rawCode.replace(/(\n)/g, '').trim()] *)
Definition sanitizeCodeSlice (rawCode : jsstring) : jsstring :=
  trim (List.filter (fun c => negb (c =? 10)) rawCode).

Definition getSnippetBlockBodyRawCode (originalCode : jsstring)
  (node : SnippetBlockNode) : result Error jsstring :=
  match snippet_body node with
  | [] => Throw TypeError
  | firstNode :: _ =>
    let lastNode := List.last (snippet_body node) firstNode in
    Ok (sanitizeCodeSlice
          (slice originalCode (node_start firstNode) (node_end lastNode)))
  end.

Definition getDefineMetaComponentName `{Deps} (svelteASTNodes : SvelteASTNodes)
  : result Error jsstring :=
  match extractMetaPropertiesNodes svelteASTNodes [js "component"] (js "component") with
  | None => Ok (js "!unspecified")
  | Some (Identifier name) => Ok name
  | Some _ => Throw InvalidSchema
  end.

Definition getStoryChildrenRawSource `{Deps} (component : ComponentNode)
  (svelteASTNodes : SvelteASTNodes) (originalCode : jsstring)
  (filename : option jsstring) : result Error jsstring :=
  match component_nodes component with
  | [] =>
    do storyAttributeChildrenSnippetBlock <~
      findChildrenPropSnippetBlock component svelteASTNodes filename;
    match storyAttributeChildrenSnippetBlock with
    | Some block => getSnippetBlockBodyRawCode originalCode block
    | None =>
      do setTemplateSnippetBlock <~ findSetTemplateSnippetBlock svelteASTNodes;
      match setTemplateSnippetBlock with
      | Some block => getSnippetBlockBodyRawCode originalCode block
      | None =>
        do name <~ getDefineMetaComponentName svelteASTNodes;
        Ok (js "<" ++ name ++ js " {...args} />")
      end
    end
  | firstNode :: _ =>
    match extractStoryChildrenSnippetBlock component with
    | Some block => getSnippetBlockBodyRawCode originalCode block
    | None =>
      let lastNode := List.last (component_nodes component) firstNode in
      Ok (sanitizeCodeSlice
            (slice originalCode (node_start firstNode) (node_end lastNode)))
    end
  end.

(** What the second and third case of a self-closing [<Story />] yield: the
    snippet named by [setTemplate], else the placeholder. *)
Definition setTemplateOrPlaceholder `{Deps} (svelteASTNodes : SvelteASTNodes)
  (originalCode : jsstring) : result Error jsstring :=
  do setTemplateSnippetBlock <~ findSetTemplateSnippetBlock svelteASTNodes;
  match setTemplateSnippetBlock with
  | Some block => getSnippetBlockBodyRawCode originalCode block
  | None =>
    do name <~ getDefineMetaComponentName svelteASTNodes;
    Ok (js "<" ++ name ++ js " {...args} />")
  end.

End RawSource.

(** ** The compiled-output locator: extractCompiledASTNodes *)

Module CompiledNodes.

(** [pkg.name] of the imported package.json and [process.env.NODE_ENV]. *)
Class Env := {
  pkg_name : jsstring;
  NODE_ENV : option jsstring;
}.

(** The compiled program.  [Other] stands for every node kind without a
    visitor; the walker passes through it to its child nodes. *)
Inductive Node :=
| ImportDeclaration (source : jsstring) (specifiers : list ImportSpecifierNode)
| VariableDeclaration (d : VariableDeclarationNode)
| ExportDefaultDeclaration (declaration : Node)
| FunctionDeclaration (id : option jsstring)
| Other (children : list Node).

Inductive Error :=
| JsError (message : jsstring).

(** [Partial<CompiledASTNodes>] *)
Record State := {
  defineMetaImport : option ImportSpecifierNode;
  defineMetaVariableDeclaration : option VariableDeclarationNode;
  exportDefault : option Node;
  storyIdentifier : option jsstring;
  storiesFunctionDeclaration : option Node;
}.

Record CompiledASTNodes := {
  found_defineMetaImport : ImportSpecifierNode;
  found_defineMetaVariableDeclaration : VariableDeclarationNode;
  found_exportDefault : Node;
  found_storyIdentifier : jsstring;
  found_storiesFunctionDeclaration : Node;
}.

Definition local_name (specifier : ImportSpecifierNode) : jsstring :=
  match specifier with
  | ImportSpecifier _ l | ImportDefaultSpecifier l
  | ImportNamespaceSpecifier l => l
  end.

(** [fnDeclaration.id?.name.endsWith('_stories')] *)
Definition isStoriesComponentFn (id : option jsstring) : bool :=
  match id with
  | Some name => endsWith name (js "_stories")
  | None => false
  end.

Definition defaultOrNamespaceImportMessage `{Env} (filename : option jsstring)
  : jsstring :=
  js "Don't use the default/namespace import from " ++ dquote ++ pkg_name
  ++ dquote ++ js " in the stories file: " ++ template_string filename.

(** The [ImportSpecifier] visitor. *)
Definition visitImportSpecifier (node : ImportSpecifierNode) (state : State)
  : State :=
  match node with
  | ImportSpecifier imported _ =>
    if bool_decide (imported = js "defineMeta")
    then {| defineMetaImport := Some node;
            defineMetaVariableDeclaration := defineMetaVariableDeclaration state;
            exportDefault := exportDefault state;
            storyIdentifier := storyIdentifier state;
            storiesFunctionDeclaration := storiesFunctionDeclaration state |}
    else state
  | _ => state
  end.

(** The body of the loop over [specifiers] in the [ImportDeclaration]
    visitor. *)
Definition visitSpecifier `{Env} (filename : option jsstring)
  (specifier : ImportSpecifierNode) (state : State) : result Error State :=
  match specifier with
  | ImportSpecifier _ _ => Ok (visitImportSpecifier specifier state)
  | _ => Throw (JsError (defaultOrNamespaceImportMessage filename))
  end.

(** The loop over [id.properties] in the [VariableDeclaration] visitor. *)
Definition storyIdentifier_of (properties : list PatternMember)
  (current : option jsstring) : option jsstring :=
  fold_left
    (fun found property =>
       match property with
       | AssignmentProperty (Identifier key) (IdentifierPattern value) =>
         if bool_decide (key = js "Story") then Some value else found
       | _ => found
       end)
    properties current.

Definition visitVariableDeclaration (node : VariableDeclarationNode)
  (state : State) : State :=
  let declaration := declarations_0 node in
  match declarator_id declaration, declarator_init declaration with
  | ObjectPattern properties, Some (CallExpression (Identifier callee) _) =>
    if bool_decide (Some callee = option_map local_name (defineMetaImport state))
    then {| defineMetaImport := defineMetaImport state;
            defineMetaVariableDeclaration := Some node;
            exportDefault := exportDefault state;
            storyIdentifier :=
              storyIdentifier_of properties (storyIdentifier state);
            storiesFunctionDeclaration := storiesFunctionDeclaration state |}
    else state
  | _, _ => state
  end.

Definition visitExportDefaultDeclaration `{Env} (node declaration : Node)
  (state : State) : State :=
  {| defineMetaImport := defineMetaImport state;
     defineMetaVariableDeclaration := defineMetaVariableDeclaration state;
     exportDefault := Some node;
     storyIdentifier := storyIdentifier state;
     storiesFunctionDeclaration :=
       match declaration with
       | FunctionDeclaration id =>
         if bool_decide (NODE_ENV = Some (js "production"))
            && isStoriesComponentFn id
         then Some declaration
         else storiesFunctionDeclaration state
       | _ => storiesFunctionDeclaration state
       end |}.

Definition visitFunctionDeclaration (node : Node) (id : option jsstring)
  (state : State) : State :=
  if isStoriesComponentFn id
  then {| defineMetaImport := defineMetaImport state;
          defineMetaVariableDeclaration := defineMetaVariableDeclaration state;
          exportDefault := exportDefault state;
          storyIdentifier := storyIdentifier state;
          storiesFunctionDeclaration := Some node |}
  else state.

(** Dispatch by node kind.  Only [Other] nodes pass through to their
    children: none of the visitors calls [next]. *)
Fixpoint visit `{Env} (filename : option jsstring) (node : Node)
  (state : State) : result Error State :=
  match node with
  | ImportDeclaration source specifiers =>
    if bool_decide (source = pkg_name)
    then visit_all (visitSpecifier filename) specifiers state
    else Ok state
  | VariableDeclaration d => Ok (visitVariableDeclaration d state)
  | ExportDefaultDeclaration declaration =>
    Ok (visitExportDefaultDeclaration node declaration state)
  | FunctionDeclaration id => Ok (visitFunctionDeclaration node id state)
  | Other children => visit_all (visit filename) children state
  end.

Definition empty_state : State :=
  {| defineMetaImport := None; defineMetaVariableDeclaration := None;
     exportDefault := None; storyIdentifier := None;
     storiesFunctionDeclaration := None |}.

Definition in_compiled_output (what : jsstring) (filename : option jsstring)
  : jsstring :=
  js "Could not find " ++ what ++ js " in the compiled output of the stories file: "
  ++ template_string filename.

(** [extractCompiledASTNodes({ ast, filename })]; [ast] is the body of the
    program. *)
Definition extractCompiledASTNodes `{Env} (ast : list Node)
  (filename : option jsstring) : result Error CompiledASTNodes :=
  do state <~ visit_all (visit filename) ast empty_state;
  match defineMetaImport state with
  | None =>
    Throw (JsError
      (js "Could not find 'defineMeta' imported from the " ++ dquote
       ++ pkg_name ++ dquote ++ js " in the compiled output of stories file: "
       ++ template_string filename))
  | Some defineMetaImport =>
  match defineMetaVariableDeclaration state with
  | None =>
    Throw (JsError
      (in_compiled_output
         (js "'" ++ local_name defineMetaImport ++ js "({ ... })'") filename))
  | Some defineMetaVariableDeclaration =>
  match exportDefault state with
  | None => Throw (JsError (in_compiled_output (js "'export default'") filename))
  | Some exportDefault =>
  match storyIdentifier state with
  | None =>
    Throw (JsError (in_compiled_output (js "'Story' identifier") filename))
  | Some storyIdentifier =>
  match storiesFunctionDeclaration state with
  | None =>
    Throw (JsError
      (in_compiled_output
         (js "the stories component '*.stories.svelte' function") filename))
  | Some storiesFunctionDeclaration =>
    Ok {| found_defineMetaImport := defineMetaImport;
          found_defineMetaVariableDeclaration := defineMetaVariableDeclaration;
          found_exportDefault := exportDefault;
          found_storyIdentifier := storyIdentifier;
          found_storiesFunctionDeclaration := storiesFunctionDeclaration |}
  end end end end end.

End CompiledNodes.

(** ** The indexer pass: parseForIndexer *)

Module Indexer.

Inductive Error :=
| MissingModuleTagError (filename : jsstring)
| DefaultOrNamespaceImportUsedError (filename : jsstring)
| GetDefineMetaFirstArgumentError (filename : jsstring)
| InvalidSyntax
    (* Invalid syntax *)
| TypeError
    (* reading a property of undefined *)
| RangeError
    (* Maximum call stack size exceeded *)
| HelperError (message : jsstring).
    (* whatever one of the helpers below throws *)

(** [pkg.name] and the functions of the repository whose source is in other
    files; each is taken as given. *)
Class Deps := {
  pkg_name : jsstring;
  extractStoryAttributesNodes :
    ComponentNode -> list jsstring -> jsstring -> option AttributeNode;
  getStoryIdentifiers :
    ComponentNode -> option AttributeNode -> option AttributeNode -> jsstring ->
    result Error (jsstring * jsstring);
  getStringValueFromAttribute :
    ComponentNode -> AttributeNode -> jsstring -> result Error (option jsstring);
  getArrayOfStringsValueFromAttribute :
    ComponentNode -> option AttributeNode -> jsstring ->
    result Error (list jsstring);
  getPropertyStringValue :
    ObjectMember -> jsstring -> result Error (option jsstring);
  getPropertyArrayOfStringsValue :
    ObjectMember -> jsstring -> result Error (list jsstring);
}.

Inductive Statement :=
| ImportDeclaration (source : jsstring) (specifiers : list ImportSpecifierNode)
| VariableDeclaration (d : VariableDeclarationNode)
| ExportNamedDeclaration (declaration : option Statement)
| OtherStatement.

Record ScriptNode := {
  script_content : list Statement;
  script_context : jsstring;
}.

Record RootNode := {
  root_module : option ScriptNode;
  root_fragment : list TemplateNode;
}.

Record Meta := {
  title : option jsstring;
  tags : option (list jsstring);
}.

Record StoryEntry := {
  exportName : jsstring;
  name : jsstring;
  story_tags : list jsstring;
}.

Record Results := {
  meta : Meta;
  stories : list StoryEntry;
}.

(** [results] with the variables that the visitors close over. *)
Record State := {
  results : Results;
  defineMetaIdentifier : jsstring;
  componentStoryIdentifier : option jsstring;
  componentMetaIdentifier : jsstring;
  foundMeta : bool;
}.

Definition set_results (r : Results) (st : State) : State :=
  {| results := r; defineMetaIdentifier := defineMetaIdentifier st;
     componentStoryIdentifier := componentStoryIdentifier st;
     componentMetaIdentifier := componentMetaIdentifier st;
     foundMeta := foundMeta st |}.

Definition set_componentStoryIdentifier (v : option jsstring) (st : State)
  : State :=
  {| results := results st; defineMetaIdentifier := defineMetaIdentifier st;
     componentStoryIdentifier := v;
     componentMetaIdentifier := componentMetaIdentifier st;
     foundMeta := foundMeta st |}.

Definition set_componentMetaIdentifier (v : jsstring) (st : State) : State :=
  {| results := results st; defineMetaIdentifier := defineMetaIdentifier st;
     componentStoryIdentifier := componentStoryIdentifier st;
     componentMetaIdentifier := v;
     foundMeta := foundMeta st |}.

Definition set_foundMeta (v : bool) (st : State) : State :=
  {| results := results st; defineMetaIdentifier := defineMetaIdentifier st;
     componentStoryIdentifier := componentStoryIdentifier st;
     componentMetaIdentifier := componentMetaIdentifier st;
     foundMeta := v |}.

Definition set_title (v : option jsstring) (st : State) : State :=
  set_results
    {| meta := {| title := v; tags := tags (meta (results st)) |};
       stories := stories (results st) |} st.

Definition set_tags (v : option (list jsstring)) (st : State) : State :=
  set_results
    {| meta := {| title := title (meta (results st)); tags := v |};
       stories := stories (results st) |} st.

Definition push_story (s : StoryEntry) (st : State) : State :=
  set_results
    {| meta := meta (results st); stories := stories (results st) ++ [s] |} st.

(** An ImportSpecifier node has the properties [imported] and [local]; the
    visitor reads [specifier.import], which no node has. *)
Definition specifier_import (specifier : ImportSpecifierNode) : option jsstring :=
  None.

(** [x.name] where [x] may be undefined. *)
Definition read_name (x : option jsstring) : result Error jsstring :=
  match x with
  | Some n => Ok n
  | None => Throw TypeError
  end.

(** The body of the loop over [specifiers] in the [ImportDeclaration]
    visitor.  [legacyTemplate && ...] reads [specifier.import.name] only in
    legacy mode. *)
Definition visitSpecifier (legacyTemplate : bool) (filename : jsstring)
  (specifier : ImportSpecifierNode) (st : State) : result Error State :=
  match specifier with
  | ImportSpecifier _ local_ =>
    do st <~
      (if legacyTemplate then
         do n <~ read_name (specifier_import specifier);
         Ok (if bool_decide (n = defineMetaIdentifier st)
             then set_componentMetaIdentifier local_ st else st)
       else Ok st);
    do st <~
      (if legacyTemplate then
         do n <~ read_name (specifier_import specifier);
         Ok (if bool_decide (n = componentMetaIdentifier st)
             then set_componentMetaIdentifier local_ st else st)
       else Ok st);
    (if legacyTemplate then
       do n <~ read_name (specifier_import specifier);
       Ok (if bool_decide (Some n = componentStoryIdentifier st)
           then set_componentStoryIdentifier (Some local_) st else st)
     else Ok st)
  | _ => Throw (DefaultOrNamespaceImportUsedError filename)
  end.

Definition visitImportDeclaration (legacyTemplate : bool) (filename : jsstring)
  (specifiers : list ImportSpecifierNode) (st : State) : result Error State :=
  visit_all (visitSpecifier legacyTemplate filename) specifiers st.

(** The [Property] visitor. *)
Definition visitProperty `{Deps} (filename : jsstring) (node : ObjectMember)
  (st : State) : result Error State :=
  match node with
  | Property (Identifier key_name) _ =>
    do st <~
      (if bool_decide (key_name = js "title") then
         do v <~ getPropertyStringValue node filename; Ok (set_title v st)
       else Ok st);
    (if bool_decide (key_name = js "tags") then
       do v <~ getPropertyArrayOfStringsValue node filename;
       Ok (set_tags (Some v) st)
     else Ok st)
  | _ => Ok st
  end.

Definition is_identifier_property (property : ObjectMember) : bool :=
  match property with
  | Property (Identifier _) _ => true
  | _ => false
  end.

(** The [ObjectExpression] visitor: for every property with an identifier
    key it calls [visit(node, state)] on the object expression itself.
    [stack] is the call depth left; exhausting it throws a RangeError. *)
Fixpoint visitObjectExpression (stack : nat) (properties : list ObjectMember)
  (st : State) : result Error State :=
  match stack with
  | O => Throw RangeError
  | S stack =>
    visit_all
      (fun property st =>
         if is_identifier_property property
         then visitObjectExpression stack properties st
         else Ok st)
      properties st
  end.

(** [properties.find(...)] on the destructuring pattern, then [.value]. *)
Fixpoint find_story_property (componentStoryIdentifier : option jsstring)
  (properties : list PatternMember) : option Pattern :=
  match properties with
  | [] => None
  | AssignmentProperty (Identifier key_name) value :: rest =>
    if bool_decide (Some key_name = componentStoryIdentifier) then Some value
    else find_story_property componentStoryIdentifier rest
  | _ :: rest => find_story_property componentStoryIdentifier rest
  end.

(** [(value as Identifier).name] *)
Definition pattern_name (p : Pattern) : option jsstring :=
  match p with
  | IdentifierPattern n => Some n
  | _ => None
  end.

Definition visitVariableDeclaration (stack : nat) (legacyTemplate : bool)
  (filename : jsstring) (node : VariableDeclarationNode) (st : State)
  : result Error State :=
  let id := declarator_id (declarations_0 node) in
  let init := declarator_init (declarations_0 node) in
  do st <~
    match init with
    | Some (CallExpression (Identifier callee_name) arguments_) =>
      if bool_decide (callee_name = defineMetaIdentifier st) then
        let st := set_foundMeta true st in
        match id with
        | ObjectPattern properties =>
          match find_story_property (componentStoryIdentifier st) properties with
          | None => Throw InvalidSyntax
          | Some value =>
            let st := set_componentStoryIdentifier (pattern_name value) st in
            match arguments_ with
            | [] => Throw TypeError
            | ObjectExpression properties :: _ =>
              visitObjectExpression stack properties st
            | _ :: _ => Throw (GetDefineMetaFirstArgumentError filename)
            end
          end
        | _ => Throw InvalidSyntax
        end
      else Ok st
    | _ => Ok st
    end;
  match id with
  | IdentifierPattern name =>
    if legacyTemplate && negb (foundMeta st) && bool_decide (name = js "meta")
    then
      let st := set_foundMeta true st in
      match init with
      | Some (ObjectExpression properties) =>
        visitObjectExpression stack properties st
      | _ => Throw (GetDefineMetaFirstArgumentError filename)
      end
    else Ok st
  | _ => Ok st
  end.

(** The body of the loop over [body] in the [Program] visitor. *)
Definition visitStatement `{Deps} (stack : nat) (legacyTemplate : bool)
  (filename : jsstring) (statement : Statement) (st : State)
  : result Error State :=
  match statement with
  | ImportDeclaration source specifiers =>
    if legacyTemplate && bool_decide (source = pkg_name)
    then visitImportDeclaration legacyTemplate filename specifiers st
    else Ok st
  | VariableDeclaration d =>
    visitVariableDeclaration stack legacyTemplate filename d st
  | ExportNamedDeclaration (Some (VariableDeclaration d)) =>
    if legacyTemplate
    then visitVariableDeclaration stack legacyTemplate filename d st
    else Ok st
  | _ => Ok st
  end.

Definition visitProgram `{Deps} (stack : nat) (legacyTemplate : bool)
  (filename : jsstring) (body : list Statement) (st : State)
  : result Error State :=
  visit_all (visitStatement stack legacyTemplate filename) body st.

Definition visitScript `{Deps} (stack : nat) (legacyTemplate : bool)
  (filename : jsstring) (node : ScriptNode) (st : State) : result Error State :=
  if bool_decide (script_context node = js "module")
  then visitProgram stack legacyTemplate filename (script_content node) st
  else Ok st.

(** The loop over [attributes] of a legacy [<Meta>] tag.  Each extracted
    value is compared with the current one by [===] and the outcome of the
    comparison is dropped. *)
Definition visitMetaAttribute `{Deps} (filename : jsstring)
  (node : ComponentNode) (attribute : AttributeNode) (st : State)
  : result Error State :=
  match attribute with
  | Attribute attr_name _ =>
    do st <~
      (if bool_decide (attr_name = js "title") then
         do v <~ getStringValueFromAttribute node attribute filename;
         let _ := bool_decide (title (meta (results st)) = v) in Ok st
       else Ok st);
    (if bool_decide (attr_name = js "tags") then
       do v <~ getArrayOfStringsValueFromAttribute node (Some attribute) filename;
       let _ := bool_decide (tags (meta (results st)) = Some v) in Ok st
     else Ok st)
  | _ => Ok st
  end.

(** The [Component] visitor. *)
Definition visitComponent `{Deps} (legacyTemplate : bool) (filename : jsstring)
  (node : ComponentNode) (st : State) : result Error State :=
  do st <~
    (if negb (foundMeta st) && legacyTemplate
        && bool_decide (component_name node = componentMetaIdentifier st)
     then visit_all (visitMetaAttribute filename node)
            (component_attributes node) st
     else Ok st);
  if bool_decide (Some (component_name node) = componentStoryIdentifier st)
  then
    let attribute :=
      extractStoryAttributesNodes node [js "exportName"; js "name"; js "tags"] in
    do ids <~
      getStoryIdentifiers node (attribute (js "name"))
        (attribute (js "exportName")) filename;
    do tags <~
      getArrayOfStringsValueFromAttribute node (attribute (js "tags")) filename;
    Ok (push_story
          {| exportName := fst ids; name := snd ids; story_tags := tags |} st)
  else Ok st.

(** The [Fragment] visitor: only the components directly in [nodes]. *)
Definition visitFragment `{Deps} (legacyTemplate : bool) (filename : jsstring)
  (nodes : list TemplateNode) (st : State) : result Error State :=
  visit_all
    (fun node st =>
       match node with
       | Component name attributes nodes start end_ =>
         visitComponent legacyTemplate filename
           {| component_name := name; component_attributes := attributes;
              component_nodes := nodes; component_start := start;
              component_end := end_ |} st
       | _ => Ok st
       end)
    nodes st.

(** The [Root] visitor: it checks for the module script and visits the
    fragment. *)
Definition visitRoot `{Deps} (legacyTemplate : bool) (filename : jsstring)
  (node : RootNode) (st : State) : result Error State :=
  match root_module node with
  | None =>
    if negb legacyTemplate then Throw (MissingModuleTagError filename)
    else visitFragment legacyTemplate filename (root_fragment node) st
  | Some _ => visitFragment legacyTemplate filename (root_fragment node) st
  end.

Definition initial_state : State :=
  {| results := {| meta := {| title := None; tags := None |}; stories := [] |};
     defineMetaIdentifier := js "defineMeta";
     componentStoryIdentifier := Some (js "Story");
     componentMetaIdentifier := js "Meta";
     foundMeta := false |}.

(** [parseForIndexer(filename, { legacyTemplate })] on the parsed file. *)
Definition parseForIndexer `{Deps} (filename : jsstring) (legacyTemplate : bool)
  (svelteAST : RootNode) : result Error Results :=
  do st <~ visitRoot legacyTemplate filename svelteAST initial_state;
  Ok (results st).

End Indexer.

(** ** Example inputs *)

Module Examples.

(** Stand-ins for the functions taken as given, to run the walkers on
    concrete documents: [dedent] as it acts on a single line, which it
    trims, [toUpperCase] as it acts on Basic Latin text. *)
Definition externals : Fragment.Externals :=
  {| Fragment.dedent := trim;
     Fragment.toUpperCase := List.map upper_ascii |}.

Definition string_attribute (name value : string) : AttributeNode :=
  Attribute (js name) (ValueParts [Text (js value)]).

Definition story (attributes : list AttributeNode) (nodes : list TemplateNode)
  (start end_ : Z) : TemplateNode :=
  Component (js "Story") attributes nodes start end_.

(** [<Story name='A' id='first' />] followed by [<Story name='A' id='second' />] *)
Definition same_name_twice : list TemplateNode :=
  [ story [string_attribute "name" "A"; string_attribute "id" "first"] [] 0 29;
    OtherNode [] 29 30;
    story [string_attribute "name" "A"; string_attribute "id" "second"] [] 30 60 ].

(** [<Story name='Primary CTA!!' />] followed by [<Story name='Primary CTA??' />] *)
Definition colliding_generated_ids : list TemplateNode :=
  [ story [string_attribute "name" "Primary CTA!!"] [] 0 30;
    OtherNode [] 30 31;
    story [string_attribute "name" "Primary CTA??"] [] 31 61 ].

(** [<!-- Primary button -->], a line break, [<Story name='Primary' />] *)
Definition primary_comment : CommentNode :=
  {| comment_data := js " Primary button "; comment_start := 0;
     comment_end := 23 |}.

Definition commented_story : list TemplateNode :=
  [ Comment primary_comment;
    OtherNode [] 23 24;
    story [string_attribute "name" "Primary"] [] 24 48 ].

Definition nested_source : jsstring :=
  js "<Story name='Outer'><Story name='Inner' /></Story><Wrapper><Story name='Hidden' /></Wrapper>".

(** A marker inside a marker, and a marker inside another component. *)
Definition nested_markers : list TemplateNode :=
  [ story [string_attribute "name" "Outer"]
      [ story [string_attribute "name" "Inner"] [] 20 42 ] 0 50;
    Component (js "Wrapper") []
      [ story [string_attribute "name" "Hidden"] [] 59 82 ] 50 92 ].

Definition story_meta (id name : string) (description rawSource : option jsstring)
  : Fragment.StoryMeta :=
  {| Fragment.meta_id := js id; Fragment.meta_name := js name;
     Fragment.meta_description := description;
     Fragment.meta_source := None;
     Fragment.meta_rawSource := rawSource |}.

(** The walk of [commented_story] just before and just after its marker. *)
Definition before_commented_story : Fragment.WalkState :=
  Fragment.visitComment primary_comment Fragment.initial_state.

Definition after_commented_story : Fragment.WalkState :=
  {| Fragment.stories :=
       {[ js "Primary" :=
            story_meta "Primary" "Primary" (Some (js "Primary button")) None ]};
     Fragment.latestComment := None;
     Fragment.storiesIds := ∅;
     Fragment.storiesNames := ∅;
     Fragment.warnings := [] |}.

(** Stand-ins for the helpers of the raw-source recovery. *)
Definition rawsource_deps : RawSource.Deps :=
  {| RawSource.extractStoryAttributesNodes :=
       fun component _ name =>
         Fragment.lookupAttribute name (component_attributes component);
     RawSource.extractStoryChildrenSnippetBlock :=
       fun component =>
         match List.find Fragment.is_children_snippet (component_nodes component) with
         | Some (SnippetBlock n body _ _) =>
           Some {| snippet_name := n; snippet_body := body |}
         | _ => None
         end;
     RawSource.extractMetaPropertiesNodes :=
       fun nodes _ name =>
         match List.find
                 (fun p => match p with
                           | Property (Identifier k) _ => bool_decide (k = name)
                           | _ => false
                           end)
                 (RawSource.defineMetaProperties nodes) with
         | Some (Property _ v) => Some v
         | _ => None
         end |}.

(** [<Story name='Default' children={missing} />] in a file that declares
    no snippet, calls no [setTemplate] and names no component. *)
Definition story_with_dangling_children : ComponentNode :=
  {| component_name := js "Story";
     component_attributes :=
       [ string_attribute "name" "Default";
         Attribute (js "children")
           (ValueParts [ExpressionTag (Identifier (js "missing"))]) ];
     component_nodes := [];
     component_start := 0;
     component_end := 43 |}.

Definition no_snippets : RawSource.SvelteASTNodes :=
  {| RawSource.snippetBlocks := [];
     RawSource.setTemplateCall := None;
     RawSource.defineMetaProperties := [] |}.

(** The same story in a file with [{#snippet other(args)}<Btn />{/snippet}]
    and [setTemplate(other)]. *)
Definition other_snippet_source : jsstring :=
  js "{#snippet other(args)}<Btn />{/snippet}<Story name='Default' children={missing} />".

Definition other_snippet_set : RawSource.SvelteASTNodes :=
  {| RawSource.snippetBlocks :=
       [ {| snippet_name := js "other";
            snippet_body := [OtherNode [] 22 29] |} ];
     RawSource.setTemplateCall := Some [Identifier (js "other")];
     RawSource.defineMetaProperties := [] |}.

Definition env : CompiledNodes.Env :=
  {| CompiledNodes.pkg_name := js "@storybook/addon-svelte-csf";
     CompiledNodes.NODE_ENV := Some (js "development") |}.

(** [import addon from '@storybook/addon-svelte-csf';] after another
    statement. *)
Definition compiled_with_default_import : list CompiledNodes.Node :=
  [ CompiledNodes.ImportDeclaration (js "svelte/internal/client")
      [ImportNamespaceSpecifier (js "$")];
    CompiledNodes.ImportDeclaration (js "@storybook/addon-svelte-csf")
      [ImportDefaultSpecifier (js "addon")];
    CompiledNodes.FunctionDeclaration (Some (js "Button_stories")) ].

Definition static_string (a : AttributeNode) : option jsstring :=
  match a with
  | Attribute _ (ValueParts [Text data]) => Some data
  | _ => None
  end.

Fixpoint string_literals (elements : list Expression) : option (list jsstring) :=
  match elements with
  | [] => Some []
  | Literal (LitString s) :: rest => option_map (cons s) (string_literals rest)
  | _ => None
  end.

Definition attribute_named (name : jsstring) (a : AttributeNode) : bool :=
  match a with
  | Attribute n _ => bool_decide (n = name)
  | _ => false
  end.

(** Stand-ins for the helpers of the indexer: a static string is a single
    text, an array of strings is one expression tag holding an array of
    string literals. *)
Definition indexer_deps : Indexer.Deps :=
  {| Indexer.pkg_name := js "@storybook/addon-svelte-csf";
     Indexer.extractStoryAttributesNodes :=
       fun component _ name =>
         List.find (attribute_named name) (component_attributes component);
     Indexer.getStoryIdentifiers :=
       fun _ nameNode exportNameNode _ =>
         match nameNode, exportNameNode with
         | Some n, Some e =>
           match static_string n, static_string e with
           | Some n, Some e => Ok (e, n)
           | _, _ => Throw (Indexer.HelperError (js "not static"))
           end
         | Some n, None =>
           match static_string n with
           | Some n => Ok (n, n)
           | None => Throw (Indexer.HelperError (js "not static"))
           end
         | None, Some e =>
           match static_string e with
           | Some e => Ok (e, e)
           | None => Throw (Indexer.HelperError (js "not static"))
           end
         | None, None => Throw (Indexer.HelperError (js "no name"))
         end;
     Indexer.getStringValueFromAttribute :=
       fun _ attribute _ =>
         match static_string attribute with
         | Some s => Ok (Some s)
         | None => Throw (Indexer.HelperError (js "not static"))
         end;
     Indexer.getArrayOfStringsValueFromAttribute :=
       fun _ attribute _ =>
         match attribute with
         | None => Ok []
         | Some (Attribute _ (ValueParts [ExpressionTag (ArrayExpression es)])) =>
           match string_literals es with
           | Some l => Ok l
           | None => Throw (Indexer.HelperError (js "not static"))
           end
         | Some _ => Throw (Indexer.HelperError (js "not an array"))
         end;
     Indexer.getPropertyStringValue :=
       fun property _ =>
         match property with
         | Property _ (Literal (LitString s)) => Ok (Some s)
         | _ => Throw (Indexer.HelperError (js "not static"))
         end;
     Indexer.getPropertyArrayOfStringsValue :=
       fun property _ =>
         match property with
         | Property _ (ArrayExpression es) =>
           match string_literals es with
           | Some l => Ok l
           | None => Throw (Indexer.HelperError (js "not static"))
           end
         | _ => Throw (Indexer.HelperError (js "not an array"))
         end |}.

(** [<Meta title='Docs/Button' tags={['autodocs']} />] *)
Definition meta_tag : TemplateNode :=
  Component (js "Meta")
    [ string_attribute "title" "Docs/Button";
      Attribute (js "tags")
        (ValueParts
           [ExpressionTag (ArrayExpression [Literal (LitString (js "autodocs"))])]) ]
    [] 0 48.

(** A legacy stories file: the [<Meta>] tag above and one story. *)
Definition legacy_file : Indexer.RootNode :=
  {| Indexer.root_module := None;
     Indexer.root_fragment :=
       [ meta_tag; OtherNode [] 48 49;
         story [string_attribute "name" "Default"] [] 49 73 ] |}.

(** [import addon from '@storybook/addon-svelte-csf'] in the module script. *)
Definition program_with_default_import : list Indexer.Statement :=
  [ Indexer.ImportDeclaration (js "@storybook/addon-svelte-csf")
      [ImportDefaultSpecifier (js "addon")] ].

Definition file_with_default_import : Indexer.RootNode :=
  {| Indexer.root_module :=
       Some {| Indexer.script_content := program_with_default_import;
               Indexer.script_context := js "module" |};
     Indexer.root_fragment := [] |}.

End Examples.

(** ** The stories template context: setTemplate and useStoriesTemplate *)

Module TemplateContext.

Definition CONTEXT_KEYS : jsstring :=
  js "storybook-stories-template-snippet-context".

Section Contexts.
Variable Snippet : Type.

(** The contexts that the running component sees, by key.  The object that
    [buildContext] makes holds one piece of state, [template], and is reached
    only through the context it is stored under; the map holds that state. *)
Definition hasContext (key : jsstring) (contexts : gmap jsstring (option Snippet))
  : bool :=
  bool_decide (is_Some (contexts !! key)).

(** [buildContext()]: [template] starts undefined. *)
Definition buildContext : option Snippet := None.

(** [if (!hasContext(CONTEXT_KEYS)) setContext(CONTEXT_KEYS, buildContext())] *)
Definition ensureContext (contexts : gmap jsstring (option Snippet))
  : gmap jsstring (option Snippet) :=
  if hasContext CONTEXT_KEYS contexts then contexts
  else <[CONTEXT_KEYS := buildContext]> contexts.

(** [useStoriesTemplate()]: the template of the context and the contexts
    afterwards. *)
Definition useStoriesTemplate (contexts : gmap jsstring (option Snippet))
  : option Snippet * gmap jsstring (option Snippet) :=
  let contexts := ensureContext contexts in
  (default None (contexts !! CONTEXT_KEYS), contexts).

(** [setTemplate(snippet)]: [ctx.set(snippet)] on the context object. *)
Definition setTemplate (snippet : option Snippet)
  (contexts : gmap jsstring (option Snippet)) : gmap jsstring (option Snippet) :=
  let contexts := ensureContext contexts in
  alter (fun _ => snippet) CONTEXT_KEYS contexts.

End Contexts.

End TemplateContext.

(** ** Notions used to state further properties *)

Module Statements.
Import Fragment.

(** The entry [meta] under [key] is what the marker with these attributes
    and child nodes yields, given the sets of names and ids: its name, id,
    source and raw source.  The description is left open, it depends on the
    comment tracked when the marker is visited. *)
Definition recorded_from `{Externals} (source : jsstring)
  (names ids : gset jsstring) (attributes : list AttributeNode)
  (nodes : list TemplateNode) (key : jsstring) (meta : StoryMeta) : Prop :=
  getStoryName attributes names = Ok key
  /\ meta_name meta = key
  /\ (exists idw, getStoryId attributes key ids = Ok idw /\ meta_id meta = fst idw)
  /\ getSourceAttribute attributes = Ok (meta_source meta)
  /\ getChildrenRawSource nodes source = Ok (meta_rawSource meta).

(** What walking the nodes [roots] from state [w] to state [w'] does to the
    catalog: the sets stay, old keys stay, every new entry is recorded from
    a marker visible in [roots], and every such marker has its name among the
    keys. *)
Definition walked `{Externals} (source storyIdentifier : jsstring)
  (roots : list TemplateNode) (w w' : WalkState) : Prop :=
  storiesNames w' = storiesNames w
  /\ storiesIds w' = storiesIds w
  /\ (forall key meta, stories w' !! key = Some meta ->
      stories w !! key = Some meta
      \/ exists attributes nodes s e,
           visible roots (Component storyIdentifier attributes nodes s e)
           /\ recorded_from source (storiesNames w) (storiesIds w)
                attributes nodes key meta)
  /\ (forall key, is_Some (stories w !! key) -> is_Some (stories w' !! key))
  /\ (forall attributes nodes s e,
        visible roots (Component storyIdentifier attributes nodes s e) ->
        exists key,
          getStringFromAttribute (js "name") attributes = Ok (Some key)
          /\ is_Some (stories w' !! key)).

(** A node emptied: nothing is left of it but its place in the text. *)
Definition blank (n : TemplateNode) : TemplateNode :=
  OtherNode [] (node_start n) (node_end n).

(** A child node of a component with all below it erased: a snippet block
    keeps its name and the places of the nodes of its body, any other node
    keeps its place only. *)
Definition outline (n : TemplateNode) : TemplateNode :=
  match n with
  | SnippetBlock x body s e => SnippetBlock x (List.map blank body) s e
  | _ => blank n
  end.

(** A node with everything below every component erased. *)
Fixpoint prune (n : TemplateNode) : TemplateNode :=
  match n with
  | Comment c => Comment c
  | Component name attributes nodes s e =>
    Component name attributes (List.map outline nodes) s e
  | SnippetBlock x body s e => SnippetBlock x (List.map prune body) s e
  | OtherNode children s e => OtherNode (List.map prune children) s e
  end.

(** Whether a node is a component or has one below it. *)
Fixpoint holds_component (n : TemplateNode) : bool :=
  match n with
  | Comment _ => false
  | Component _ _ _ _ _ => true
  | SnippetBlock _ body _ _ => existsb holds_component body
  | OtherNode children _ _ => existsb holds_component children
  end.

(** The state after a component has been visited: the tracked comment is
    dropped. *)
Definition comment_cleared (w : WalkState) : WalkState :=
  {| stories := stories w; latestComment := None;
     storiesIds := storiesIds w; storiesNames := storiesNames w;
     warnings := warnings w |}.

End Statements.

(** ** Further example inputs *)

Module MoreExamples.

(** [<!-- Primary button -->], [<Wrapper />] and [<Story name='Primary' />],
    each on a line of its own. *)
Definition comment_wrapper_story : list TemplateNode :=
  [ Comment Examples.primary_comment;
    OtherNode [] 23 24;
    Component (js "Wrapper") [] [] 24 35;
    OtherNode [] 35 36;
    Examples.story [Examples.string_attribute "name" "Primary"] [] 36 60 ].

Definition after_wrapper : Fragment.WalkState :=
  {| Fragment.stories := ∅;
     Fragment.latestComment := None;
     Fragment.storiesIds := ∅;
     Fragment.storiesNames := ∅;
     Fragment.warnings := [] |}.

Definition after_wrapper_story : Fragment.WalkState :=
  {| Fragment.stories :=
       {[ js "Primary" := Examples.story_meta "Primary" "Primary" None None ]};
     Fragment.latestComment := None;
     Fragment.storiesIds := ∅;
     Fragment.storiesNames := ∅;
     Fragment.warnings := [] |}.

(** [<div><Story name='Inside' source /></div>] and
    [<Story name='Second' id='two'>Hello</Story>]. *)
Definition two_visible_source : jsstring :=
  js "<div><Story name='Inside' source /></div><Story name='Second' id='two'>Hello</Story>".

Definition inside_story : TemplateNode :=
  Examples.story
    [Examples.string_attribute "name" "Inside"; Attribute (js "source") ValueTrue]
    [] 5 35.

Definition second_story : TemplateNode :=
  Examples.story
    [Examples.string_attribute "name" "Second"; Examples.string_attribute "id" "two"]
    [OtherNode [] 71 76] 41 84.

Definition two_visible : list TemplateNode :=
  [ OtherNode [inside_story] 0 41; second_story ].

Definition two_visible_catalog : gmap jsstring Fragment.StoryMeta :=
  <[ js "Second" :=
       {| Fragment.meta_id := js "two"; Fragment.meta_name := js "Second";
          Fragment.meta_description := None;
          Fragment.meta_source := None;
          Fragment.meta_rawSource := Some (js "Hello") |} ]>
    {[ js "Inside" :=
         {| Fragment.meta_id := js "Inside"; Fragment.meta_name := js "Inside";
            Fragment.meta_description := None;
            Fragment.meta_source := Some (Fragment.SourceBoolean true);
            Fragment.meta_rawSource := None |} ]}.

(** [{#snippet tmpl(args)}<Btn {...args}/>{/snippet}] followed by
    [<Story name='Default' children={tmpl} />], in a file that also calls
    [setTemplate(other)]. *)
Definition tmpl_source : jsstring :=
  js "{#snippet tmpl(args)}<Btn {...args}/>{/snippet}<Story name='Default' children={tmpl} />".

Definition tmpl_block : SnippetBlockNode :=
  {| snippet_name := js "tmpl"; snippet_body := [OtherNode [] 21 37] |}.

Definition tmpl_nodes : RawSource.SvelteASTNodes :=
  {| RawSource.snippetBlocks := [tmpl_block];
     RawSource.setTemplateCall := Some [Identifier (js "other")];
     RawSource.defineMetaProperties := [] |}.

Definition story_with_tmpl : ComponentNode :=
  {| component_name := js "Story";
     component_attributes :=
       [ Examples.string_attribute "name" "Default";
         Attribute (js "children")
           (ValueParts [ExpressionTag (Identifier (js "tmpl"))]) ];
     component_nodes := [];
     component_start := 47;
     component_end := 87 |}.

(** [<Story name='Default' children='tmpl' />]: the attribute is a text. *)
Definition story_with_text_children : ComponentNode :=
  {| component_name := js "Story";
     component_attributes :=
       [ Examples.string_attribute "name" "Default";
         Examples.string_attribute "children" "tmpl" ];
     component_nodes := [];
     component_start := 0;
     component_end := 40 |}.

(** [{#snippet empty()}{/snippet}] referenced by [children={empty}]. *)
Definition empty_block : SnippetBlockNode :=
  {| snippet_name := js "empty"; snippet_body := [] |}.

Definition empty_block_nodes : RawSource.SvelteASTNodes :=
  {| RawSource.snippetBlocks := [empty_block];
     RawSource.setTemplateCall := None;
     RawSource.defineMetaProperties := [] |}.

Definition story_with_empty : ComponentNode :=
  {| component_name := js "Story";
     component_attributes :=
       [ Examples.string_attribute "name" "Default";
         Attribute (js "children")
           (ValueParts [ExpressionTag (Identifier (js "empty"))]) ];
     component_nodes := [];
     component_start := 27;
     component_end := 68 |}.

(** A story with inline content spread over lines:
    [<Story name='Default'>], a line with two blanks and [<Btn />], and
    [</Story>]. *)
Definition inline_source : jsstring :=
  js "<Story name='Default'>" ++ [10] ++ js "  <Btn />" ++ [10] ++ js "</Story>".

Definition story_with_inline : ComponentNode :=
  {| component_name := js "Story";
     component_attributes := [Examples.string_attribute "name" "Default"];
     component_nodes :=
       [OtherNode [] 22 25; OtherNode [] 25 32; OtherNode [] 32 33];
     component_start := 0;
     component_end := 41 |}.

(** A plain self-closing story in a file whose meta names the component
    [Button]. *)
Definition plain_story : ComponentNode :=
  {| component_name := js "Story";
     component_attributes := [Examples.string_attribute "name" "Default"];
     component_nodes := [];
     component_start := 0;
     component_end := 24 |}.

Definition button_meta : RawSource.SvelteASTNodes :=
  {| RawSource.snippetBlocks := [tmpl_block];
     RawSource.setTemplateCall := None;
     RawSource.defineMetaProperties :=
       [Property (Identifier (js "component")) (Identifier (js "Button"))] |}.

(** A file with a module script whose fragment holds a story inside a
    [<div>], a [<Button />] and two stories. *)
Definition indexed_file : Indexer.RootNode :=
  {| Indexer.root_module :=
       Some {| Indexer.script_content := [];
               Indexer.script_context := js "module" |};
     Indexer.root_fragment :=
       [ OtherNode [Examples.story [Examples.string_attribute "name" "Nested"] [] 5 28] 0 34;
         Examples.story [Examples.string_attribute "name" "First"] [] 34 56;
         Component (js "Button") [] [] 56 66;
         Examples.story
           [Examples.string_attribute "name" "Second";
            Examples.string_attribute "exportName" "Two"] [] 66 106 ] |}.

Definition indexed_result : Indexer.Results :=
  {| Indexer.meta := {| Indexer.title := None; Indexer.tags := None |};
     Indexer.stories :=
       [ {| Indexer.exportName := js "First"; Indexer.name := js "First";
            Indexer.story_tags := [] |};
         {| Indexer.exportName := js "Two"; Indexer.name := js "Second";
            Indexer.story_tags := [] |} ] |}.

(** [const { Story: S } = defineMeta({ ...shared })] *)
Definition aliased_declaration : VariableDeclarationNode :=
  {| declarations_0 :=
       {| declarator_id :=
            ObjectPattern
              [AssignmentProperty (Identifier (js "Story"))
                 (IdentifierPattern (js "S"))];
          declarator_init :=
            Some (CallExpression (Identifier (js "defineMeta"))
                    [ObjectExpression [SpreadElement (Identifier (js "shared"))]]) |};
     declarations_rest := [] |}.

(** [<Wrapper><Story /></Wrapper>] followed by
    [<Story name='Outer'><Story id={x} /></Story>]: the nested markers have
    no name, one has a dynamic id. *)
Definition nameless_nested_source : jsstring :=
  js "<Wrapper><Story /></Wrapper><Story name='Outer'><Story id={x} /></Story>".

Definition nameless_nested : list TemplateNode :=
  [ Component (js "Wrapper") [] [Examples.story [] [] 9 18] 0 28;
    Examples.story [Examples.string_attribute "name" "Outer"]
      [ Examples.story
          [Attribute (js "id") (ValueParts [ExpressionTag (Identifier (js "x"))])]
          [] 48 64 ] 28 72 ].

End MoreExamples.

(** ** Notions used to state properties of the locator and the indexer *)

Module LocatorStatements.
Import CompiledNodes.

(** What the locator's state holds at any time of the walk: the import is
    a specifier importing [defineMeta], the declaration destructures a call
    of an identifier, the default export and the stories function are nodes
    of their kind, the function's name ends with [_stories]; a story
    identifier is there only with the declaration, and the declaration only
    with the import. *)
Definition consistent (state : State) : Prop :=
  match defineMetaImport state with
  | Some (ImportSpecifier imported _) => imported = js "defineMeta"
  | Some _ => False
  | None => True
  end
  /\ match defineMetaVariableDeclaration state with
     | Some d =>
       match declarator_id (declarations_0 d),
             declarator_init (declarations_0 d) with
       | ObjectPattern _, Some (CallExpression (Identifier _) _) =>
         defineMetaImport state <> None
       | _, _ => False
       end
     | None => storyIdentifier state = None
     end
  /\ match exportDefault state with
     | Some (ExportDefaultDeclaration _) | None => True
     | Some _ => False
     end
  /\ match storiesFunctionDeclaration state with
     | Some (FunctionDeclaration id) => isStoriesComponentFn id = true
     | Some _ => False
     | None => True
     end.

(** Whether the walker meets an import of the package at or below a node. *)
Fixpoint imports_package (pkg : jsstring) (node : Node) : bool :=
  match node with
  | ImportDeclaration source _ => bool_decide (source = pkg)
  | Other children => existsb (imports_package pkg) children
  | _ => false
  end.

End LocatorStatements.

Module IndexerStatements.
Import Indexer.

(** The entry that the [Component] visitor pushes for a story. *)
Definition story_entry `{Deps} (filename : jsstring) (node : ComponentNode)
  : result Error StoryEntry :=
  let attribute :=
    extractStoryAttributesNodes node [js "exportName"; js "name"; js "tags"] in
  do ids <~
    getStoryIdentifiers node (attribute (js "name"))
      (attribute (js "exportName")) filename;
  do tags <~
    getArrayOfStringsValueFromAttribute node (attribute (js "tags")) filename;
  Ok {| exportName := fst ids; name := snd ids; story_tags := tags |}.

(** The components named [Story] directly in a fragment, in order. *)
Fixpoint top_level_stories (nodes : list TemplateNode) : list ComponentNode :=
  match nodes with
  | [] => []
  | Component name attributes children start end_ :: rest =>
    if bool_decide (name = js "Story")
    then {| component_name := name; component_attributes := attributes;
            component_nodes := children; component_start := start;
            component_end := end_ |} :: top_level_stories rest
    else top_level_stories rest
  | _ :: rest => top_level_stories rest
  end.

Definition is_variable_declaration (statement : Statement) : bool :=
  match statement with
  | VariableDeclaration _ => true
  | _ => false
  end.

End IndexerStatements.

(** * Properties *)

Module FragmentFacts.
Import Fragment.

(** *** Arithmetic of the hash *)

Lemma ToInt32_shift (x : Z) : exists k, ToInt32 x = x + k * 2 ^ 32.
Proof.
  exists (- ((x + 2 ^ 31) / 2 ^ 32)). unfold ToInt32.
  pose proof (Z.div_mod (x + 2 ^ 31) (2 ^ 32) ltac:(lia)). lia.
Qed.

Lemma ToInt32_congr (a b k : Z) : a = b + k * 2 ^ 32 -> ToInt32 a = ToInt32 b.
Proof.
  intros ->. unfold ToInt32.
  replace (b + k * 2 ^ 32 + 2 ^ 31) with (b + 2 ^ 31 + k * 2 ^ 32) by lia.
  now rewrite Z.mod_add by lia.
Qed.

Lemma ToInt32_range (x : Z) : - 2 ^ 31 <= ToInt32 x < 2 ^ 31.
Proof.
  unfold ToInt32. pose proof (Z.mod_pos_bound (x + 2 ^ 31) (2 ^ 32) ltac:(lia)). lia.
Qed.

Lemma ToInt32_small (x : Z) : - 2 ^ 31 <= x < 2 ^ 31 -> ToInt32 x = x.
Proof.
  intros H. unfold ToInt32. rewrite Z.mod_small by lia. lia.
Qed.

Lemma ToInt32_idem (x : Z) : ToInt32 (ToInt32 x) = ToInt32 x.
Proof. apply ToInt32_small, ToInt32_range. Qed.

Lemma bitor_zero (x : Z) : bitor x 0 = ToInt32 x.
Proof.
  unfold bitor. rewrite (ToInt32_small 0) by lia.
  now rewrite Z.lor_0_r, ToInt32_idem.
Qed.

Lemma shl_5 (x : Z) : exists k, shl x 5 = x * 32 + k * 2 ^ 32.
Proof.
  unfold shl. change (5 mod 32) with 5. rewrite Z.shiftl_mul_pow2 by lia.
  destruct (ToInt32_shift x) as [k1 H1].
  destruct (ToInt32_shift (ToInt32 x * 2 ^ 5)) as [k2 H2].
  exists (k1 * 32 + k2). rewrite H2, H1. lia.
Qed.

Lemma hashCode_step_mul31 (prev curr : Z) :
  hashCode_step prev curr = fold31_step prev curr.
Proof.
  unfold hashCode_step, fold31_step. rewrite bitor_zero.
  destruct (shl_5 prev) as [k Hk]. rewrite Hk.
  apply (ToInt32_congr _ _ k). lia.
Qed.

Lemma hashCode_int_fold31 (s : jsstring) : hashCode_int s = fold31 s.
Proof.
  unfold hashCode_int, fold31. generalize 0.
  induction s as [|c s IH]; intros acc; simpl; [reflexivity|].
  now rewrite hashCode_step_mul31, IH.
Qed.

Lemma fold31_poly_gen (s : jsstring) (a b : Z) :
  ToInt32 a = ToInt32 b ->
  ToInt32 (fold_left fold31_step s a)
  = ToInt32 (fold_left (fun acc c => acc * 31 + c) s b).
Proof.
  revert a b. induction s as [|c s IH]; intros a b Hab; simpl; [exact Hab|].
  apply IH. unfold fold31_step. rewrite ToInt32_idem.
  destruct (ToInt32_shift a) as [ka Ha]. destruct (ToInt32_shift b) as [kb Hb].
  apply (ToInt32_congr _ _ ((kb - ka) * 31)). lia.
Qed.

Lemma fold31_range (s : jsstring) : - 2 ^ 31 <= fold31 s < 2 ^ 31.
Proof.
  unfold fold31. assert (H : - 2 ^ 31 <= 0 < 2 ^ 31) by lia. revert H.
  generalize 0. induction s as [|c s IH]; intros acc Hacc; simpl; [exact Hacc|].
  apply IH, ToInt32_range.
Qed.

Lemma fold31_poly31 (s : jsstring) : fold31 s = ToInt32 (poly31 s).
Proof.
  rewrite <- (ToInt32_small (fold31 s)) by apply fold31_range.
  now apply fold31_poly_gen.
Qed.

Lemma to_text_js (s : string) : to_text (js s) = s.
Proof.
  unfold to_text, js. rewrite List.map_map.
  rewrite (List.map_ext _ (fun a => a)), List.map_id.
  - apply string_of_list_ascii_of_string.
  - intros a. now rewrite N2Z.id, ascii_N_embedding.
Qed.

Lemma to_hex_uint_not_Nil (n : N) : N.to_hex_uint n <> Hexadecimal.Nil.
Proof.
  rewrite <- (HexadecimalN.Unsigned.of_to n) at 1.
  rewrite HexadecimalN.Unsigned.to_of. unfold Hexadecimal.unorm.
  now destruct (Hexadecimal.nzhead (N.to_hex_uint n)).
Qed.

(** [toString16] writes the numeral of its argument. *)
Lemma parse16_toString16 (n : Z) : 0 <= n -> parse16 (toString16 n) = Some n.
Proof.
  intros Hn. unfold parse16, toString16. rewrite to_text_js.
  rewrite NilZero.usu by apply to_hex_uint_not_Nil. simpl.
  now rewrite HexadecimalN.Unsigned.of_to, Z2N.id.
Qed.

(** C7: the suffix produced by [hashCode] is the hexadecimal form of the
    absolute value of the fold [acc = acc * 31 + charCode] wrapped to a signed
    32-bit integer, a numeral that reads back as that value; each step [(acc << 5) - acc + charCode | 0] is exactly
    [acc * 31 + charCode] under 32-bit wrapping, and wrapping at every step
    agrees with wrapping the whole polynomial once. *)
Theorem hashCode_is_hex_of_fold31 (s : jsstring) :
  hashCode s = toString16 (Z.abs (fold31 s))
  /\ parse16 (hashCode s) = Some (Z.abs (fold31 s))
  /\ (forall acc c : Z, hashCode_step acc c = ToInt32 (acc * 31 + c))
  /\ fold31 s = ToInt32 (poly31 s)
  /\ 0 <= Z.abs (fold31 s) <= 2 ^ 31.
Proof.
  assert (Hh : hashCode s = toString16 (Z.abs (fold31 s))).
  { unfold hashCode. now rewrite hashCode_int_fold31. }
  split; [exact Hh|]. split; [|split; [|split]].
  - rewrite Hh. apply parse16_toString16. lia.
  - intros acc c. apply hashCode_step_mul31.
  - apply fold31_poly31.
  - pose proof (fold31_range s). lia.
Qed.

(** *** The generated id *)

Lemma word_not_line_terminator (c : Z) :
  is_word c = true -> is_line_terminator c = false.
Proof. unfold is_word, is_line_terminator. lia. Qed.

Lemma match_nonword_run_after (r : jsstring) (c : Z) :
  is_word c = false -> match_nonword_run (c :: r) = Some (after_run r).
Proof.
  revert c. induction r as [|d r IH]; intros c Hc; simpl; rewrite Hc.
  - reflexivity.
  - destruct (is_word d) eqn:Hd.
    + now rewrite (word_not_line_terminator d Hd).
    + specialize (IH d Hd). simpl in IH. rewrite Hd in IH. now rewrite IH.
Qed.

Lemma after_run_length (r : jsstring) :
  (length (snd (after_run r)) <= length r)%nat.
Proof.
  induction r as [|d r IH]; simpl; [lia|].
  destruct (is_word d); simpl; lia.
Qed.

Section GeneratedId.
Context `{Externals}.
Hypothesis toUpperCase_empty : toUpperCase [] = [].
Hypothesis toUpperCase_word :
  forall c, is_word c = true -> toUpperCase [c] = [upper_ascii c].

Lemma after_run_fold (r : jsstring) :
  camel_fold true r
  = toUpperCase (fst (after_run r)) ++ camel_fold false (snd (after_run r)).
Proof.
  induction r as [|d r IH]; simpl.
  - now rewrite toUpperCase_empty.
  - destruct (is_word d) eqn:Hd; simpl.
    + now rewrite (toUpperCase_word d Hd).
    + exact IH.
Qed.

Lemma replace_nonword_runs_fold (fuel : nat) (s : jsstring) :
  (length s <= fuel)%nat ->
  replace_nonword_runs fuel toUpperCase s = camel_fold false s.
Proof.
  revert s. induction fuel as [|fuel IH]; intros s Hlen.
  - destruct s; simpl in *; [reflexivity|lia].
  - destruct s as [|c r]; [reflexivity|].
    cbn [replace_nonword_runs camel_fold].
    destruct (is_word c) eqn:Hc.
    + simpl. rewrite Hc. f_equal. apply IH. simpl in Hlen. lia.
    + rewrite (match_nonword_run_after r c Hc).
      destruct (after_run r) as [chr rest] eqn:Hr.
      rewrite after_run_fold, Hr. simpl. f_equal. apply IH.
      pose proof (after_run_length r) as Hl. rewrite Hr in Hl.
      simpl in Hl, Hlen. lia.
Qed.

Lemma generateId_fold (name : jsstring) :
  generateId name = camel_fold false name.
Proof. unfold generateId. apply replace_nonword_runs_fold. lia. Qed.

(** C6: without an explicit literal [id] attribute the derived id is the
    camel-case fold of the name: every maximal run of non-word characters
    is removed and the character that follows the run is upper-cased.  The
    value returned is that id, followed by the hash suffix exactly when the
    id is already among [storiesIds].  "My story!!" derives "MyStory". *)
Theorem derived_id_is_camel_fold (attributes : list AttributeNode)
  (name : jsstring) (storiesIds : gset jsstring) :
  lookupAttribute (js "id") attributes = None ->
  generateId name = camel_fold false name
  /\ getStoryId attributes name storiesIds
     = Ok (if bool_decide (camel_fold false name ∈ storiesIds)
           then (camel_fold false name ++ hashCode name,
                 [StoryNameConflictWithExports name])
           else (camel_fold false name, []))
  /\ camel_fold false (js "My story!!") = js "MyStory"
  /\ getStoryId [] (js "My story!!") ∅ = Ok (js "MyStory", []).
Proof.
  intros Hid. split; [apply generateId_fold|]. split; [|split].
  - unfold getStoryId, getStringFromAttribute. rewrite Hid. simpl.
    rewrite generateId_fold. now destruct (bool_decide _).
  - reflexivity.
  - unfold getStoryId. simpl. rewrite generateId_fold. reflexivity.
Qed.

End GeneratedId.

Lemma derived_id_is_camel_fold_witness :
  @toUpperCase Examples.externals [] = []
  /\ (forall c, is_word c = true ->
      @toUpperCase Examples.externals [c] = [upper_ascii c])
  /\ lookupAttribute (js "id") [Examples.string_attribute "name" "Primary CTA!!"]
     = None
  /\ @getStoryId Examples.externals
       [Examples.string_attribute "name" "Primary CTA!!"]
       (js "Primary CTA!!") ∅
     = Ok (js "PrimaryCTA", []).
Proof.
  split; [reflexivity|]. split; [intros c _; reflexivity|].
  split; [reflexivity|].
  exact (proj1 (proj2
    (@derived_id_is_camel_fold Examples.externals eq_refl
       (fun c _ => eq_refl)
       [Examples.string_attribute "name" "Primary CTA!!"]
       (js "Primary CTA!!") ∅ eq_refl))).
Defined.

(** *** The walker *)

Lemma TemplateNode_walk_ind (P : TemplateNode -> Prop) :
  (forall c, P (Comment c)) ->
  (forall name attributes nodes s e, P (Component name attributes nodes s e)) ->
  (forall x body s e, Forall P body -> P (SnippetBlock x body s e)) ->
  (forall children s e, Forall P children -> P (OtherNode children s e)) ->
  forall n, P n.
Proof.
  intros Hcomment Hcomponent Hsnippet Hother. fix IH 1.
  intros [c|name attributes nodes s e|x body s e|children s e].
  - apply Hcomment.
  - apply Hcomponent.
  - apply Hsnippet. induction body as [|b body IHb]; constructor;
      [apply IH|exact IHb].
  - apply Hother. induction children as [|b children IHb]; constructor;
      [apply IH|exact IHb].
Qed.

Lemma bind_Ok {E A B} (r : result E A) (k : A -> result E B) (b : B) :
  bind r k = Ok b -> exists a, r = Ok a /\ k a = Ok b.
Proof. destruct r as [a|e]; simpl; [eauto|discriminate]. Qed.

Lemma getStoryName_Ok (attributes : list AttributeNode)
  (storiesNames : gset jsstring) (name : jsstring) :
  getStoryName attributes storiesNames = Ok name ->
  getStringFromAttribute (js "name") attributes = Ok (Some name).
Proof.
  unfold getStoryName. intros H.
  apply bind_Ok in H as (o & Ho & H). rewrite Ho.
  destruct o as [[|c r]|]; simpl in H; try discriminate.
  destruct (bool_decide _); [discriminate|]. now inversion H.
Qed.

Section Walker.
Context `{Externals}.
Variables source storyIdentifier : jsstring.

(** What the [Component] visitor does to the catalog: nothing for another
    component, one entry under the marker's own name for a marker. *)
Lemma visitComponent_stories name attributes nodes start w w' :
  visitComponent source storyIdentifier name attributes nodes start w = Ok w' ->
  latestComment w' = None
  /\ storiesNames w' = storiesNames w /\ storiesIds w' = storiesIds w
  /\ ((name <> storyIdentifier /\ stories w' = stories w
       /\ warnings w' = warnings w)
      \/ (name = storyIdentifier
          /\ exists own sourceAttribute rawSource idw,
              getStoryName attributes (storiesNames w) = Ok own
              /\ getSourceAttribute attributes = Ok sourceAttribute
              /\ getChildrenRawSource nodes source = Ok rawSource
              /\ getStoryId attributes own (storiesIds w) = Ok idw
              /\ warnings w' = warnings w ++ snd idw
              /\ stories w'
                 = <[own := {| meta_id := fst idw; meta_name := own;
                               meta_description :=
                                 description_of (latestComment w) start;
                               meta_source := sourceAttribute;
                               meta_rawSource := rawSource |}]> (stories w))).
Proof.
  unfold visitComponent. intros Hv.
  apply bind_Ok in Hv as (w1 & Hw1 & Hv). inversion Hv; subst w'; clear Hv.
  simpl. case_bool_decide as Hname.
  - apply bind_Ok in Hw1 as (own & Hown & Hw1).
    apply bind_Ok in Hw1 as (src & Hsrc & Hw1).
    apply bind_Ok in Hw1 as (raw & Hraw & Hw1).
    apply bind_Ok in Hw1 as (idw & Hidw & Hw1).
    inversion Hw1; subst w1; clear Hw1. simpl.
    repeat split. right. split; [exact Hname|].
    exists own, src, raw, idw. now repeat split.
  - inversion Hw1; subst w1. repeat split. left. now repeat split.
Qed.

(** C3: when a marker is recognized while a comment is tracked, the story
    recorded under the marker's name has the dedented comment as its
    description if and only if the comment ends at the marker's start
    offset minus 1, and has no description otherwise; in particular a
    marker moved further away by a blank line gets none.  The tracked
    comment is cleared afterwards. *)
Theorem description_iff_comment_adjacent
  (attributes : list AttributeNode) (nodes : list TemplateNode) (start : Z)
  (w w' : WalkState) (c : CommentNode) :
  latestComment w = Some c ->
  visitComponent source storyIdentifier storyIdentifier attributes nodes
    start w = Ok w' ->
  exists name meta,
    getStringFromAttribute (js "name") attributes = Ok (Some name)
    /\ stories w' !! name = Some meta
    /\ (meta_description meta = Some (dedent (comment_data c))
        <-> comment_end c = start - 1)
    /\ (meta_description meta = None <-> comment_end c <> start - 1)
    /\ (forall blank, 0 < blank -> start = comment_end c + 1 + blank ->
        meta_description meta = None)
    /\ latestComment w' = None.
Proof.
  intros Hc Hv.
  destruct (visitComponent_stories _ _ _ _ _ _ Hv)
    as (Hlatest & _ & _ & [(Hne & _)|(_ & own & src & raw & idw & Hown & _ & _ & _ & _ & Hst)]);
    [congruence|].
  eexists own, _. split; [now apply getStoryName_Ok in Hown|].
  split; [rewrite Hst; apply lookup_insert_eq|].
  simpl. rewrite Hc. simpl.
  destruct (Z.eqb_spec (comment_end c) (start - 1)) as [Heq|Hneq].
  - repeat split; try (intros; congruence); try discriminate.
    intros blank Hb Hs. lia.
  - repeat split; try (intros; congruence); try discriminate.
Qed.

(** C9: a marker without child nodes gets no raw source: the recovery
    returns undefined, which is not the empty string, and the story that
    the [Component] visitor records for such a marker has no rawSource. *)
Theorem no_children_no_rawSource (rawSource : jsstring)
  (attributes : list AttributeNode) (start : Z) (w : WalkState) :
  getChildrenRawSource [] rawSource = Ok None
  /\ getChildrenRawSource [] rawSource <> Ok (Some [])
  /\ visitComponent rawSource storyIdentifier storyIdentifier attributes []
       start w
     = (do name <~ getStoryName attributes (storiesNames w);
        do sourceAttribute <~ getSourceAttribute attributes;
        do idw <~ getStoryId attributes name (storiesIds w);
        Ok {| stories :=
                <[name := {| meta_id := fst idw; meta_name := name;
                             meta_description :=
                               description_of (latestComment w) start;
                             meta_source := sourceAttribute;
                             meta_rawSource := None |}]> (stories w);
              latestComment := None;
              storiesIds := storiesIds w;
              storiesNames := storiesNames w;
              warnings := warnings w ++ snd idw |}).
Proof.
  split; [reflexivity|]. split; [discriminate|].
  unfold visitComponent. rewrite bool_decide_eq_true_2 by reflexivity.
  destruct (getStoryName attributes (storiesNames w)) as [name|e]; simpl;
    [|reflexivity].
  destruct (getSourceAttribute attributes) as [src|e]; simpl; [|reflexivity].
  destruct (getStoryId attributes name (storiesIds w)) as [idw|e]; simpl;
    reflexivity.
Qed.

(** The catalog after a list of nodes has been walked, given the same
    fact for each of its nodes. *)
Lemma visit_all_catalog (l : list TemplateNode) :
  Forall
    (fun n =>
       forall w w', visit source storyIdentifier n w = Ok w' ->
       forall key meta, stories w' !! key = Some meta ->
       stories w !! key = Some meta
       \/ exists attributes nodes s e,
            reach n (Component storyIdentifier attributes nodes s e)
            /\ getStringFromAttribute (js "name") attributes = Ok (Some key)
            /\ meta_name meta = key) l ->
  forall w w', visit_all (visit source storyIdentifier) l w = Ok w' ->
  forall key meta, stories w' !! key = Some meta ->
  stories w !! key = Some meta
  \/ exists x attributes nodes s e,
       In x l
       /\ reach x (Component storyIdentifier attributes nodes s e)
       /\ getStringFromAttribute (js "name") attributes = Ok (Some key)
       /\ meta_name meta = key.
Proof.
  induction 1 as [|b l Hb _ IHl]; intros w w' Hv key meta Hk.
  - simpl in Hv. inversion Hv; subst w'. now left.
  - simpl in Hv. apply bind_Ok in Hv as (w1 & Hw1 & Hv).
    destruct (IHl w1 w' Hv key meta Hk)
      as [Hold|(x & a & ns & s & e & Hin & Hrest)].
    + destruct (Hb w w1 Hw1 key meta Hold) as [Hold'|(a & ns & s & e & Hrest)];
        [now left|].
      right. exists b, a, ns, s, e. split; [now left|exact Hrest].
    + right. exists x, a, ns, s, e. split; [now right|exact Hrest].
Qed.

(** The catalog after a node has been walked: an entry is an old one or
    comes from a marker that the walker reaches from that node. *)
Lemma visit_catalog (n : TemplateNode) :
  forall w w', visit source storyIdentifier n w = Ok w' ->
  forall key meta, stories w' !! key = Some meta ->
  stories w !! key = Some meta
  \/ exists attributes nodes s e,
       reach n (Component storyIdentifier attributes nodes s e)
       /\ getStringFromAttribute (js "name") attributes = Ok (Some key)
       /\ meta_name meta = key.
Proof.
  induction n as [c|name attributes nodes s e|x body s e IH|children s e IH]
    using TemplateNode_walk_ind; intros w w' Hv key meta Hk.
  - simpl in Hv. inversion Hv; subst w'. now left.
  - simpl in Hv.
    destruct (visitComponent_stories _ _ _ _ _ _ Hv)
      as (_ & _ & _ & [(_ & Hst & _)|(-> & own & src & raw & idw & Hown & _ & _ & _ & _ & Hst)]).
    + left. now rewrite <- Hst.
    + rewrite Hst in Hk. destruct (decide (own = key)) as [->|Hne].
      * rewrite lookup_insert_eq in Hk. inversion Hk; subst meta. right.
        exists attributes, nodes, s, e. split; [constructor|].
        split; [now apply getStoryName_Ok in Hown|reflexivity].
      * rewrite lookup_insert_ne in Hk by exact Hne. now left.
  - simpl in Hv.
    destruct (visit_all_catalog body IH w w' Hv key meta Hk)
      as [Hold|(y & a & ns & s' & e' & Hin & Hr & Hrest)]; [now left|].
    right. exists a, ns, s', e'. split; [|exact Hrest].
    eapply reach_snippet; eassumption.
  - simpl in Hv.
    destruct (visit_all_catalog children IH w w' Hv key meta Hk)
      as [Hold|(y & a & ns & s' & e' & Hin & Hr & Hrest)]; [now left|].
    right. exists a, ns, s', e'. split; [|exact Hrest].
    eapply reach_other; eassumption.
Qed.

Lemma find_outline (nodes : list TemplateNode) :
  List.find is_children_snippet (List.map Statements.outline nodes)
  = option_map Statements.outline (List.find is_children_snippet nodes).
Proof.
  induction nodes as [|n nodes IH]; simpl; [reflexivity|].
  destruct n as [c|name attributes ns s e|x body s e|children s e]; simpl;
    try exact IH.
  destruct (bool_decide (x = js "children")); [reflexivity|exact IH].
Qed.

Lemma last_map_end (g : TemplateNode -> TemplateNode)
  (l : list TemplateNode) (d : TemplateNode) :
  (forall n, node_end (g n) = node_end n) ->
  node_end (List.last (List.map g l) (g d)) = node_end (List.last l d).
Proof.
  intros Hg. induction l as [|a l IH]; simpl; [apply Hg|].
  destruct l as [|b l]; simpl in *; [apply Hg|exact IH].
Qed.

Lemma outline_place (n : TemplateNode) :
  node_start (Statements.outline n) = node_start n
  /\ node_end (Statements.outline n) = node_end n.
Proof. now destruct n. Qed.

(** The raw source of a marker is read off the places of its child nodes
    and of the nodes in the body of a [children] snippet block among them,
    and off nothing below. *)
Lemma getChildrenRawSource_outline (nodes : list TemplateNode)
  (rawSource : jsstring) :
  getChildrenRawSource (List.map Statements.outline nodes) rawSource
  = getChildrenRawSource nodes rawSource.
Proof.
  unfold getChildrenRawSource. destruct nodes as [|n0 ns]; [reflexivity|].
  change (List.map Statements.outline (n0 :: ns))
    with (Statements.outline n0 :: List.map Statements.outline ns) at 1.
  cbv iota.
  change (Statements.outline n0 :: List.map Statements.outline ns)
    with (List.map Statements.outline (n0 :: ns)).
  rewrite find_outline.
  assert (Hplain :
    Ok (Some (dedent (slice rawSource (node_start (Statements.outline n0))
                        (node_end (List.last
                           (List.map Statements.outline (n0 :: ns))
                           (Statements.outline n0))))))
    = (Ok (Some (dedent (slice rawSource (node_start n0)
                           (node_end (List.last (n0 :: ns) n0)))))
       : result Error (option jsstring))).
  { rewrite (last_map_end Statements.outline (n0 :: ns) n0)
      by (intros n; apply outline_place).
    now rewrite (proj1 (outline_place n0)). }
  destruct (List.find is_children_snippet (n0 :: ns))
    as [[c|name attributes nodes s e|x body s e|children s e]|];
    cbn [option_map Statements.outline Statements.blank]; try exact Hplain.
  destruct body as [|b0 bs]; [reflexivity|].
  change (List.map Statements.blank (b0 :: bs))
    with (Statements.blank b0 :: List.map Statements.blank bs) at 1.
  cbv iota.
  change (Statements.blank b0 :: List.map Statements.blank bs)
    with (List.map Statements.blank (b0 :: bs)).
  rewrite (last_map_end Statements.blank (b0 :: bs) b0) by reflexivity.
  reflexivity.
Qed.

Lemma visit_all_map (g : TemplateNode -> TemplateNode)
  (l : list TemplateNode) :
  Forall
    (fun n => forall w,
       visit source storyIdentifier (g n) w = visit source storyIdentifier n w)
    l ->
  forall w,
    visit_all (visit source storyIdentifier) (List.map g l) w
    = visit_all (visit source storyIdentifier) l w.
Proof.
  induction 1 as [|n l Hn _ IH]; intros w; simpl; [reflexivity|].
  rewrite Hn. destruct (visit source storyIdentifier n w); simpl;
    [apply IH|reflexivity].
Qed.

(** Walking a node and walking it with everything below every component
    erased come to the same, exceptions included. *)
Lemma visit_prune (n : TemplateNode) :
  forall w,
    visit source storyIdentifier (Statements.prune n) w
    = visit source storyIdentifier n w.
Proof.
  induction n as [c|name attributes nodes s e|x body s e IH|children s e IH]
    using TemplateNode_walk_ind; intros w.
  - reflexivity.
  - simpl. unfold visitComponent. now rewrite getChildrenRawSource_outline.
  - simpl. now apply visit_all_map.
  - simpl. now apply visit_all_map.
Qed.

Lemma outline_holds_no_component (nodes : list TemplateNode) :
  existsb Statements.holds_component (List.map Statements.outline nodes)
  = false.
Proof.
  induction nodes as [|n nodes IH]; simpl; [reflexivity|].
  rewrite IH, orb_false_r.
  destruct n as [c|name attributes ns s e|x body s e|children s e]; simpl;
    try reflexivity.
  induction body as [|b body IHb]; simpl; [reflexivity|exact IHb].
Qed.

(** C10: the [Component] visitor does not descend, so nothing below a
    component is traversed.  Visiting a component that is no marker returns
    the state with the tracked comment dropped, whatever the component
    holds; visiting a marker comes to the same, exceptions included, as
    visiting it with everything below its child nodes erased, and what is
    left there holds no component.  For every document the walk comes to
    the same, catalog, warnings and exceptions alike, as the walk of the
    document with everything below every component erased: a marker below
    a component is not recognized, adds no entry and raises nothing.  Every
    key of a returned catalog is the name of a marker that the walker
    reaches without passing below a component, and a visit of a component
    that returns has changed the catalog by at most the entry under the
    marker's own name. *)
Theorem nested_markers_not_recognized (fragment : list TemplateNode)
  (name : jsstring) (attributes : list AttributeNode)
  (nodes : list TemplateNode) (s e : Z) (w : WalkState) :
  visit source storyIdentifier (Component name attributes nodes s e) w
  = (if bool_decide (name = storyIdentifier)
     then visit source storyIdentifier
            (Component name attributes (List.map Statements.outline nodes) s e) w
     else Ok (Statements.comment_cleared w))
  /\ existsb Statements.holds_component (List.map Statements.outline nodes)
     = false
  /\ walkOnFragment fragment source storyIdentifier
     = walkOnFragment (List.map Statements.prune fragment) source
         storyIdentifier
  /\ match walkOnFragment fragment source storyIdentifier with
     | Ok (catalog, _) =>
       forall key meta, catalog !! key = Some meta ->
       exists attributes' nodes' s' e',
         visible fragment (Component storyIdentifier attributes' nodes' s' e')
         /\ getStringFromAttribute (js "name") attributes' = Ok (Some key)
         /\ meta_name meta = key
     | Throw _ => True
     end
  /\ match
       visit source storyIdentifier (Component name attributes nodes s e) w
     with
     | Ok w' =>
       (name <> storyIdentifier /\ stories w' = stories w)
       \/ (name = storyIdentifier
           /\ exists own meta,
                getStringFromAttribute (js "name") attributes = Ok (Some own)
                /\ stories w' = <[own := meta]> (stories w))
     | Throw _ => True
     end.
Proof.
  split; [|split; [apply outline_holds_no_component|split; [|split]]].
  - case_bool_decide as Hname.
    + symmetry. apply (visit_prune (Component name attributes nodes s e)).
    + simpl. unfold visitComponent.
      now rewrite bool_decide_eq_false_2 by exact Hname.
  - unfold walkOnFragment. f_equal. symmetry. apply visit_all_map.
    apply List.Forall_forall. intros n _. apply visit_prune.
  - destruct (walkOnFragment fragment source storyIdentifier)
      as [[catalog logged]|err] eqn:Hwalk; [|exact I].
    intros key meta Hk. unfold walkOnFragment in Hwalk.
    apply bind_Ok in Hwalk as (w0 & Hw & Hwalk).
    inversion Hwalk; subst catalog logged; clear Hwalk.
    assert (Hall : Forall
      (fun n => forall w w', visit source storyIdentifier n w = Ok w' ->
         forall key meta, stories w' !! key = Some meta ->
         stories w !! key = Some meta
         \/ exists attributes nodes s e,
              reach n (Component storyIdentifier attributes nodes s e)
              /\ getStringFromAttribute (js "name") attributes = Ok (Some key)
              /\ meta_name meta = key) fragment).
    { apply List.Forall_forall. intros n _. apply visit_catalog. }
    destruct (visit_all_catalog fragment Hall _ _ Hw key meta Hk)
      as [Hold|(x & a & ns & s' & e' & Hin & Hr & Hrest)].
    + simpl in Hold. rewrite lookup_empty in Hold. discriminate.
    + exists a, ns, s', e'. split; [exists x; now split|exact Hrest].
  - destruct (visit source storyIdentifier
                (Component name attributes nodes s e) w) as [w'|err] eqn:Hv;
      [|exact I].
    simpl in Hv.
    destruct (visitComponent_stories _ _ _ _ _ _ Hv)
      as (_ & _ & _ & [(Hne & Hst & _)|(-> & own & src & raw & idw & Hown & _ & _ & _ & _ & Hst)]).
    + now left.
    + right. split; [reflexivity|]. eexists own, _.
      split; [now apply getStoryName_Ok in Hown|exact Hst].
Qed.

End Walker.

(** *** The sets of names and ids

    Both sets start empty and no visitor adds to them. *)

Lemma getStringFromAttribute_no_conflict name attributes :
  match getStringFromAttribute name attributes with
  | Ok _ => True
  | Throw e => is_name_conflict e = false
  end.
Proof.
  unfold getStringFromAttribute.
  destruct (lookupAttribute name attributes) as [[|[|[d|ex] [|q qs]]]|];
    simpl; auto.
Qed.

Lemma getStoryName_empty_no_conflict attributes :
  match getStoryName attributes ∅ with
  | Ok _ => True
  | Throw e => is_name_conflict e = false
  end.
Proof.
  unfold getStoryName.
  pose proof (getStringFromAttribute_no_conflict (js "name") attributes) as Hs.
  destruct (getStringFromAttribute (js "name") attributes) as [[[|c r]|]|e];
    simpl; auto.
Qed.

Lemma getSourceAttribute_no_conflict attributes :
  match getSourceAttribute attributes with
  | Ok _ => True
  | Throw e => is_name_conflict e = false
  end.
Proof.
  unfold getSourceAttribute, try_catch.
  destruct (getBooleanFromAttribute (js "source") attributes) as [b|e]; simpl;
    [exact I|].
  pose proof (getStringFromAttribute_no_conflict (js "source") attributes) as Hs.
  destruct (getStringFromAttribute (js "source") attributes); simpl; auto.
Qed.

Lemma getChildrenRawSource_no_conflict `{Externals} nodes source :
  match getChildrenRawSource nodes source with
  | Ok _ => True
  | Throw e => is_name_conflict e = false
  end.
Proof.
  unfold getChildrenRawSource. destruct nodes as [|n0 ns]; [exact I|].
  destruct (List.find is_children_snippet (n0 :: ns))
    as [[| |x [|b0 bs] s e|]|]; simpl; auto.
Qed.

Lemma getStoryId_empty `{Externals} attributes name :
  match getStoryId attributes name ∅ with
  | Ok idw => snd idw = []
  | Throw e => is_name_conflict e = false
  end.
Proof.
  unfold getStoryId.
  pose proof (getStringFromAttribute_no_conflict (js "id") attributes) as Hs.
  destruct (getStringFromAttribute (js "id") attributes) as [[[|c r]|]|e];
    simpl; auto; case_bool_decide; simpl; auto; set_solver.
Qed.

Section EmptySets.
Context `{Externals}.
Variables source storyIdentifier : jsstring.

Lemma visitComponent_empty_sets name attributes nodes start w :
  storiesNames w = ∅ -> storiesIds w = ∅ ->
  match visitComponent source storyIdentifier name attributes nodes start w with
  | Ok w' =>
    storiesNames w' = ∅ /\ storiesIds w' = ∅ /\ warnings w' = warnings w
  | Throw e => is_name_conflict e = false
  end.
Proof.
  intros Hn Hi. unfold visitComponent. case_bool_decide as Hname; simpl;
    [|now auto].
  rewrite Hn, Hi.
  pose proof (getStoryName_empty_no_conflict attributes) as H1.
  destruct (getStoryName attributes ∅) as [own|e]; simpl; [|exact H1].
  pose proof (getSourceAttribute_no_conflict attributes) as H2.
  destruct (getSourceAttribute attributes) as [src|e]; simpl; [|exact H2].
  pose proof (getChildrenRawSource_no_conflict nodes source) as H3.
  destruct (getChildrenRawSource nodes source) as [raw|e]; simpl; [|exact H3].
  pose proof (getStoryId_empty attributes own) as H4.
  destruct (getStoryId attributes own ∅) as [idw|e]; simpl; [|exact H4].
  rewrite H4, app_nil_r. auto.
Qed.

Lemma visit_all_empty_sets (l : list TemplateNode) :
  Forall
    (fun n => forall w, storiesNames w = ∅ -> storiesIds w = ∅ ->
       match visit source storyIdentifier n w with
       | Ok w' =>
         storiesNames w' = ∅ /\ storiesIds w' = ∅ /\ warnings w' = warnings w
       | Throw e => is_name_conflict e = false
       end) l ->
  forall w, storiesNames w = ∅ -> storiesIds w = ∅ ->
  match visit_all (visit source storyIdentifier) l w with
  | Ok w' =>
    storiesNames w' = ∅ /\ storiesIds w' = ∅ /\ warnings w' = warnings w
  | Throw e => is_name_conflict e = false
  end.
Proof.
  induction 1 as [|b l Hb _ IHl]; intros w Hn Hi; simpl; [now auto|].
  specialize (Hb w Hn Hi).
  destruct (visit source storyIdentifier b w) as [w1|e]; simpl; [|exact Hb].
  destruct Hb as (Hn1 & Hi1 & Hw1). specialize (IHl w1 Hn1 Hi1).
  destruct (visit_all (visit source storyIdentifier) l w1) as [w2|e];
    [|exact IHl].
  destruct IHl as (? & ? & ?). repeat split; congruence.
Qed.

Lemma visit_empty_sets (n : TemplateNode) :
  forall w, storiesNames w = ∅ -> storiesIds w = ∅ ->
  match visit source storyIdentifier n w with
  | Ok w' =>
    storiesNames w' = ∅ /\ storiesIds w' = ∅ /\ warnings w' = warnings w
  | Throw e => is_name_conflict e = false
  end.
Proof.
  induction n as [c|name attributes nodes s e|x body s e IH|children s e IH]
    using TemplateNode_walk_ind; intros w Hn Hi.
  - simpl. auto.
  - simpl. now apply visitComponent_empty_sets.
  - simpl. now apply visit_all_empty_sets.
  - simpl. now apply visit_all_empty_sets.
Qed.

(** The walk throws no name conflict and logs no warning. *)
Lemma walkOnFragment_no_conflict (fragment : list TemplateNode) :
  match walkOnFragment fragment source storyIdentifier with
  | Ok (_, logged) => logged = []
  | Throw e => is_name_conflict e = false
  end.
Proof.
  unfold walkOnFragment.
  assert (Hall : Forall
    (fun n => forall w, storiesNames w = ∅ -> storiesIds w = ∅ ->
       match visit source storyIdentifier n w with
       | Ok w' =>
         storiesNames w' = ∅ /\ storiesIds w' = ∅ /\ warnings w' = warnings w
       | Throw e => is_name_conflict e = false
       end) fragment).
  { apply List.Forall_forall. intros n _. apply visit_empty_sets. }
  pose proof (visit_all_empty_sets fragment Hall initial_state eq_refl
                (dom_empty_L (D := gset jsstring))) as Hw.
  destruct (visit_all (visit source storyIdentifier) fragment initial_state)
    as [w|e]; simpl; [|exact Hw].
  now destruct Hw as (_ & _ & ->).
Qed.

End EmptySets.

(** *** The walk on the example documents *)

Lemma description_iff_comment_adjacent_witness :
  latestComment Examples.before_commented_story = Some Examples.primary_comment
  /\ @visitComponent Examples.externals [] (js "Story") (js "Story")
       [Examples.string_attribute "name" "Primary"] [] 24
       Examples.before_commented_story
     = Ok Examples.after_commented_story
  /\ exists name meta,
       getStringFromAttribute (js "name")
         [Examples.string_attribute "name" "Primary"] = Ok (Some name)
       /\ stories Examples.after_commented_story !! name = Some meta
       /\ (meta_description meta
           = Some (@dedent Examples.externals
                     (comment_data Examples.primary_comment))
           <-> comment_end Examples.primary_comment = 24 - 1)
       /\ (meta_description meta = None
           <-> comment_end Examples.primary_comment <> 24 - 1)
       /\ (forall blank, 0 < blank ->
           24 = comment_end Examples.primary_comment + 1 + blank ->
           meta_description meta = None)
       /\ latestComment Examples.after_commented_story = None.
Proof.
  assert (Hv : @visitComponent Examples.externals [] (js "Story") (js "Story")
                 [Examples.string_attribute "name" "Primary"] [] 24
                 Examples.before_commented_story
               = Ok Examples.after_commented_story)
    by (vm_compute; reflexivity).
  split; [reflexivity|]. split; [exact Hv|].
  exact (@description_iff_comment_adjacent Examples.externals [] (js "Story")
           [Examples.string_attribute "name" "Primary"] [] 24
           Examples.before_commented_story Examples.after_commented_story
           Examples.primary_comment eq_refl Hv).
Defined.

Lemma nested_markers_not_recognized_witness :
  @walkOnFragment Examples.externals Examples.nested_markers
    Examples.nested_source (js "Story")
  = Ok ({[ js "Outer" :=
             Examples.story_meta "Outer" "Outer" None
               (Some (js "<Story name='Inner' />")) ]}, [])
  /\ @walkOnFragment Examples.externals Examples.nested_markers
       Examples.nested_source (js "Story")
     = @walkOnFragment Examples.externals
         (List.map Statements.prune Examples.nested_markers)
         Examples.nested_source (js "Story")
  /\ @walkOnFragment Examples.externals MoreExamples.nameless_nested
       MoreExamples.nameless_nested_source (js "Story")
     = Ok ({[ js "Outer" :=
                Examples.story_meta "Outer" "Outer" None
                  (Some (js "<Story id={x} />")) ]}, [])
  /\ @walkOnFragment Examples.externals MoreExamples.nameless_nested
       MoreExamples.nameless_nested_source (js "Story")
     = @walkOnFragment Examples.externals
         (List.map Statements.prune MoreExamples.nameless_nested)
         MoreExamples.nameless_nested_source (js "Story").
Proof.
  split; [vm_compute; reflexivity|].
  split;
    [exact (proj1 (proj2 (proj2
       (@nested_markers_not_recognized Examples.externals
          Examples.nested_source (js "Story") Examples.nested_markers
          (js "Wrapper") [] [] 0 0 Fragment.initial_state))))|].
  split; [vm_compute; reflexivity|].
  exact (proj1 (proj2 (proj2
    (@nested_markers_not_recognized Examples.externals
       MoreExamples.nameless_nested_source (js "Story")
       MoreExamples.nameless_nested
       (js "Wrapper") [] [] 0 0 Fragment.initial_state)))).
Defined.

(** C1 (the code departs from it): the walk of a document with two stories
    of the same name raises no error and returns a catalog in which the
    second story has replaced the first; on no document does the walk raise
    the name conflict. *)
Theorem duplicate_name_is_not_rejected :
  @walkOnFragment Examples.externals Examples.same_name_twice [] (js "Story")
  = Ok ({[ js "A" := Examples.story_meta "second" "A" None None ]}, [])
  /\ forall (E : Externals) (fragment : list TemplateNode)
       (source storyIdentifier : jsstring),
       match walkOnFragment fragment source storyIdentifier with
       | Ok _ => True
       | Throw e => is_name_conflict e = false
       end.
Proof.
  split; [vm_compute; reflexivity|].
  intros E fragment source storyIdentifier.
  pose proof (walkOnFragment_no_conflict source storyIdentifier fragment) as Hw.
  now destruct (walkOnFragment fragment source storyIdentifier) as [[c l]|e].
Qed.

(** C2 (the code departs from it): the walk of a document with the stories
    "Primary CTA!!" and "Primary CTA??" gives both the id "PrimaryCTA" and
    logs no warning, although [getStoryId] appends the hash suffix and warns
    when it is handed a set that holds the first id; on no document does the
    walk log a warning. *)
Theorem colliding_generated_ids_not_suffixed :
  @walkOnFragment Examples.externals Examples.colliding_generated_ids []
    (js "Story")
  = Ok (<[ js "Primary CTA??" :=
             Examples.story_meta "PrimaryCTA" "Primary CTA??" None None ]>
          {[ js "Primary CTA!!" :=
               Examples.story_meta "PrimaryCTA" "Primary CTA!!" None None ]},
        [])
  /\ @getStoryId Examples.externals
       [Examples.string_attribute "name" "Primary CTA??"]
       (js "Primary CTA??") {[ js "PrimaryCTA" ]}
     = Ok (js "PrimaryCTA496765ee",
           [StoryNameConflictWithExports (js "Primary CTA??")])
  /\ forall (E : Externals) (fragment : list TemplateNode)
       (source storyIdentifier : jsstring),
       match walkOnFragment fragment source storyIdentifier with
       | Ok (_, logged) => logged = []
       | Throw _ => True
       end.
Proof.
  split; [vm_compute; reflexivity|]. split; [vm_compute; reflexivity|].
  intros E fragment source storyIdentifier.
  pose proof (walkOnFragment_no_conflict source storyIdentifier fragment) as Hw.
  now destruct (walkOnFragment fragment source storyIdentifier) as [[c l]|e].
Qed.

End FragmentFacts.

Module RawSourceFacts.
Import RawSource.

(** C4 as stated fails: a self-closing marker whose [children] attribute
    names a snippet that no block declares raises nothing.  Recovery yields
    the placeholder, or the body of the snippet named by [setTemplate] when
    the file has one. *)
Lemma dangling_children_raise_nothing :
  component_nodes Examples.story_with_dangling_children = []
  /\ @extractStoryAttributesNodes Examples.rawsource_deps
       Examples.story_with_dangling_children [js "children"] (js "children")
     = Some (ValueParts [ExpressionTag (Identifier (js "missing"))])
  /\ findTemplateSnippetBlock (js "missing") Examples.no_snippets = None
  /\ @getStoryChildrenRawSource Examples.rawsource_deps
       Examples.story_with_dangling_children Examples.no_snippets []
       (Some (js "Button.stories.svelte"))
     = Ok (js "<!unspecified {...args} />")
  /\ findTemplateSnippetBlock (js "missing") Examples.other_snippet_set = None
  /\ @getStoryChildrenRawSource Examples.rawsource_deps
       Examples.story_with_dangling_children Examples.other_snippet_set
       Examples.other_snippet_source (Some (js "Button.stories.svelte"))
     = Ok (js "<Btn />").
Proof. repeat split; vm_compute; reflexivity. Qed.

Section Dangling.
Context `{Deps}.

(** C4, amended: for a self-closing marker whose [children] attribute is a
    single expression naming an identifier that matches no snippet block,
    the lookup of the children snippet yields nothing and raises nothing,
    and recovery goes on with the remaining self-closing cases: the
    snippet named by [setTemplate] when there is one, otherwise the
    placeholder; without [setTemplate] and without a [component] in the
    meta the result is the placeholder for an unspecified component. *)
Theorem dangling_children_fall_through (component : ComponentNode)
  (svelteASTNodes : SvelteASTNodes) (originalCode : jsstring)
  (filename : option jsstring) (name : jsstring) :
  component_nodes component = [] ->
  extractStoryAttributesNodes component [js "children"] (js "children")
  = Some (ValueParts [ExpressionTag (Identifier name)]) ->
  findTemplateSnippetBlock name svelteASTNodes = None ->
  findChildrenPropSnippetBlock component svelteASTNodes filename = Ok None
  /\ getStoryChildrenRawSource component svelteASTNodes originalCode filename
     = setTemplateOrPlaceholder svelteASTNodes originalCode
  /\ (setTemplateCall svelteASTNodes = None ->
      extractMetaPropertiesNodes svelteASTNodes [js "component"]
        (js "component") = None ->
      getStoryChildrenRawSource component svelteASTNodes originalCode filename
      = Ok (js "<!unspecified {...args} />")).
Proof.
  intros Hnodes Hchildren Hfind.
  assert (Hprop : findChildrenPropSnippetBlock component svelteASTNodes filename
                  = Ok None).
  { unfold findChildrenPropSnippetBlock. now rewrite Hchildren, Hfind. }
  assert (Hraw : getStoryChildrenRawSource component svelteASTNodes
                   originalCode filename
                 = setTemplateOrPlaceholder svelteASTNodes originalCode).
  { unfold getStoryChildrenRawSource. now rewrite Hnodes, Hprop. }
  split; [exact Hprop|]. split; [exact Hraw|].
  intros Hset Hmeta. rewrite Hraw.
  unfold setTemplateOrPlaceholder, findSetTemplateSnippetBlock,
    getDefineMetaComponentName.
  now rewrite Hset, Hmeta.
Qed.

End Dangling.

Lemma dangling_children_fall_through_witness :
  component_nodes Examples.story_with_dangling_children = []
  /\ @extractStoryAttributesNodes Examples.rawsource_deps
       Examples.story_with_dangling_children [js "children"] (js "children")
     = Some (ValueParts [ExpressionTag (Identifier (js "missing"))])
  /\ findTemplateSnippetBlock (js "missing") Examples.other_snippet_set = None
  /\ @findChildrenPropSnippetBlock Examples.rawsource_deps
       Examples.story_with_dangling_children Examples.other_snippet_set
       (Some (js "Button.stories.svelte")) = Ok None
  /\ @getStoryChildrenRawSource Examples.rawsource_deps
       Examples.story_with_dangling_children Examples.other_snippet_set
       Examples.other_snippet_source (Some (js "Button.stories.svelte"))
     = @setTemplateOrPlaceholder Examples.rawsource_deps
         Examples.other_snippet_set Examples.other_snippet_source.
Proof.
  split; [reflexivity|]. split; [reflexivity|]. split; [reflexivity|].
  pose proof (@dangling_children_fall_through Examples.rawsource_deps
                Examples.story_with_dangling_children
                Examples.other_snippet_set Examples.other_snippet_source
                (Some (js "Button.stories.svelte")) (js "missing")
                eq_refl eq_refl eq_refl) as (H1 & H2 & _).
  split; [exact H1|exact H2].
Defined.

End RawSourceFacts.

(** ** Walking a list of nodes *)

Lemma visit_all_app {E A S} (visit : A -> S -> result E S) (l1 l2 : list A)
  (s : S) :
  visit_all visit (l1 ++ l2) s
  = (do s1 <~ visit_all visit l1 s; visit_all visit l2 s1).
Proof.
  revert s. induction l1 as [|x l1 IH]; intros s; simpl; [reflexivity|].
  destruct (visit x s) as [s'|e]; simpl; [apply IH|reflexivity].
Qed.

Lemma visit_all_Throw {E A S} (visit : A -> S -> result E S) (l : list A)
  (s : S) (e : E) :
  visit_all visit l s = Throw e ->
  exists x s', In x l /\ visit x s' = Throw e.
Proof.
  revert s. induction l as [|x l IH]; intros s Hv; simpl in Hv; [discriminate|].
  destruct (visit x s) as [s'|e'] eqn:Hx; simpl in Hv.
  - destruct (IH s' Hv) as (y & s'' & Hin & Hy). exists y, s''.
    split; [now right|exact Hy].
  - inversion Hv; subst e'. exists x, s. split; [now left|exact Hx].
Qed.

(** When one element always throws [e0] and [e0] is all that the elements
    can throw, the traversal throws [e0]. *)
Lemma visit_all_must_throw {E A S} (visit : A -> S -> result E S) (e0 : E)
  (l : list A) (x : A) :
  In x l ->
  (forall s, visit x s = Throw e0) ->
  (forall y s e, In y l -> visit y s = Throw e -> e = e0) ->
  forall s, visit_all visit l s = Throw e0.
Proof.
  induction l as [|y l IH]; intros Hin Hx Hall s; [destruct Hin|].
  simpl. destruct (visit y s) as [s'|e] eqn:Hy; simpl.
  - destruct Hin as [->|Hin]; [rewrite Hx in Hy; discriminate|].
    apply IH; [exact Hin|exact Hx|].
    intros z s0 e Hz. apply Hall. now right.
  - f_equal. eapply Hall; [now left|exact Hy].
Qed.

Module CompiledNodesFacts.
Import CompiledNodes.

Lemma Node_walk_ind (P : Node -> Prop) :
  (forall source specifiers, P (ImportDeclaration source specifiers)) ->
  (forall d, P (VariableDeclaration d)) ->
  (forall declaration, P (ExportDefaultDeclaration declaration)) ->
  (forall id, P (FunctionDeclaration id)) ->
  (forall children, Forall P children -> P (Other children)) ->
  forall n, P n.
Proof.
  intros Himport Hvar Hexport Hfun Hother. fix IH 1.
  intros [source specifiers|d|declaration|id|children].
  - apply Himport.
  - apply Hvar.
  - apply Hexport.
  - apply Hfun.
  - apply Hother. induction children as [|c children IHc]; constructor;
      [apply IH|exact IHc].
Qed.

Section Locator.
Context `{Env}.
Variable filename : option jsstring.

Lemma visitSpecifier_Throw specifier state e :
  visitSpecifier filename specifier state = Throw e ->
  e = JsError (defaultOrNamespaceImportMessage filename).
Proof. destruct specifier; simpl; intros Hv; now inversion Hv. Qed.

(** The only exception of the walk is the one for a default or namespace
    import. *)
Lemma visit_Throw (n : Node) :
  forall state e, visit filename n state = Throw e ->
  e = JsError (defaultOrNamespaceImportMessage filename).
Proof.
  induction n as [source specifiers|d|declaration|id|children IH]
    using Node_walk_ind; intros state e Hv; simpl in Hv; try discriminate.
  - case_bool_decide; [|discriminate].
    apply visit_all_Throw in Hv as (x & s & _ & Hx).
    now apply visitSpecifier_Throw in Hx.
  - apply visit_all_Throw in Hv as (x & s & Hin & Hx).
    rewrite List.Forall_forall in IH. exact (IH x Hin s e Hx).
Qed.

Lemma visit_bad_import specifiers specifier state :
  In specifier specifiers ->
  is_import_specifier specifier = false ->
  visit filename (ImportDeclaration pkg_name specifiers) state
  = Throw (JsError (defaultOrNamespaceImportMessage filename)).
Proof.
  intros Hin Hbad. simpl. rewrite bool_decide_eq_true_2 by reflexivity.
  apply (visit_all_must_throw _ _ specifiers specifier Hin).
  - intros s. now destruct specifier.
  - intros y s e _ Hy. now apply visitSpecifier_Throw in Hy.
Qed.

Lemma extractCompiledASTNodes_bad_import ast specifiers specifier :
  In (ImportDeclaration pkg_name specifiers) ast ->
  In specifier specifiers ->
  is_import_specifier specifier = false ->
  extractCompiledASTNodes ast filename
  = Throw (JsError (defaultOrNamespaceImportMessage filename)).
Proof.
  intros Hast Hin Hbad. unfold extractCompiledASTNodes.
  rewrite (visit_all_must_throw (visit filename)
             (JsError (defaultOrNamespaceImportMessage filename))
             ast _ Hast); [reflexivity| |].
  - intros s. now apply visit_bad_import with specifier.
  - intros y s e _ Hy. now apply visit_Throw in Hy.
Qed.

End Locator.

End CompiledNodesFacts.

Module IndexerFacts.
Import Indexer.

Section Visitors.
Context `{Deps}.
Variable filename : jsstring.

Lemma visitMetaAttribute_Ok node attribute st st' :
  visitMetaAttribute filename node attribute st = Ok st' -> st' = st.
Proof.
  unfold visitMetaAttribute. destruct attribute as [attr_name value| |];
    try (intros Hv; now inversion Hv).
  destruct (bool_decide (attr_name = js "title"));
  destruct (bool_decide (attr_name = js "tags")); simpl;
  try destruct (getStringValueFromAttribute _ _ _); simpl;
  try destruct (getArrayOfStringsValueFromAttribute _ _ _); simpl;
  intros Hv; now inversion Hv.
Qed.

Lemma visit_all_MetaAttribute_Ok node attributes st st' :
  visit_all (visitMetaAttribute filename node) attributes st = Ok st' ->
  st' = st.
Proof.
  revert st. induction attributes as [|a attributes IH]; intros st Hv;
    simpl in Hv; [now inversion Hv|].
  apply FragmentFacts.bind_Ok in Hv as (s1 & Hs1 & Hv).
  apply visitMetaAttribute_Ok in Hs1. subst s1. now apply IH.
Qed.

(** The [Component] visitor leaves [meta] as it found it. *)
Lemma visitComponent_meta legacyTemplate node st :
  match visitComponent legacyTemplate filename node st with
  | Ok st' => meta (results st') = meta (results st)
  | Throw _ => True
  end.
Proof.
  unfold visitComponent.
  destruct (negb (foundMeta st) && legacyTemplate
            && bool_decide (component_name node = componentMetaIdentifier st)).
  - destruct (visit_all (visitMetaAttribute filename node)
                (component_attributes node) st) as [s1|e] eqn:H1; simpl;
      [|exact I].
    apply visit_all_MetaAttribute_Ok in H1. subst s1.
    destruct (bool_decide _); [|reflexivity].
    destruct (getStoryIdentifiers _ _ _ _); simpl; [|exact I].
    destruct (getArrayOfStringsValueFromAttribute _ _ _); simpl;
      [reflexivity|exact I].
  - simpl. destruct (bool_decide _); [|reflexivity].
    destruct (getStoryIdentifiers _ _ _ _); simpl; [|exact I].
    destruct (getArrayOfStringsValueFromAttribute _ _ _); simpl;
      [reflexivity|exact I].
Qed.

Lemma visitFragment_meta legacyTemplate nodes st :
  match visitFragment legacyTemplate filename nodes st with
  | Ok st' => meta (results st') = meta (results st)
  | Throw _ => True
  end.
Proof.
  unfold visitFragment. revert st.
  induction nodes as [|n nodes IH]; intros st; simpl; [reflexivity|].
  destruct n as [c|name attributes ns s e|x body s e|children s e]; simpl;
    try apply IH.
  pose proof (visitComponent_meta legacyTemplate
                {| component_name := name; component_attributes := attributes;
                   component_nodes := ns; component_start := s;
                   component_end := e |} st) as Hc.
  destruct (visitComponent _ _ _ st) as [s1|err]; simpl; [|exact I].
  specialize (IH s1).
  destruct (visit_all _ nodes s1) as [s2|err]; [|exact I].
  congruence.
Qed.

(** No file gets a title or tags from the indexer pass. *)
Lemma parseForIndexer_meta legacyTemplate svelteAST :
  match parseForIndexer filename legacyTemplate svelteAST with
  | Ok r => meta r = {| title := None; tags := None |}
  | Throw _ => True
  end.
Proof.
  unfold parseForIndexer, visitRoot.
  pose proof (visitFragment_meta legacyTemplate (root_fragment svelteAST)
                initial_state) as Hf.
  destruct (root_module svelteAST); [|destruct legacyTemplate; simpl];
    try exact I;
    destruct (visitFragment _ _ _ initial_state); simpl; auto.
Qed.

(** The [ObjectExpression] visitor revisits its own node: with a property
    under an identifier key it exhausts any stack. *)
Lemma visitObjectExpression_overflow (stack : nat) properties property st :
  In property properties ->
  is_identifier_property property = true ->
  visitObjectExpression stack properties st = Throw RangeError.
Proof.
  intros Hin Hid. revert st.
  induction stack as [|stack IH]; intros st; [reflexivity|].
  cbn [visitObjectExpression].
  apply (visit_all_must_throw _ _ properties property Hin).
  - intros s. rewrite Hid. apply IH.
  - intros y s e _. destruct (is_identifier_property y);
      [rewrite IH|]; intros Hy; now inversion Hy.
Qed.

End Visitors.

(** C5 (the code departs from it): in legacy mode the indexer walks a file
    whose [<Meta>] tag carries a static [title] and an array of literal
    [tags], with no meta object before it, and returns a result whose
    [meta] has neither title nor tags; the [Component] visitor never changes
    [meta], and no file gets a title or tags from the pass. *)
Theorem meta_tag_attributes_are_dropped :
  @parseForIndexer Examples.indexer_deps (js "Button.stories.svelte") true
    Examples.legacy_file
  = Ok {| meta := {| title := None; tags := None |};
          stories := [ {| exportName := js "Default"; name := js "Default";
                          story_tags := [] |} ] |}
  /\ (forall (D : Deps) (filename : jsstring) (legacyTemplate : bool)
        (node : ComponentNode) (st : State),
        match visitComponent legacyTemplate filename node st with
        | Ok st' => meta (results st') = meta (results st)
        | Throw _ => True
        end)
  /\ (forall (D : Deps) (filename : jsstring) (legacyTemplate : bool)
        (svelteAST : RootNode),
        match parseForIndexer filename legacyTemplate svelteAST with
        | Ok r => meta r = {| title := None; tags := None |}
        | Throw _ => True
        end).
Proof.
  split; [vm_compute; reflexivity|]. split.
  - intros D filename legacyTemplate node st. apply visitComponent_meta.
  - intros D filename legacyTemplate svelteAST. apply parseForIndexer_meta.
Qed.

(** C8 as stated fails in the indexer pass: with legacy mode off, a file
    whose module script has a default import of the marker-providing package
    is indexed without an error, and the [Program] visitor walks that script
    without one. *)
Lemma default_import_passes_the_indexer :
  @parseForIndexer Examples.indexer_deps (js "Button.stories.svelte") false
    Examples.file_with_default_import
  = Ok {| meta := {| title := None; tags := None |}; stories := [] |}
  /\ @visitProgram Examples.indexer_deps 8 false (js "Button.stories.svelte")
       Examples.program_with_default_import initial_state
     = Ok initial_state.
Proof. split; vm_compute; reflexivity. Qed.

(** C8, amended: in the compiled-output locator pass every program that
    holds an import of the marker-providing package with a default or
    namespace specifier fails with the error whose message names the file.
    In the indexer pass the [ImportDeclaration] visitor throws the default or
    namespace import error for the file when the first specifier of the
    import is a default or namespace specifier; in legacy mode the [Program]
    visitor raises it for such an import of the marker-providing package once
    the statements before it have been walked, and with legacy mode off it
    hands no import to that visitor. *)
Theorem default_or_namespace_import_is_fatal
  (E : CompiledNodes.Env) (D : Deps) (filename : jsstring)
  (ast : list CompiledNodes.Node)
  (specifiers rest : list ImportSpecifierNode) (specifier : ImportSpecifierNode)
  (stack : nat) (legacyTemplate : bool) (before after : list Statement)
  (st st1 : State) :
  is_import_specifier specifier = false ->
  In specifier specifiers ->
  In (CompiledNodes.ImportDeclaration CompiledNodes.pkg_name specifiers) ast ->
  visit_all (visitStatement stack true filename) before st = Ok st1 ->
  CompiledNodes.extractCompiledASTNodes ast (Some filename)
  = Throw (CompiledNodes.JsError
             (js "Don't use the default/namespace import from " ++ dquote
              ++ CompiledNodes.pkg_name ++ dquote
              ++ js " in the stories file: " ++ filename))
  /\ visitImportDeclaration legacyTemplate filename (specifier :: rest) st
     = Throw (DefaultOrNamespaceImportUsedError filename)
  /\ visitProgram stack true filename
       (before ++ ImportDeclaration pkg_name (specifier :: rest) :: after) st
     = Throw (DefaultOrNamespaceImportUsedError filename)
  /\ visitStatement stack false filename
       (ImportDeclaration pkg_name specifiers) st
     = Ok st.
Proof.
  intros Hbad Hin Hast Hbefore. split; [|split; [|split]].
  - exact (CompiledNodesFacts.extractCompiledASTNodes_bad_import
             (Some filename) ast specifiers specifier Hast Hin Hbad).
  - unfold visitImportDeclaration. simpl. now destruct specifier.
  - unfold visitProgram. rewrite visit_all_app, Hbefore. simpl.
    rewrite bool_decide_eq_true_2 by reflexivity.
    unfold visitImportDeclaration. simpl. now destruct specifier.
  - reflexivity.
Qed.

Lemma default_or_namespace_import_is_fatal_witness :
  is_import_specifier (ImportDefaultSpecifier (js "addon")) = false
  /\ In (ImportDefaultSpecifier (js "addon"))
       [ImportDefaultSpecifier (js "addon")]
  /\ In (CompiledNodes.ImportDeclaration
           (@CompiledNodes.pkg_name Examples.env)
           [ImportDefaultSpecifier (js "addon")])
       Examples.compiled_with_default_import
  /\ visit_all
       (@visitStatement Examples.indexer_deps 8 true
          (js "Button.stories.svelte"))
       [OtherStatement] initial_state = Ok initial_state
  /\ @CompiledNodes.extractCompiledASTNodes Examples.env
       Examples.compiled_with_default_import
       (Some (js "Button.stories.svelte"))
     = Throw (CompiledNodes.JsError
                (js "Don't use the default/namespace import from " ++ dquote
                 ++ js "@storybook/addon-svelte-csf" ++ dquote
                 ++ js " in the stories file: Button.stories.svelte"))
  /\ @visitProgram Examples.indexer_deps 8 true (js "Button.stories.svelte")
       (OtherStatement :: Examples.program_with_default_import) initial_state
     = Throw (DefaultOrNamespaceImportUsedError (js "Button.stories.svelte")).
Proof.
  assert (Hast : In (CompiledNodes.ImportDeclaration
                       (@CompiledNodes.pkg_name Examples.env)
                       [ImportDefaultSpecifier (js "addon")])
                   Examples.compiled_with_default_import)
    by (right; left; reflexivity).
  split; [reflexivity|]. split; [left; reflexivity|]. split; [exact Hast|].
  split; [reflexivity|].
  pose proof (@default_or_namespace_import_is_fatal Examples.env
                Examples.indexer_deps (js "Button.stories.svelte")
                Examples.compiled_with_default_import
                [ImportDefaultSpecifier (js "addon")] []
                (ImportDefaultSpecifier (js "addon")) 8%nat true
                [OtherStatement] [] initial_state initial_state
                eq_refl (or_introl eq_refl) Hast eq_refl)
    as (H1 & _ & H3 & _).
  split; [exact H1|exact H3].
Defined.

End IndexerFacts.

(** * Further properties of the fragment walker *)

Module FragmentMore.
Import Fragment.

Lemma upper_ascii_word (c : Z) : is_word c = true -> is_word (upper_ascii c) = true.
Proof.
  unfold is_word, upper_ascii. intros Hw.
  destruct (Z.leb_spec 97 c), (Z.leb_spec c 122); simpl; try exact Hw; lia.
Qed.

Lemma camel_fold_words (b : bool) (s : jsstring) :
  Forall (fun c => is_word c = true) (camel_fold b s).
Proof.
  revert b. induction s as [|c s IH]; intros b; simpl; [constructor|].
  destruct (is_word c) eqn:Hc; [|apply IH].
  constructor; [|apply IH]. destruct b; [now apply upper_ascii_word|exact Hc].
Qed.

Lemma camel_fold_length (b : bool) (s : jsstring) :
  (length (camel_fold b s) <= length s)%nat.
Proof.
  revert b. induction s as [|c s IH]; intros b; simpl; [lia|].
  destruct (is_word c); simpl; [specialize (IH false)|specialize (IH true)]; lia.
Qed.

Lemma camel_fold_of_words (s : jsstring) :
  Forall (fun c => is_word c = true) s -> camel_fold false s = s.
Proof.
  induction 1 as [|c s Hc _ IH]; simpl; [reflexivity|].
  rewrite Hc. now f_equal.
Qed.

Lemma camel_fold_nonword_swap (a b : jsstring) (x y : Z) (up : bool) :
  is_word x = false -> is_word y = false ->
  camel_fold up (a ++ x :: b) = camel_fold up (a ++ y :: b).
Proof.
  intros Hx Hy. revert up. induction a as [|c a IH]; intros up; simpl.
  - now rewrite Hx, Hy.
  - destruct (is_word c); [f_equal|]; apply IH.
Qed.

Section GeneratedIdMore.
Context `{Externals}.
Hypothesis toUpperCase_empty : toUpperCase [] = [].
Hypothesis toUpperCase_word :
  forall c, is_word c = true -> toUpperCase [c] = [upper_ascii c].

(** A generated id holds word characters only and is no longer than the
    name. *)
Theorem generateId_word_characters (name : jsstring) :
  Forall (fun c => is_word c = true) (generateId name)
  /\ (length (generateId name) <= length name)%nat.
Proof.
  rewrite (FragmentFacts.generateId_fold toUpperCase_empty toUpperCase_word).
  split; [apply camel_fold_words|apply camel_fold_length].
Qed.

(** Generating an id from a generated id gives it back. *)
Theorem generateId_idempotent (name : jsstring) :
  generateId (generateId name) = generateId name.
Proof.
  rewrite !(FragmentFacts.generateId_fold toUpperCase_empty toUpperCase_word).
  apply camel_fold_of_words, camel_fold_words.
Qed.

(** The generated id does not depend on which non-word character stands at
    a place: names that differ in one non-word character get the same id. *)
Theorem generateId_ignores_nonword_character (a b : jsstring) (x y : Z) :
  is_word x = false -> is_word y = false ->
  generateId (a ++ x :: b) = generateId (a ++ y :: b).
Proof.
  intros Hx Hy.
  rewrite !(FragmentFacts.generateId_fold toUpperCase_empty toUpperCase_word).
  now apply camel_fold_nonword_swap.
Qed.

End GeneratedIdMore.

Lemma generateId_word_characters_witness :
  @toUpperCase Examples.externals [] = []
  /\ (forall c, is_word c = true ->
      @toUpperCase Examples.externals [c] = [upper_ascii c])
  /\ Forall (fun c => is_word c = true)
       (@generateId Examples.externals (js "Primary CTA!!"))
  /\ (length (@generateId Examples.externals (js "Primary CTA!!"))
      <= length (js "Primary CTA!!"))%nat.
Proof.
  split; [reflexivity|]. split; [intros c _; reflexivity|].
  exact (@generateId_word_characters Examples.externals eq_refl
           (fun c _ => eq_refl) (js "Primary CTA!!")).
Defined.

Lemma generateId_idempotent_witness :
  @toUpperCase Examples.externals [] = []
  /\ (forall c, is_word c = true ->
      @toUpperCase Examples.externals [c] = [upper_ascii c])
  /\ @generateId Examples.externals
       (@generateId Examples.externals (js "my first story"))
     = @generateId Examples.externals (js "my first story").
Proof.
  split; [reflexivity|]. split; [intros c _; reflexivity|].
  exact (@generateId_idempotent Examples.externals eq_refl
           (fun c _ => eq_refl) (js "my first story")).
Defined.

Lemma generateId_ignores_nonword_character_witness :
  @toUpperCase Examples.externals [] = []
  /\ (forall c, is_word c = true ->
      @toUpperCase Examples.externals [c] = [upper_ascii c])
  /\ is_word 33 = false /\ is_word 63 = false
  /\ @generateId Examples.externals (js "Primary CTA" ++ 33 :: js "!")
     = @generateId Examples.externals (js "Primary CTA" ++ 63 :: js "!").
Proof.
  split; [reflexivity|]. split; [intros c _; reflexivity|].
  split; [reflexivity|]. split; [reflexivity|].
  exact (@generateId_ignores_nonword_character Examples.externals eq_refl
           (fun c _ => eq_refl) (js "Primary CTA") (js "!") 33 63
           eq_refl eq_refl).
Defined.

(** An explicit non-empty [id] is returned as it is, without a warning,
    whatever the name and whatever ids are already taken. *)
Theorem explicit_id_is_used_verbatim `{Externals}
  (attributes : list AttributeNode) (name : jsstring)
  (storiesIds : gset jsstring) (c : Z) (r : jsstring) :
  lookupAttribute (js "id") attributes = Some (ValueParts [Text (c :: r)]) ->
  getStoryId attributes name storiesIds = Ok (c :: r, []).
Proof.
  intros Hid. unfold getStoryId, getStringFromAttribute. now rewrite Hid.
Qed.

Lemma explicit_id_is_used_verbatim_witness :
  lookupAttribute (js "id")
    [Examples.string_attribute "name" "A"; Examples.string_attribute "id" "first"]
  = Some (ValueParts [Text (102 :: js "irst")])
  /\ @getStoryId Examples.externals
       [Examples.string_attribute "name" "A"; Examples.string_attribute "id" "first"]
       (js "A") {[ js "first" ]}
     = Ok (102 :: js "irst", []).
Proof.
  split; [reflexivity|].
  exact (@explicit_id_is_used_verbatim Examples.externals
           [Examples.string_attribute "name" "A";
            Examples.string_attribute "id" "first"]
           (js "A") {[ js "first" ]} 102 (js "irst") eq_refl).
Defined.

(** An [id] attribute holding the empty string counts as no id: the id is
    generated from the name as if the attribute were absent. *)
Theorem empty_id_is_generated `{Externals}
  (attributes : list AttributeNode) (name : jsstring)
  (storiesIds : gset jsstring) :
  lookupAttribute (js "id") attributes = Some (ValueParts [Text []]) ->
  getStoryId attributes name storiesIds = getStoryId [] name storiesIds.
Proof.
  intros Hid. unfold getStoryId, getStringFromAttribute. now rewrite Hid.
Qed.

Lemma empty_id_is_generated_witness :
  lookupAttribute (js "id") [Examples.string_attribute "id" ""]
  = Some (ValueParts [Text []])
  /\ @getStoryId Examples.externals [Examples.string_attribute "id" ""]
       (js "My story") ∅
     = @getStoryId Examples.externals [] (js "My story") ∅.
Proof.
  split; [reflexivity|].
  exact (@empty_id_is_generated Examples.externals
           [Examples.string_attribute "id" ""] (js "My story") ∅ eq_refl).
Defined.

(** [getStoryName] returns a name exactly when the first [name] attribute
    is a single non-empty text that is not among the names handed in, and
    throws the name conflict exactly when that text is among them. *)
Theorem getStoryName_characterised (attributes : list AttributeNode)
  (storiesNames : gset jsstring) (name : jsstring) :
  (getStoryName attributes storiesNames = Ok name
   <-> lookupAttribute (js "name") attributes = Some (ValueParts [Text name])
       /\ name <> [] /\ name ∉ storiesNames)
  /\ (getStoryName attributes storiesNames = Throw (StoryNameConflict name)
      <-> lookupAttribute (js "name") attributes = Some (ValueParts [Text name])
          /\ name <> [] /\ name ∈ storiesNames).
Proof.
  unfold getStoryName, getStringFromAttribute.
  destruct (lookupAttribute (js "name") attributes)
    as [[|[|[d|ex] [|q qs]]]|]; simpl;
    try (split; split; intros Hq; try discriminate;
         destruct Hq as (Hl & _); discriminate).
  destruct d as [|c r]; simpl.
  - split; split; intros Hq; try discriminate;
      destruct Hq as (Hl & Hne & _); inversion Hl; subst; congruence.
  - case_bool_decide as Hin; split; split; intros Hq;
      try discriminate;
      try (inversion Hq; subst; now repeat split);
      destruct Hq as (Hl & _ & Hn); inversion Hl; subst; try reflexivity;
      contradiction.
Qed.

(** Whatever [getSourceAttribute] throws is the error of the string
    reading: the error of the boolean reading is caught. *)
Theorem getSourceAttribute_error (attributes : list AttributeNode) :
  match getSourceAttribute attributes with
  | Ok _ => True
  | Throw e => e = AttributeNotStaticString (js "source")
  end
  /\ (getSourceAttribute attributes = Ok None
      <-> lookupAttribute (js "source") attributes = None).
Proof.
  unfold getSourceAttribute, try_catch, getBooleanFromAttribute,
    getStringFromAttribute.
  destruct (lookupAttribute (js "source") attributes)
    as [[|[|[d|[[sv|bv|nv|]|idn|els|cal ars|prs|]] [|q qs]]]|]; simpl;
    (split; [try exact I; try reflexivity|split; [discriminate|discriminate]])
    || (split; [exact I|split; reflexivity]).
Qed.

End FragmentMore.

Module WalkMore.
Import Fragment Statements.

(** The outcomes of the raw-source recovery of the walker: no raw source
    exactly for a marker without child nodes, and no exception other than
    the TypeError for a [children] snippet block with an empty body. *)
Theorem getChildrenRawSource_outcomes `{Externals} (nodes : list TemplateNode)
  (rawSource : jsstring) :
  match getChildrenRawSource nodes rawSource with
  | Ok None => nodes = []
  | Ok (Some _) => nodes <> []
  | Throw e =>
    e = TypeError
    /\ exists s e', In (SnippetBlock (js "children") [] s e') nodes
  end.
Proof.
  unfold getChildrenRawSource. destruct nodes as [|n0 ns]; [reflexivity|].
  destruct (List.find is_children_snippet (n0 :: ns)) as [found|] eqn:Hfind;
    [|discriminate].
  apply List.find_some in Hfind as (Hin & Hchildren).
  destruct found as [c|name attributes nodes s e|x [|b0 bs] s e|children s e];
    try discriminate.
  simpl in Hchildren. apply bool_decide_eq_true_1 in Hchildren. subst x.
  split; [reflexivity|]. now exists s, e.
Qed.

Section WalkedFacts.
Context `{Externals}.
Variables source storyIdentifier : jsstring.

Lemma visible_singleton (n m : TemplateNode) : visible [n] m <-> reach n m.
Proof.
  split.
  - intros (x & [<-|[]] & Hr). exact Hr.
  - intros Hr. exists n. split; [now left|exact Hr].
Qed.

Lemma walked_nil (w : WalkState) : walked source storyIdentifier [] w w.
Proof.
  repeat split; auto.
  - intros attributes nodes s e (x & [] & _).
Qed.

Lemma walked_through (roots roots' : list TemplateNode) (w w' : WalkState) :
  (forall attributes nodes s e,
     visible roots (Component storyIdentifier attributes nodes s e)
     <-> visible roots' (Component storyIdentifier attributes nodes s e)) ->
  walked source storyIdentifier roots w w' ->
  walked source storyIdentifier roots' w w'.
Proof.
  intros Hv (Hn & Hi & Hnew & Hold & Hall). repeat split; auto.
  - intros key meta Hk.
    destruct (Hnew key meta Hk) as [?|(a & ns & s & e & Hvis & Hrec)];
      [now left|].
    right. exists a, ns, s, e. split; [now apply Hv|exact Hrec].
  - intros a ns s e Hvis. apply (Hall a ns s e). now apply Hv.
Qed.

Lemma walked_cons (x : TemplateNode) (l : list TemplateNode)
  (w w1 w2 : WalkState) :
  walked source storyIdentifier [x] w w1 ->
  walked source storyIdentifier l w1 w2 ->
  walked source storyIdentifier (x :: l) w w2.
Proof.
  intros (Hn1 & Hi1 & Hnew1 & Hold1 & Hall1) (Hn2 & Hi2 & Hnew2 & Hold2 & Hall2).
  repeat split; try congruence.
  - intros key meta Hk.
    destruct (Hnew2 key meta Hk) as [Hk1|(a & ns & s & e & (y & Hy & Hr) & Hrec)].
    + destruct (Hnew1 key meta Hk1)
        as [?|(a & ns & s & e & (y & [<-|[]] & Hr) & Hrec)]; [now left|].
      right. exists a, ns, s, e. split; [exists x; split; [now left|exact Hr]|].
      exact Hrec.
    + right. exists a, ns, s, e. split; [exists y; split; [now right|exact Hr]|].
      now rewrite <- Hn1, <- Hi1.
  - intros key Hk. auto.
  - intros a ns s e (y & [<-|Hy] & Hr).
    + destruct (Hall1 a ns s e) as (key & Hkey & Hsome);
        [exists x; split; [now left|exact Hr]|].
      exists key. split; [exact Hkey|auto].
    + apply (Hall2 a ns s e). exists y. now split.
Qed.

Lemma walked_component name attributes nodes s e w w' :
  visitComponent source storyIdentifier name attributes nodes s w = Ok w' ->
  walked source storyIdentifier [Component name attributes nodes s e] w w'.
Proof.
  intros Hv.
  destruct (FragmentFacts.visitComponent_stories _ _ _ _ _ _ _ _ Hv)
    as (_ & Hn & Hi & [(Hne & Hst & _)|(-> & own & src & raw & idw & Hown & Hsrc & Hraw & Hid & _ & Hst)]).
  - repeat split; auto.
    + intros key meta Hk. left. now rewrite <- Hst.
    + intros key Hk. now rewrite Hst.
    + intros a ns s' e' Hvis. apply visible_singleton in Hvis.
      inversion Hvis; subst. contradiction.
  - repeat split; auto.
    + intros key meta Hk. rewrite Hst in Hk.
      destruct (decide (own = key)) as [->|Hne].
      * rewrite lookup_insert_eq in Hk. inversion Hk; subst meta. right.
        exists attributes, nodes, s, e.
        split; [apply visible_singleton; constructor|].
        repeat split; simpl; auto. now exists idw.
      * rewrite lookup_insert_ne in Hk by exact Hne. now left.
    + intros key Hk. rewrite Hst.
      destruct (decide (own = key)) as [->|Hne];
        [rewrite lookup_insert_eq; eauto|now rewrite lookup_insert_ne].
    + intros a ns s' e' Hvis. apply visible_singleton in Hvis.
      inversion Hvis; subst. exists own.
      split; [now apply FragmentFacts.getStoryName_Ok in Hown|].
      rewrite Hst, lookup_insert_eq. eauto.
Qed.

Lemma visit_all_walked (l : list TemplateNode) :
  Forall
    (fun n => forall w w', visit source storyIdentifier n w = Ok w' ->
       walked source storyIdentifier [n] w w') l ->
  forall w w', visit_all (visit source storyIdentifier) l w = Ok w' ->
  walked source storyIdentifier l w w'.
Proof.
  induction 1 as [|x l Hx _ IHl]; intros w w' Hv; simpl in Hv.
  - inversion Hv; subst w'. apply walked_nil.
  - apply FragmentFacts.bind_Ok in Hv as (w1 & Hw1 & Hv).
    eapply walked_cons; [apply Hx; exact Hw1|apply IHl; exact Hv].
Qed.

Lemma visit_walked (n : TemplateNode) :
  forall w w', visit source storyIdentifier n w = Ok w' ->
  walked source storyIdentifier [n] w w'.
Proof.
  induction n as [c|name attributes nodes s e|x body s e IH|children s e IH]
    using FragmentFacts.TemplateNode_walk_ind; intros w w' Hv; simpl in Hv.
  - inversion Hv; subst w'. simpl. repeat split; auto.
    intros a ns s e Hvis. apply visible_singleton in Hvis. inversion Hvis.
  - now apply walked_component.
  - apply (walked_through body); [|now apply visit_all_walked].
    intros a ns s' e'. rewrite visible_singleton. split.
    + intros (y & Hy & Hr). eapply reach_snippet; eassumption.
    + intros Hr. inversion Hr; subst. eexists; split; eassumption.
  - apply (walked_through children); [|now apply visit_all_walked].
    intros a ns s' e'. rewrite visible_singleton. split.
    + intros (y & Hy & Hr). eapply reach_other; eassumption.
    + intros Hr. inversion Hr; subst. eexists; split; eassumption.
Qed.

End WalkedFacts.

Lemma walkOnFragment_walked `{Externals} (source storyIdentifier : jsstring)
  (fragment : list TemplateNode) (catalog : gmap jsstring StoryMeta)
  (logged : list Warning) :
  walkOnFragment fragment source storyIdentifier = Ok (catalog, logged) ->
  exists w, stories w = catalog
            /\ walked source storyIdentifier fragment initial_state w.
Proof.
  unfold walkOnFragment. intros Hw.
  apply FragmentFacts.bind_Ok in Hw as (w & Hv & Hw).
  inversion Hw; subst. exists w. split; [reflexivity|].
  apply visit_all_walked; [|exact Hv].
  apply List.Forall_forall. intros n _. apply visit_walked.
Qed.

(** Every marker that the walker reaches is recorded: when the walk returns
    a catalog, a marker reached without passing below a component has a
    literal name, and that name is a key of the catalog unless it is
    [__proto__], the one name under which a write to a plain object adds no
    key. *)
Theorem visible_marker_is_recorded `{Externals}
  (source storyIdentifier : jsstring) (fragment : list TemplateNode)
  (catalog : gmap jsstring StoryMeta) (logged : list Warning)
  (attributes : list AttributeNode) (nodes : list TemplateNode) (s e : Z) :
  walkOnFragment fragment source storyIdentifier = Ok (catalog, logged) ->
  visible fragment (Component storyIdentifier attributes nodes s e) ->
  exists key,
    getStringFromAttribute (js "name") attributes = Ok (Some key)
    /\ (key <> js "__proto__" -> is_Some (catalog !! key)).
Proof.
  intros Hw Hvis.
  apply walkOnFragment_walked in Hw as (w & <- & (_ & _ & _ & _ & Hall)).
  destruct (Hall attributes nodes s e Hvis) as (key & Hkey & Hsome).
  exists key. split; [exact Hkey|intros _; exact Hsome].
Qed.

(** Every entry of a returned catalog is that of one marker reached by the
    walker: the key is the marker's literal name, the id is the marker's
    explicit id or the id generated from the name, never suffixed, and the
    source and the raw source are those of the marker. *)
Theorem catalog_entry_is_of_one_marker `{Externals}
  (source storyIdentifier : jsstring) (fragment : list TemplateNode)
  (catalog : gmap jsstring StoryMeta) (logged : list Warning)
  (key : jsstring) (meta : StoryMeta) :
  walkOnFragment fragment source storyIdentifier = Ok (catalog, logged) ->
  catalog !! key = Some meta ->
  exists attributes nodes s e,
    visible fragment (Component storyIdentifier attributes nodes s e)
    /\ getStringFromAttribute (js "name") attributes = Ok (Some key)
    /\ meta_name meta = key
    /\ getStoryId attributes key ∅ = Ok (meta_id meta, [])
    /\ getSourceAttribute attributes = Ok (meta_source meta)
    /\ getChildrenRawSource nodes source = Ok (meta_rawSource meta).
Proof.
  intros Hw Hk.
  apply walkOnFragment_walked in Hw as (w & <- & (_ & _ & Hnew & _ & _)).
  destruct (Hnew key meta Hk)
    as [Hold|(a & ns & s & e & Hvis & Hname & Hmn & (idw & Hid & Hmid) & Hsrc & Hraw)].
  - simpl in Hold. rewrite lookup_empty in Hold. discriminate.
  - exists a, ns, s, e. split; [exact Hvis|].
    split; [now apply FragmentFacts.getStoryName_Ok in Hname|].
    split; [exact Hmn|]. split; [|split; [exact Hsrc|exact Hraw]].
    simpl in Hid. rewrite dom_empty_L in Hid.
    pose proof (FragmentFacts.getStoryId_empty a key) as Hempty.
    rewrite Hid in Hempty. destruct idw as [i ws]. simpl in *. now subst.
Qed.

(** A tracked comment does not pass a component: a marker visited right
    after any component, marker or not, is recorded without a description,
    wherever the comment ends. *)
Theorem comment_does_not_pass_a_component `{Externals}
  (source storyIdentifier name : jsstring)
  (attributes1 attributes2 : list AttributeNode)
  (nodes1 nodes2 : list TemplateNode) (start1 start2 : Z)
  (w w1 w2 : WalkState) :
  visitComponent source storyIdentifier name attributes1 nodes1 start1 w
  = Ok w1 ->
  visitComponent source storyIdentifier storyIdentifier attributes2 nodes2
    start2 w1 = Ok w2 ->
  exists key meta,
    getStringFromAttribute (js "name") attributes2 = Ok (Some key)
    /\ stories w2 !! key = Some meta
    /\ meta_description meta = None.
Proof.
  intros H1 H2.
  destruct (FragmentFacts.visitComponent_stories _ _ _ _ _ _ _ _ H1)
    as (Hlatest & _).
  destruct (FragmentFacts.visitComponent_stories _ _ _ _ _ _ _ _ H2)
    as (_ & _ & _ & [(Hne & _)|(_ & own & src & raw & idw & Hown & _ & _ & _ & _ & Hst)]);
    [congruence|].
  eexists own, _. split; [now apply FragmentFacts.getStoryName_Ok in Hown|].
  split; [rewrite Hst; apply lookup_insert_eq|].
  simpl. now rewrite Hlatest.
Qed.

Lemma two_visible_walk :
  @walkOnFragment Examples.externals MoreExamples.two_visible
    MoreExamples.two_visible_source (js "Story")
  = Ok (MoreExamples.two_visible_catalog, []).
Proof. vm_compute. reflexivity. Defined.

Lemma visible_marker_is_recorded_witness :
  @walkOnFragment Examples.externals MoreExamples.two_visible
    MoreExamples.two_visible_source (js "Story")
  = Ok (MoreExamples.two_visible_catalog, [])
  /\ visible MoreExamples.two_visible MoreExamples.inside_story
  /\ exists key,
       getStringFromAttribute (js "name")
         [Examples.string_attribute "name" "Inside";
          Attribute (js "source") ValueTrue] = Ok (Some key)
       /\ (key <> js "__proto__" ->
           is_Some (MoreExamples.two_visible_catalog !! key)).
Proof.
  assert (Hvis : visible MoreExamples.two_visible MoreExamples.inside_story).
  { eexists. split; [left; reflexivity|].
    eapply reach_other; [left; reflexivity|constructor]. }
  split; [exact two_visible_walk|]. split; [exact Hvis|].
  exact (@visible_marker_is_recorded Examples.externals
           MoreExamples.two_visible_source (js "Story")
           MoreExamples.two_visible MoreExamples.two_visible_catalog [] _ _ _ _
           two_visible_walk Hvis).
Defined.

Lemma catalog_entry_is_of_one_marker_witness :
  @walkOnFragment Examples.externals MoreExamples.two_visible
    MoreExamples.two_visible_source (js "Story")
  = Ok (MoreExamples.two_visible_catalog, [])
  /\ MoreExamples.two_visible_catalog !! js "Second"
     = Some {| meta_id := js "two"; meta_name := js "Second";
               meta_description := None; meta_source := None;
               meta_rawSource := Some (js "Hello") |}
  /\ exists attributes nodes s e,
       visible MoreExamples.two_visible
         (Component (js "Story") attributes nodes s e)
       /\ getStringFromAttribute (js "name") attributes
          = Ok (Some (js "Second"))
       /\ js "Second" = js "Second"
       /\ @getStoryId Examples.externals attributes (js "Second") ∅
          = Ok (js "two", [])
       /\ getSourceAttribute attributes = Ok None
       /\ @getChildrenRawSource Examples.externals nodes
            MoreExamples.two_visible_source = Ok (Some (js "Hello")).
Proof.
  assert (Hk : MoreExamples.two_visible_catalog !! js "Second"
               = Some {| meta_id := js "two"; meta_name := js "Second";
                         meta_description := None; meta_source := None;
                         meta_rawSource := Some (js "Hello") |})
    by (vm_compute; reflexivity).
  split; [exact two_visible_walk|]. split; [exact Hk|].
  exact (@catalog_entry_is_of_one_marker Examples.externals
           MoreExamples.two_visible_source (js "Story")
           MoreExamples.two_visible MoreExamples.two_visible_catalog []
           (js "Second") _ two_visible_walk Hk).
Defined.

Lemma comment_does_not_pass_a_component_witness :
  @visitComponent Examples.externals [] (js "Story") (js "Wrapper") [] [] 24
    Examples.before_commented_story = Ok MoreExamples.after_wrapper
  /\ @visitComponent Examples.externals [] (js "Story") (js "Story")
       [Examples.string_attribute "name" "Primary"] [] 36
       MoreExamples.after_wrapper = Ok MoreExamples.after_wrapper_story
  /\ exists key meta,
       getStringFromAttribute (js "name")
         [Examples.string_attribute "name" "Primary"] = Ok (Some key)
       /\ stories MoreExamples.after_wrapper_story !! key = Some meta
       /\ meta_description meta = None.
Proof.
  assert (H1 : @visitComponent Examples.externals [] (js "Story")
                 (js "Wrapper") [] [] 24 Examples.before_commented_story
               = Ok MoreExamples.after_wrapper) by (vm_compute; reflexivity).
  assert (H2 : @visitComponent Examples.externals [] (js "Story") (js "Story")
                 [Examples.string_attribute "name" "Primary"] [] 36
                 MoreExamples.after_wrapper
               = Ok MoreExamples.after_wrapper_story)
    by (vm_compute; reflexivity).
  split; [exact H1|]. split; [exact H2|].
  exact (@comment_does_not_pass_a_component Examples.externals [] (js "Story")
           (js "Wrapper") [] [Examples.string_attribute "name" "Primary"]
           [] [] 24 36 _ _ _ H1 H2).
Defined.

End WalkMore.

(** * Further properties of the raw-source recovery *)

Module RawSourceMore.
Import RawSource.

Lemma trimStart_head (s : jsstring) :
  match trimStart s with
  | [] => True
  | c :: _ => is_trimmable c = false
  end.
Proof.
  induction s as [|c s IH]; simpl; [exact I|].
  destruct (is_trimmable c) eqn:Hc; [exact IH|exact Hc].
Qed.

Lemma trimStart_fixed (s : jsstring) :
  match s with
  | [] => True
  | c :: _ => is_trimmable c = false
  end ->
  trimStart s = s.
Proof. destruct s as [|c s]; simpl; [reflexivity|]. now intros ->. Qed.

Lemma trimStart_In (s : jsstring) (x : Z) : In x (trimStart s) -> In x s.
Proof.
  induction s as [|c s IH]; simpl; [tauto|].
  destruct (is_trimmable c); simpl; tauto.
Qed.

Lemma trimStart_snoc (l : jsstring) (h : Z) :
  is_trimmable h = false -> trimStart (l ++ [h]) = trimStart l ++ [h].
Proof.
  intros Hh. induction l as [|c l IH]; simpl; [now rewrite Hh|].
  destruct (is_trimmable c); [exact IH|reflexivity].
Qed.

Lemma trim_In (s : jsstring) (x : Z) : In x (trim s) -> In x s.
Proof.
  unfold trim. rewrite <- List.in_rev. intros Hx.
  apply trimStart_In in Hx. rewrite <- List.in_rev in Hx.
  now apply trimStart_In in Hx.
Qed.

Lemma trim_ends (s : jsstring) :
  match trim s with
  | [] => True
  | c :: _ => is_trimmable c = false
  end
  /\ match rev (trim s) with
     | [] => True
     | c :: _ => is_trimmable c = false
     end.
Proof.
  unfold trim. split.
  - pose proof (trimStart_head s) as Hh.
    destruct (trimStart s) as [|h t]; [exact I|].
    simpl rev at 2. rewrite (trimStart_snoc _ h Hh).
    rewrite List.rev_app_distr. simpl. exact Hh.
  - rewrite List.rev_involutive. apply trimStart_head.
Qed.

Lemma trim_fixed (s : jsstring) :
  match s with
  | [] => True
  | c :: _ => is_trimmable c = false
  end ->
  match rev s with
  | [] => True
  | c :: _ => is_trimmable c = false
  end ->
  trim s = s.
Proof.
  intros Hhead Hlast. unfold trim.
  rewrite (trimStart_fixed s Hhead), (trimStart_fixed (rev s) Hlast).
  apply List.rev_involutive.
Qed.

Lemma filter_no_line_feed (s : jsstring) :
  ~ In 10 (List.filter (fun c => negb (c =? 10)) s).
Proof.
  intros Hin. apply List.filter_In in Hin as (_ & Hc). discriminate.
Qed.

Lemma filter_fixed (s : jsstring) :
  ~ In 10 s -> List.filter (fun c => negb (c =? 10)) s = s.
Proof.
  induction s as [|c s IH]; simpl; [reflexivity|]. intros Hn.
  destruct (Z.eqb_spec c 10) as [->|Hc]; simpl; [tauto|].
  f_equal. apply IH. tauto.
Qed.

(** A sanitized slice holds no line feed and neither starts nor ends with
    white space. *)
Theorem sanitizeCodeSlice_clean (rawCode : jsstring) :
  ~ In 10 (sanitizeCodeSlice rawCode)
  /\ match sanitizeCodeSlice rawCode with
     | [] => True
     | c :: _ => is_trimmable c = false
     end
  /\ match rev (sanitizeCodeSlice rawCode) with
     | [] => True
     | c :: _ => is_trimmable c = false
     end.
Proof.
  unfold sanitizeCodeSlice. split; [|apply trim_ends].
  intros Hin. apply trim_In in Hin. now apply filter_no_line_feed in Hin.
Qed.

(** Sanitizing a sanitized slice changes nothing. *)
Theorem sanitizeCodeSlice_idempotent (rawCode : jsstring) :
  sanitizeCodeSlice (sanitizeCodeSlice rawCode) = sanitizeCodeSlice rawCode.
Proof.
  destruct (sanitizeCodeSlice_clean rawCode) as (Hno & Hhead & Hlast).
  unfold sanitizeCodeSlice at 1.
  rewrite (filter_fixed _ Hno). now apply trim_fixed.
Qed.

(** The snippet block that the locator returns carries the requested name
    and is one of the declared blocks; it returns none only when no declared
    block has that name. *)
Theorem findTemplateSnippetBlock_found (name : jsstring)
  (svelteASTNodes : SvelteASTNodes) :
  match findTemplateSnippetBlock name svelteASTNodes with
  | Some block =>
    In block (snippetBlocks svelteASTNodes) /\ snippet_name block = name
  | None =>
    Forall (fun block => snippet_name block <> name)
      (snippetBlocks svelteASTNodes)
  end.
Proof.
  unfold findTemplateSnippetBlock.
  destruct (List.find _ (snippetBlocks svelteASTNodes)) as [block|] eqn:Hf.
  - apply List.find_some in Hf as (Hin & Hname).
    apply bool_decide_eq_true_1 in Hname. now split.
  - apply List.Forall_forall. intros block Hin Hname.
    pose proof (List.find_none _ _ Hf block Hin) as Hb. simpl in Hb.
    apply bool_decide_eq_false_1 in Hb. congruence.
Qed.

Section Recovery.
Context `{Deps}.

(** Inline static content is always recovered: a story with child nodes and
    no [children] snippet block among them gets the sanitized slice from its
    first to its last child node, which holds no line feed. *)
Theorem inline_static_content_is_recovered (component : ComponentNode)
  (svelteASTNodes : SvelteASTNodes) (originalCode : jsstring)
  (filename : option jsstring) (firstNode : TemplateNode)
  (rest : list TemplateNode) :
  component_nodes component = firstNode :: rest ->
  extractStoryChildrenSnippetBlock component = None ->
  getStoryChildrenRawSource component svelteASTNodes originalCode filename
  = Ok (sanitizeCodeSlice
          (slice originalCode (node_start firstNode)
             (node_end (List.last rest firstNode))))
  /\ ~ In 10 (sanitizeCodeSlice
                (slice originalCode (node_start firstNode)
                   (node_end (List.last rest firstNode)))).
Proof.
  intros Hnodes Hnone. split; [|apply sanitizeCodeSlice_clean].
  unfold getStoryChildrenRawSource. rewrite Hnodes, Hnone.
  do 3 f_equal. destruct rest; reflexivity.
Qed.

(** A [children] attribute that names a declared snippet block decides the
    raw source of a self-closing story: it is the body of that block,
    whether or not [setTemplate] is called. *)
Theorem children_attribute_wins (component : ComponentNode)
  (svelteASTNodes : SvelteASTNodes) (originalCode : jsstring)
  (filename : option jsstring) (name : jsstring)
  (more : list AttributeValuePart) (block : SnippetBlockNode) :
  component_nodes component = [] ->
  extractStoryAttributesNodes component [js "children"] (js "children")
  = Some (ValueParts (ExpressionTag (Identifier name) :: more)) ->
  findTemplateSnippetBlock name svelteASTNodes = Some block ->
  getStoryChildrenRawSource component svelteASTNodes originalCode filename
  = getSnippetBlockBodyRawCode originalCode block
  /\ snippet_name block = name.
Proof.
  intros Hnodes Hchildren Hfind. split.
  - unfold getStoryChildrenRawSource, findChildrenPropSnippetBlock.
    now rewrite Hnodes, Hchildren, Hfind.
  - pose proof (findTemplateSnippetBlock_found name svelteASTNodes) as Hf.
    rewrite Hfind in Hf. apply Hf.
Qed.

(** A [children] attribute of a self-closing story that is bare, starts
    with a text, or starts with an expression other than an identifier is an
    invalid-schema error naming the file, whatever else the file holds. *)
Theorem malformed_children_attribute_is_fatal (component : ComponentNode)
  (svelteASTNodes : SvelteASTNodes) (originalCode : jsstring)
  (filename : option jsstring) (value : AttributeValue) :
  component_nodes component = [] ->
  extractStoryAttributesNodes component [js "children"] (js "children")
  = Some value ->
  (value = ValueTrue
   \/ (exists data more, value = ValueParts (Text data :: more))
   \/ (exists expression more,
         value = ValueParts (ExpressionTag expression :: more)
         /\ forall name, expression <> Identifier name)) ->
  getStoryChildrenRawSource component svelteASTNodes originalCode filename
  = Throw (InvalidChildrenSchema filename).
Proof.
  intros Hnodes Hchildren Hbad.
  unfold getStoryChildrenRawSource, findChildrenPropSnippetBlock.
  rewrite Hnodes, Hchildren.
  destruct Hbad as [->|[(data & more & ->)|(ex & more & -> & Hex)]];
    try reflexivity.
  destruct ex; try reflexivity. now destruct (Hex name).
Qed.

(** A snippet block with an empty body makes the recovery crash: a
    self-closing story whose [children] attribute names it gets a
    TypeError. *)
Theorem empty_snippet_body_crashes (component : ComponentNode)
  (svelteASTNodes : SvelteASTNodes) (originalCode : jsstring)
  (filename : option jsstring) (name : jsstring)
  (more : list AttributeValuePart) (block : SnippetBlockNode) :
  component_nodes component = [] ->
  extractStoryAttributesNodes component [js "children"] (js "children")
  = Some (ValueParts (ExpressionTag (Identifier name) :: more)) ->
  findTemplateSnippetBlock name svelteASTNodes = Some block ->
  snippet_body block = [] ->
  getStoryChildrenRawSource component svelteASTNodes originalCode filename
  = Throw TypeError.
Proof.
  intros Hnodes Hchildren Hfind Hbody.
  unfold getStoryChildrenRawSource, findChildrenPropSnippetBlock.
  rewrite Hnodes, Hchildren, Hfind. simpl.
  unfold getSnippetBlockBodyRawCode. now rewrite Hbody.
Qed.

(** A self-closing story without [children] attribute in a file without
    [setTemplate] gets the placeholder for the component named in the meta,
    for an unspecified component when the meta names none, and an
    invalid-schema error when the meta's component is no identifier. *)
Theorem plain_story_gets_placeholder (component : ComponentNode)
  (svelteASTNodes : SvelteASTNodes) (originalCode : jsstring)
  (filename : option jsstring) :
  component_nodes component = [] ->
  extractStoryAttributesNodes component [js "children"] (js "children") = None ->
  setTemplateCall svelteASTNodes = None ->
  getStoryChildrenRawSource component svelteASTNodes originalCode filename
  = match extractMetaPropertiesNodes svelteASTNodes [js "component"]
            (js "component") with
    | None => Ok (js "<!unspecified {...args} />")
    | Some (Identifier name) => Ok (js "<" ++ name ++ js " {...args} />")
    | Some _ => Throw InvalidSchema
    end.
Proof.
  intros Hnodes Hchildren Hset.
  unfold getStoryChildrenRawSource, findChildrenPropSnippetBlock,
    findSetTemplateSnippetBlock, getDefineMetaComponentName.
  rewrite Hnodes, Hchildren, Hset. simpl.
  destruct (extractMetaPropertiesNodes svelteASTNodes _ _) as [[]|]; reflexivity.
Qed.

End Recovery.

Lemma inline_static_content_is_recovered_witness :
  component_nodes MoreExamples.story_with_inline
  = OtherNode [] 22 25 :: [OtherNode [] 25 32; OtherNode [] 32 33]
  /\ @extractStoryChildrenSnippetBlock Examples.rawsource_deps
       MoreExamples.story_with_inline = None
  /\ @getStoryChildrenRawSource Examples.rawsource_deps
       MoreExamples.story_with_inline Examples.no_snippets
       MoreExamples.inline_source None
     = Ok (js "<Btn />").
Proof.
  split; [reflexivity|]. split; [reflexivity|].
  exact (proj1 (@inline_static_content_is_recovered Examples.rawsource_deps
                  MoreExamples.story_with_inline Examples.no_snippets
                  MoreExamples.inline_source None (OtherNode [] 22 25)
                  [OtherNode [] 25 32; OtherNode [] 32 33] eq_refl eq_refl)).
Defined.

Lemma children_attribute_wins_witness :
  component_nodes MoreExamples.story_with_tmpl = []
  /\ @extractStoryAttributesNodes Examples.rawsource_deps
       MoreExamples.story_with_tmpl [js "children"] (js "children")
     = Some (ValueParts [ExpressionTag (Identifier (js "tmpl"))])
  /\ findTemplateSnippetBlock (js "tmpl") MoreExamples.tmpl_nodes
     = Some MoreExamples.tmpl_block
  /\ @getStoryChildrenRawSource Examples.rawsource_deps
       MoreExamples.story_with_tmpl MoreExamples.tmpl_nodes
       MoreExamples.tmpl_source None
     = Ok (js "<Btn {...args}/>").
Proof.
  split; [reflexivity|]. split; [reflexivity|]. split; [reflexivity|].
  exact (proj1 (@children_attribute_wins Examples.rawsource_deps
                  MoreExamples.story_with_tmpl MoreExamples.tmpl_nodes
                  MoreExamples.tmpl_source None (js "tmpl") []
                  MoreExamples.tmpl_block eq_refl eq_refl eq_refl)).
Defined.

Lemma malformed_children_attribute_is_fatal_witness :
  component_nodes MoreExamples.story_with_text_children = []
  /\ @extractStoryAttributesNodes Examples.rawsource_deps
       MoreExamples.story_with_text_children [js "children"] (js "children")
     = Some (ValueParts [Text (js "tmpl")])
  /\ @getStoryChildrenRawSource Examples.rawsource_deps
       MoreExamples.story_with_text_children MoreExamples.tmpl_nodes
       MoreExamples.tmpl_source (Some (js "Button.stories.svelte"))
     = Throw (InvalidChildrenSchema (Some (js "Button.stories.svelte"))).
Proof.
  split; [reflexivity|]. split; [reflexivity|].
  exact (@malformed_children_attribute_is_fatal Examples.rawsource_deps
           MoreExamples.story_with_text_children MoreExamples.tmpl_nodes
           MoreExamples.tmpl_source (Some (js "Button.stories.svelte"))
           (ValueParts [Text (js "tmpl")]) eq_refl eq_refl
           (or_intror (or_introl
              (ex_intro _ (js "tmpl") (ex_intro _ [] eq_refl))))).
Defined.

Lemma empty_snippet_body_crashes_witness :
  component_nodes MoreExamples.story_with_empty = []
  /\ @extractStoryAttributesNodes Examples.rawsource_deps
       MoreExamples.story_with_empty [js "children"] (js "children")
     = Some (ValueParts [ExpressionTag (Identifier (js "empty"))])
  /\ findTemplateSnippetBlock (js "empty") MoreExamples.empty_block_nodes
     = Some MoreExamples.empty_block
  /\ snippet_body MoreExamples.empty_block = []
  /\ @getStoryChildrenRawSource Examples.rawsource_deps
       MoreExamples.story_with_empty MoreExamples.empty_block_nodes []
       (Some (js "Button.stories.svelte"))
     = Throw TypeError.
Proof.
  split; [reflexivity|]. split; [reflexivity|]. split; [reflexivity|].
  split; [reflexivity|].
  exact (@empty_snippet_body_crashes Examples.rawsource_deps
           MoreExamples.story_with_empty MoreExamples.empty_block_nodes []
           (Some (js "Button.stories.svelte")) (js "empty") []
           MoreExamples.empty_block eq_refl eq_refl eq_refl eq_refl).
Defined.

Lemma plain_story_gets_placeholder_witness :
  component_nodes MoreExamples.plain_story = []
  /\ @extractStoryAttributesNodes Examples.rawsource_deps
       MoreExamples.plain_story [js "children"] (js "children") = None
  /\ setTemplateCall MoreExamples.button_meta = None
  /\ @getStoryChildrenRawSource Examples.rawsource_deps
       MoreExamples.plain_story MoreExamples.button_meta [] None
     = Ok (js "<Button {...args} />").
Proof.
  split; [reflexivity|]. split; [reflexivity|]. split; [reflexivity|].
  exact (@plain_story_gets_placeholder Examples.rawsource_deps
           MoreExamples.plain_story MoreExamples.button_meta [] None
           eq_refl eq_refl eq_refl).
Defined.

End RawSourceMore.

(** * Further properties of the compiled-output locator *)

Module LocatorMore.
Import CompiledNodes LocatorStatements.

Section Consistency.
Context `{Env}.
Variable filename : option jsstring.

Lemma visitSpecifier_consistent specifier state state' :
  consistent state ->
  visitSpecifier filename specifier state = Ok state' -> consistent state'.
Proof.
  intros (Hi & Hd & He & Hf) Hv.
  destruct specifier as [imported l| |]; simpl in Hv; try discriminate.
  inversion Hv; subst state'; clear Hv. unfold visitImportSpecifier.
  case_bool_decide as Himp; [|now repeat split].
  unfold consistent; simpl. repeat split; auto.
  destruct (defineMetaVariableDeclaration state) as [d|]; [|exact Hd].
  destruct (declarator_id (declarations_0 d)); try exact Hd.
  destruct (declarator_init (declarations_0 d)) as [[]|]; try exact Hd.
  destruct callee; try exact Hd. discriminate.
Qed.

Lemma visitVariableDeclaration_consistent d state :
  consistent state -> consistent (visitVariableDeclaration d state).
Proof.
  intros (Hi & Hd & He & Hf). unfold visitVariableDeclaration.
  destruct (declarator_id (declarations_0 d)) as [|properties|] eqn:Hid;
    try (now repeat split).
  destruct (declarator_init (declarations_0 d)) as [[| | |callee args| |]|] eqn:Hinit;
    try (now repeat split).
  destruct callee as [|callee| | | |]; try (now repeat split).
  case_bool_decide as Hlocal; [|now repeat split].
  unfold consistent; simpl. rewrite Hid, Hinit. repeat split; auto.
  destruct (defineMetaImport state); [discriminate|]. simpl in Hlocal.
  discriminate.
Qed.

Lemma visit_consistent (n : Node) :
  forall state state', consistent state ->
  visit filename n state = Ok state' -> consistent state'.
Proof.
  induction n as [source specifiers|d|declaration|id|children IH]
    using CompiledNodesFacts.Node_walk_ind; intros state state' Hc Hv;
    simpl in Hv.
  - case_bool_decide; [|now inversion Hv; subst].
    revert state Hc Hv. induction specifiers as [|sp specifiers IHs];
      intros state Hc Hv; simpl in Hv; [now inversion Hv; subst|].
    apply FragmentFacts.bind_Ok in Hv as (s1 & Hs1 & Hv).
    eapply IHs; [|exact Hv]. eapply visitSpecifier_consistent; eassumption.
  - inversion Hv; subst. now apply visitVariableDeclaration_consistent.
  - inversion Hv; subst. destruct Hc as (Hi & Hd & He & Hf).
    unfold visitExportDefaultDeclaration, consistent; simpl.
    repeat split; auto.
    destruct declaration as [| | |id|]; try exact Hf.
    destruct (bool_decide _ && isStoriesComponentFn id) eqn:Hb; [|exact Hf].
    now apply andb_true_iff in Hb.
  - inversion Hv; subst. destruct Hc as (Hi & Hd & He & Hf).
    unfold visitFunctionDeclaration.
    destruct (isStoriesComponentFn id) eqn:Hid; [|now repeat split].
    unfold consistent; simpl. now repeat split.
  - revert state Hc Hv. induction IH as [|c children Hcn _ IHc];
      intros state Hc Hv; simpl in Hv; [now inversion Hv; subst|].
    apply FragmentFacts.bind_Ok in Hv as (s1 & Hs1 & Hv).
    eapply IHc; [|exact Hv]. eapply Hcn; eassumption.
Qed.

Lemma visit_all_consistent (ast : list Node) :
  forall state state', consistent state ->
  visit_all (visit filename) ast state = Ok state' -> consistent state'.
Proof.
  induction ast as [|n ast IH]; intros state state' Hc Hv; simpl in Hv;
    [now inversion Hv; subst|].
  apply FragmentFacts.bind_Ok in Hv as (s1 & Hs1 & Hv).
  eapply IH; [|exact Hv]. eapply visit_consistent; eassumption.
Qed.

(** What the locator returns is what it was asked for: an import specifier
    that imports [defineMeta], a declaration that destructures a call of an
    identifier, a default export, and a function declaration whose name ends
    with [_stories]. *)
Theorem located_nodes_are_of_their_kind (ast : list Node) :
  match extractCompiledASTNodes ast filename with
  | Ok found =>
    (exists l, found_defineMetaImport found = ImportSpecifier (js "defineMeta") l)
    /\ (exists properties callee arguments,
          declarator_id
            (declarations_0 (found_defineMetaVariableDeclaration found))
          = ObjectPattern properties
          /\ declarator_init
               (declarations_0 (found_defineMetaVariableDeclaration found))
             = Some (CallExpression (Identifier callee) arguments))
    /\ (exists declaration,
          found_exportDefault found = ExportDefaultDeclaration declaration)
    /\ (exists name,
          found_storiesFunctionDeclaration found
          = FunctionDeclaration (Some name)
          /\ endsWith name (js "_stories") = true)
  | Throw _ => True
  end.
Proof.
  unfold extractCompiledASTNodes.
  destruct (visit_all (visit filename) ast empty_state) as [state|e] eqn:Hw;
    simpl; [|exact I].
  assert (Hc : consistent state).
  { eapply visit_all_consistent; [|exact Hw]. now repeat split. }
  destruct Hc as (Hi & Hd & He & Hf).
  destruct (defineMetaImport state) as [imp|]; [|exact I].
  destruct (defineMetaVariableDeclaration state) as [d|]; [|exact I].
  destruct (exportDefault state) as [ex|]; [|exact I].
  destruct (storyIdentifier state) as [sid|]; [|exact I].
  destruct (storiesFunctionDeclaration state) as [fn|]; [|exact I].
  simpl. split; [|split; [|split]].
  - destruct imp as [imported l| |]; try contradiction. subst. now exists l.
  - destruct (declarator_id (declarations_0 d)); try contradiction.
    destruct (declarator_init (declarations_0 d)) as [[]|]; try contradiction.
    destruct callee; try contradiction. eauto.
  - destruct ex; try contradiction. eauto.
  - destruct fn as [| | |[name|]|]; try contradiction; try discriminate.
    eauto.
Qed.

(** Every error of the locator names the file at the end of its message. *)
Theorem locator_errors_name_the_file (ast : list Node) :
  match extractCompiledASTNodes ast filename with
  | Ok _ => True
  | Throw (JsError message) =>
    exists text, message = text ++ template_string filename
  end.
Proof.
  unfold extractCompiledASTNodes.
  destruct (visit_all (visit filename) ast empty_state) as [state|e] eqn:Hw;
    cbn [bind].
  - destruct (defineMetaImport state) as [imp|];
      [|eexists; rewrite !List.app_assoc; reflexivity].
    destruct (defineMetaVariableDeclaration state) as [d|];
      [|eexists; unfold in_compiled_output; rewrite !List.app_assoc;
        reflexivity].
    destruct (exportDefault state) as [ex|];
      [|eexists; unfold in_compiled_output; rewrite !List.app_assoc;
        reflexivity].
    destruct (storyIdentifier state) as [sid|];
      [|eexists; unfold in_compiled_output; rewrite !List.app_assoc;
        reflexivity].
    destruct (storiesFunctionDeclaration state) as [fn|]; [exact I|].
    eexists; unfold in_compiled_output; rewrite !List.app_assoc; reflexivity.
  - apply visit_all_Throw in Hw as (x & s & _ & Hx).
    apply CompiledNodesFacts.visit_Throw in Hx. subst e.
    eexists. unfold defaultOrNamespaceImportMessage.
    rewrite !List.app_assoc. reflexivity.
Qed.

Lemma visit_without_import (n : Node) :
  imports_package pkg_name n = false ->
  forall state, defineMetaImport state = None ->
  exists state', visit filename n state = Ok state'
                 /\ defineMetaImport state' = None.
Proof.
  induction n as [source specifiers|d|declaration|id|children IH]
    using CompiledNodesFacts.Node_walk_ind; intros Hn state Hs; simpl in *.
  - rewrite Hn. eauto.
  - eexists; split; [reflexivity|]. unfold visitVariableDeclaration.
    destruct (declarator_id _); try exact Hs.
    destruct (declarator_init _) as [[]|]; try exact Hs.
    destruct callee; try exact Hs. rewrite Hs. simpl. exact Hs.
  - eexists; split; [reflexivity|exact Hs].
  - eexists; split; [reflexivity|]. unfold visitFunctionDeclaration.
    now destruct (isStoriesComponentFn id).
  - revert state Hs. induction IH as [|c children Hc _ IHc]; intros state Hs;
      simpl; [eauto|].
    simpl in Hn. apply orb_false_iff in Hn as (Hn1 & Hn2).
    destruct (Hc Hn1 state Hs) as (s1 & Hv1 & Hs1). rewrite Hv1. simpl.
    apply (IHc Hn2 s1 Hs1).
Qed.

(** A program in which the walker meets no import of the package fails
    with the message that [defineMeta] could not be found. *)
Theorem no_import_of_the_package (ast : list Node) :
  existsb (imports_package pkg_name) ast = false ->
  extractCompiledASTNodes ast filename
  = Throw (JsError
      (js "Could not find 'defineMeta' imported from the " ++ dquote
       ++ pkg_name ++ dquote ++ js " in the compiled output of stories file: "
       ++ template_string filename)).
Proof.
  intros Hno. unfold extractCompiledASTNodes.
  destruct (visit_without_import (Other ast) Hno empty_state eq_refl)
    as (state & Hv & Hs).
  simpl in Hv. rewrite Hv. simpl. now rewrite Hs.
Qed.

End Consistency.

Lemma no_import_of_the_package_witness :
  existsb (imports_package (@pkg_name Examples.env))
    [ ImportDeclaration (js "svelte/internal/client")
        [ImportNamespaceSpecifier (js "$")];
      FunctionDeclaration (Some (js "Button_stories")) ] = false
  /\ @extractCompiledASTNodes Examples.env
       [ ImportDeclaration (js "svelte/internal/client")
           [ImportNamespaceSpecifier (js "$")];
         FunctionDeclaration (Some (js "Button_stories")) ]
       (Some (js "Button.stories.svelte"))
     = Throw (JsError
         (js "Could not find 'defineMeta' imported from the " ++ dquote
          ++ js "@storybook/addon-svelte-csf" ++ dquote
          ++ js " in the compiled output of stories file: Button.stories.svelte")).
Proof.
  split; [reflexivity|].
  exact (@no_import_of_the_package Examples.env
           (Some (js "Button.stories.svelte"))
           [ ImportDeclaration (js "svelte/internal/client")
               [ImportNamespaceSpecifier (js "$")];
             FunctionDeclaration (Some (js "Button_stories")) ] eq_refl).
Defined.

End LocatorMore.

(** * Further properties of the indexer pass *)

Module IndexerMore.
Import Indexer IndexerStatements.

Section Pass.
Context `{Deps}.
Variable filename : jsstring.

Lemma visitComponent_Ok legacyTemplate node st st' :
  componentStoryIdentifier st = Some (js "Story") ->
  visitComponent legacyTemplate filename node st = Ok st' ->
  if bool_decide (component_name node = js "Story")
  then exists entry,
         story_entry filename node = Ok entry /\ st' = push_story entry st
  else st' = st.
Proof.
  intros Hid Hv. unfold visitComponent in Hv.
  apply FragmentFacts.bind_Ok in Hv as (s1 & Hs1 & Hv).
  assert (s1 = st) as ->.
  { destruct (negb (foundMeta st) && legacyTemplate && bool_decide _);
      [now apply IndexerFacts.visit_all_MetaAttribute_Ok in Hs1|].
    now inversion Hs1. }
  rewrite Hid in Hv.
  destruct (decide (component_name node = js "Story")) as [Hn|Hn].
  - rewrite bool_decide_eq_true_2 by exact Hn.
    rewrite bool_decide_eq_true_2 in Hv by congruence.
    unfold story_entry.
    destruct (getStoryIdentifiers _ _ _ _) as [ids|e]; simpl in *;
      [|discriminate].
    destruct (getArrayOfStringsValueFromAttribute _ _ _) as [tags|e];
      simpl in *; [|discriminate].
    inversion Hv; subst. eauto.
  - rewrite bool_decide_eq_false_2 by exact Hn.
    rewrite bool_decide_eq_false_2 in Hv by congruence. now inversion Hv.
Qed.

Lemma visitFragment_Ok legacyTemplate nodes :
  forall st st',
  componentStoryIdentifier st = Some (js "Story") ->
  visitFragment legacyTemplate filename nodes st = Ok st' ->
  exists entries,
    Forall2 (fun node entry => story_entry filename node = Ok entry)
      (top_level_stories nodes) entries
    /\ stories (results st') = stories (results st) ++ entries.
Proof.
  unfold visitFragment.
  induction nodes as [|n nodes IH]; intros st st' Hid Hv; simpl in Hv.
  - inversion Hv; subst. exists []. split; [constructor|].
    now rewrite app_nil_r.
  - apply FragmentFacts.bind_Ok in Hv as (s1 & Hs1 & Hv).
    destruct n as [c|name attributes ns s e|x body s e|children s e];
      try (inversion Hs1; subst s1; exact (IH st st' Hid Hv)).
    apply (visitComponent_Ok _ _ _ _ Hid) in Hs1. simpl in Hs1. simpl.
    destruct (bool_decide (name = js "Story")).
    + destruct Hs1 as (entry & Hentry & ->).
      destruct (IH (push_story entry st) st' Hid Hv) as (entries & Hall & Hst).
      exists (entry :: entries). split; [now constructor|].
      rewrite Hst. simpl. now rewrite <- List.app_assoc.
    + subst s1. exact (IH st st' Hid Hv).
Qed.

(** The stories of the result are the entries of the components named
    [Story] that stand directly in the fragment, in document order; a story
    below another node is not indexed. *)
Theorem stories_are_the_top_level_stories (legacyTemplate : bool)
  (svelteAST : RootNode) (r : Results) :
  parseForIndexer filename legacyTemplate svelteAST = Ok r ->
  Forall2 (fun node entry => story_entry filename node = Ok entry)
    (top_level_stories (root_fragment svelteAST)) (stories r).
Proof.
  unfold parseForIndexer. intros Hp.
  apply FragmentFacts.bind_Ok in Hp as (st & Hst & Hp).
  inversion Hp; subst r; clear Hp.
  assert (Hf : visitFragment legacyTemplate filename (root_fragment svelteAST)
                 initial_state = Ok st).
  { unfold visitRoot in Hst. destruct (root_module svelteAST); [exact Hst|].
    destruct legacyTemplate; [exact Hst|discriminate]. }
  destruct (visitFragment_Ok _ _ initial_state st eq_refl Hf)
    as (entries & Hall & Hs).
  simpl in Hs. now rewrite Hs.
Qed.

(** Without a module script the pass fails with the missing-module-tag
    error for the file unless legacy mode is on. *)
Theorem missing_module_tag (svelteAST : RootNode) :
  root_module svelteAST = None ->
  parseForIndexer filename false svelteAST
  = Throw (MissingModuleTagError filename)
  /\ parseForIndexer filename true svelteAST
     = (do st <~ visitFragment true filename (root_fragment svelteAST)
                   initial_state;
        Ok (results st)).
Proof.
  intros Hm. unfold parseForIndexer, visitRoot. rewrite Hm. now split.
Qed.

(** With legacy mode off the [Program] visitor sees the variable
    declarations only: imports, exports and all other statements leave the
    walk as it is. *)
Theorem modern_program_reads_declarations_only (stack : nat)
  (body : list Statement) (st : State) :
  visitProgram stack false filename body st
  = visitProgram stack false filename
      (List.filter is_variable_declaration body) st.
Proof.
  unfold visitProgram. revert st.
  induction body as [|statement body IH]; intros st; [reflexivity|].
  destruct statement as [source specifiers|d|[[]|]|]; simpl; try apply IH.
  destruct (visitVariableDeclaration stack false filename d st); simpl;
    [apply IH|reflexivity].
Qed.

End Pass.

Section Script.
Variable filename : jsstring.

Lemma visit_all_unchanged {A} (visit : A -> State -> result Error State)
  (l : list A) (st : State) :
  Forall (fun x => forall s, visit x s = Ok s) l -> visit_all visit l st = Ok st.
Proof.
  induction 1 as [|x l Hx _ IH]; simpl; [reflexivity|]. now rewrite Hx.
Qed.

(** The [ObjectExpression] visitor either overflows the stack or does
    nothing: with any stack to call it, it throws a RangeError when some
    property has an identifier key and returns the state unchanged
    otherwise. *)
Theorem visitObjectExpression_outcome (stack : nat)
  (properties : list ObjectMember) (st : State) :
  visitObjectExpression (S stack) properties st
  = if existsb is_identifier_property properties then Throw RangeError
    else Ok st.
Proof.
  destruct (existsb is_identifier_property properties) eqn:Hex.
  - apply List.existsb_exists in Hex as (property & Hin & Hid).
    now apply IndexerFacts.visitObjectExpression_overflow with property.
  - cbn [visitObjectExpression]. apply visit_all_unchanged.
    apply List.Forall_forall. intros property Hin s.
    destruct (is_identifier_property property) eqn:Hid; [|reflexivity].
    assert (existsb is_identifier_property properties = true)
      by (apply List.existsb_exists; eauto).
    congruence.
Qed.

(** The [ImportDeclaration] visitor in legacy mode accepts no import with
    a specifier: a named first specifier gives a TypeError, a default or
    namespace one the import error for the file.  With legacy mode off it
    accepts exactly the imports made of named specifiers. *)
Theorem visitImportDeclaration_outcome (specifier : ImportSpecifierNode)
  (specifiers : list ImportSpecifierNode) (st : State) :
  visitImportDeclaration true filename (specifier :: specifiers) st
  = Throw (if is_import_specifier specifier then TypeError
           else DefaultOrNamespaceImportUsedError filename)
  /\ visitImportDeclaration false filename (specifier :: specifiers) st
     = if forallb is_import_specifier (specifier :: specifiers) then Ok st
       else Throw (DefaultOrNamespaceImportUsedError filename).
Proof.
  split.
  - unfold visitImportDeclaration. simpl. now destruct specifier.
  - unfold visitImportDeclaration. generalize (specifier :: specifiers).
    intros l. revert st. induction l as [|sp l IH]; intros st; [reflexivity|].
    simpl. destruct sp; simpl; try reflexivity. apply IH.
Qed.

(** A declaration [const { Story: local } = defineMeta({ ... })] whose
    object has no property under an identifier key marks the meta as found
    and makes [local] the story identifier; with such a property it
    overflows the stack. *)
Theorem defineMeta_declaration_sets_the_alias (stack : nat)
  (legacyTemplate : bool) (node : VariableDeclarationNode) (st : State)
  (pattern : list PatternMember) (more : list Expression)
  (properties : list ObjectMember) (local_ : jsstring) :
  declarator_id (declarations_0 node) = ObjectPattern pattern ->
  declarator_init (declarations_0 node)
  = Some (CallExpression (Identifier (defineMetaIdentifier st))
            (ObjectExpression properties :: more)) ->
  find_story_property (componentStoryIdentifier st) pattern
  = Some (IdentifierPattern local_) ->
  visitVariableDeclaration (S stack) legacyTemplate filename node st
  = if existsb is_identifier_property properties then Throw RangeError
    else Ok (set_componentStoryIdentifier (Some local_) (set_foundMeta true st)).
Proof.
  intros Hid Hinit Hfind. unfold visitVariableDeclaration.
  rewrite Hid, Hinit. rewrite bool_decide_eq_true_2 by reflexivity.
  cbn [componentStoryIdentifier set_foundMeta]. rewrite Hfind.
  cbn [pattern_name]. rewrite visitObjectExpression_outcome.
  now destruct (existsb is_identifier_property properties).
Qed.

End Script.

Lemma stories_are_the_top_level_stories_witness :
  @parseForIndexer Examples.indexer_deps (js "Button.stories.svelte") false
    MoreExamples.indexed_file = Ok MoreExamples.indexed_result
  /\ Forall2
       (fun node entry =>
          @story_entry Examples.indexer_deps (js "Button.stories.svelte") node
          = Ok entry)
       (top_level_stories (root_fragment MoreExamples.indexed_file))
       (stories MoreExamples.indexed_result).
Proof.
  assert (Hp : @parseForIndexer Examples.indexer_deps
                 (js "Button.stories.svelte") false MoreExamples.indexed_file
               = Ok MoreExamples.indexed_result) by (vm_compute; reflexivity).
  split; [exact Hp|].
  exact (@stories_are_the_top_level_stories Examples.indexer_deps
           (js "Button.stories.svelte") false MoreExamples.indexed_file
           MoreExamples.indexed_result Hp).
Defined.

Lemma missing_module_tag_witness :
  root_module Examples.legacy_file = None
  /\ @parseForIndexer Examples.indexer_deps (js "Button.stories.svelte") false
       Examples.legacy_file
     = Throw (MissingModuleTagError (js "Button.stories.svelte")).
Proof.
  split; [reflexivity|].
  exact (proj1 (@missing_module_tag Examples.indexer_deps
                  (js "Button.stories.svelte") Examples.legacy_file eq_refl)).
Defined.

Lemma defineMeta_declaration_sets_the_alias_witness :
  declarator_id (declarations_0 MoreExamples.aliased_declaration)
  = ObjectPattern
      [AssignmentProperty (Identifier (js "Story")) (IdentifierPattern (js "S"))]
  /\ declarator_init (declarations_0 MoreExamples.aliased_declaration)
     = Some (CallExpression (Identifier (defineMetaIdentifier initial_state))
               [ObjectExpression [SpreadElement (Identifier (js "shared"))]])
  /\ find_story_property (componentStoryIdentifier initial_state)
       [AssignmentProperty (Identifier (js "Story")) (IdentifierPattern (js "S"))]
     = Some (IdentifierPattern (js "S"))
  /\ visitVariableDeclaration 1 false (js "Button.stories.svelte")
       MoreExamples.aliased_declaration initial_state
     = Ok (set_componentStoryIdentifier (Some (js "S"))
             (set_foundMeta true initial_state)).
Proof.
  split; [reflexivity|]. split; [reflexivity|]. split; [reflexivity|].
  exact (defineMeta_declaration_sets_the_alias (js "Button.stories.svelte")
           0 false MoreExamples.aliased_declaration initial_state
           [AssignmentProperty (Identifier (js "Story"))
              (IdentifierPattern (js "S"))]
           [] [SpreadElement (Identifier (js "shared"))] (js "S")
           eq_refl eq_refl eq_refl).
Defined.

End IndexerMore.

(** * Properties of the stories template context *)

Module TemplateContextFacts.
Import TemplateContext.

Section Facts.
Context {Snippet : Type}.
Implicit Types contexts : gmap jsstring (option Snippet).

Lemma ensureContext_lookup contexts :
  is_Some (ensureContext Snippet contexts !! CONTEXT_KEYS).
Proof.
  unfold ensureContext, hasContext. case_bool_decide as Hc; [exact Hc|].
  rewrite lookup_insert_eq. eauto.
Qed.

Lemma ensureContext_fixed contexts :
  is_Some (contexts !! CONTEXT_KEYS) -> ensureContext Snippet contexts = contexts.
Proof.
  intros Hc. unfold ensureContext, hasContext.
  now rewrite bool_decide_eq_true_2.
Qed.

Lemma setTemplate_lookup snippet contexts :
  setTemplate Snippet snippet contexts !! CONTEXT_KEYS = Some snippet.
Proof.
  unfold setTemplate. rewrite lookup_alter_eq.
  destruct (ensureContext_lookup contexts) as (v & ->). reflexivity.
Qed.

(** The template that was set last is the one that is used: after two
    calls of [setTemplate], [useStoriesTemplate] returns the snippet of the
    second call and leaves the contexts as a single call with that snippet
    leaves them. *)
Theorem template_set_last_is_used (first second : option Snippet) contexts :
  useStoriesTemplate Snippet
    (setTemplate Snippet second (setTemplate Snippet first contexts))
  = (second, setTemplate Snippet second contexts).
Proof.
  assert (Hsame : setTemplate Snippet second (setTemplate Snippet first contexts)
                  = setTemplate Snippet second contexts).
  { unfold setTemplate at 1.
    rewrite ensureContext_fixed by (rewrite setTemplate_lookup; eauto).
    unfold setTemplate. now rewrite alter_alter_eq. }
  rewrite Hsame. unfold useStoriesTemplate.
  rewrite ensureContext_fixed by (rewrite setTemplate_lookup; eauto).
  now rewrite setTemplate_lookup.
Qed.

(** Neither function touches a context under another key, and
    [useStoriesTemplate] without a template context returns undefined and
    registers an empty one. *)
Theorem other_contexts_are_kept (snippet : option Snippet) contexts
  (key : jsstring) :
  key <> CONTEXT_KEYS ->
  setTemplate Snippet snippet contexts !! key = contexts !! key
  /\ snd (useStoriesTemplate Snippet contexts) !! key = contexts !! key
  /\ useStoriesTemplate Snippet (delete CONTEXT_KEYS contexts)
     = (None, <[CONTEXT_KEYS := None]> (delete CONTEXT_KEYS contexts)).
Proof.
  intros Hkey.
  assert (He : ensureContext Snippet contexts !! key = contexts !! key).
  { unfold ensureContext. destruct (hasContext _ _ _); [reflexivity|].
    now rewrite lookup_insert_ne. }
  split; [|split].
  - unfold setTemplate. now rewrite lookup_alter_ne.
  - exact He.
  - unfold useStoriesTemplate, ensureContext, hasContext.
    rewrite bool_decide_eq_false_2
      by (rewrite lookup_delete_eq; apply is_Some_None).
    now rewrite lookup_insert_eq.
Qed.

End Facts.

Lemma other_contexts_are_kept_witness :
  js "theme" <> CONTEXT_KEYS
  /\ setTemplate jsstring (Some (js "tmpl")) {[ js "theme" := Some (js "dark") ]}
     !! js "theme"
     = ({[ js "theme" := Some (js "dark") ]} : gmap jsstring (option jsstring))
       !! js "theme".
Proof.
  assert (Hne : js "theme" <> CONTEXT_KEYS) by discriminate.
  split; [exact Hne|].
  exact (proj1 (@other_contexts_are_kept jsstring (Some (js "tmpl"))
                  {[ js "theme" := Some (js "dark") ]} (js "theme") Hne)).
Defined.

End TemplateContextFacts.
